(** * MarketWatch activity feed: transaction extraction and feed assembly

    A shallow embedding of [competition_scraper.py],
    [marketwatch_scraper.py], [leaderboard_scraper.py] and the run of
    [auto_scraper.py], and the properties of the transaction pipeline:
    row parsing, deduplication, timestamp normalisation, the assembly of
    the sorted activity feed and the reading of the leaderboard. *)

From Stdlib Require Import ZArith QArith Ascii String List Permutation Sorted Lia.
From stdpp Require Import base decidable option list gmap strings.

Local Open Scope string_scope.
Local Open Scope list_scope.
Local Open Scope Z_scope.
#[local] Set Warnings "-register-all".

(** ** Python text

    A Python [str] is modelled by a Rocq [string] whose characters are the
    code points below 256 (one [ascii] per code point, Latin-1).  The
    character classes below are Python's on that range. *)

Module Py.

(** Exceptions of the kinds the scrapers catch; all derive from
    [Exception]. *)
Inductive exn := ValueError | IndexError | AttributeError | JSONDecodeError.

Inductive result (A : Type) :=
| Ok (a : A)
| Raise (e : exn).
Arguments Ok {A} a.
Arguments Raise {A} e.

Definition bind {A B} (r : result A) (f : A → result B) : result B :=
  match r with
  | Ok a => f a
  | Raise e => Raise e
  end.

Definition raises {A} (r : result A) : Prop := ∃ e, r = Raise e.

(** [c.isspace()]: TAB..CR, FS..US, SPACE, NEL and NBSP. *)
Definition isspace_char (c : ascii) : bool :=
  let n := N_of_ascii c in
  ((9 <=? n) && (n <=? 13) || (28 <=? n) && (n <=? 32) || (n =? 133) || (n =? 160))%N.

(** [c.isdecimal()]: the digits [int()] and the regex class [\d] accept. *)
Definition isdecimal_char (c : ascii) : bool :=
  let n := N_of_ascii c in ((48 <=? n) && (n <=? 57))%N.

(** [c.isdigit()]: the decimal digits and the superscript digits
    U+00B2, U+00B3 and U+00B9, whose Unicode numeric type is Digit. *)
Definition isdigit_char (c : ascii) : bool :=
  let n := N_of_ascii c in
  (isdecimal_char c || (n =? 178) || (n =? 179) || (n =? 185))%N.

(** [c.lower()] *)
Definition lower_char (c : ascii) : ascii :=
  let n := N_of_ascii c in
  if ((65 <=? n) && (n <=? 90) || (192 <=? n) && (n <=? 222) && negb (n =? 215))%N
  then ascii_of_N (n + 32) else c.

Definition is_empty (s : string) : bool :=
  match s with EmptyString => true | String _ _ => false end.

Fixpoint lower (s : string) : string :=
  match s with
  | EmptyString => EmptyString
  | String c s' => String (lower_char c) (lower s')
  end.

Fixpoint lstrip_of (p : ascii → bool) (s : string) : string :=
  match s with
  | EmptyString => EmptyString
  | String c s' => if p c then lstrip_of p s' else s
  end.

Fixpoint rstrip_of (p : ascii → bool) (s : string) : string :=
  match s with
  | EmptyString => EmptyString
  | String c s' =>
      match rstrip_of p s' with
      | EmptyString => if p c then EmptyString else String c EmptyString
      | r => String c r
      end
  end.

(** [s.strip()] *)
Definition strip (s : string) : string :=
  lstrip_of isspace_char (rstrip_of isspace_char s).

(** [sub in s] *)
Fixpoint contains (sub s : string) : bool :=
  String.prefix sub s ||
  match s with
  | EmptyString => false
  | String _ s' => contains sub s'
  end.

(** [s.split()]: the maximal runs of non-whitespace characters.  [cur] is
    the run being read. *)
Fixpoint split_ws_from (cur : string) (s : string) : list string :=
  match s with
  | EmptyString => if is_empty cur then [] else [cur]
  | String c s' =>
      if isspace_char c
      then (if is_empty cur then split_ws_from "" s' else cur :: split_ws_from "" s')
      else split_ws_from (cur +:+ String c "") s'
  end.

Definition split_ws (s : string) : list string := split_ws_from "" s.

(** The first whitespace-delimited token of a text: the leading
    whitespace passed over, then the characters up to the next
    whitespace. *)
Fixpoint take_nonspace (s : string) : string :=
  match s with
  | EmptyString => EmptyString
  | String c s' => if isspace_char c then EmptyString else String c (take_nonspace s')
  end.

Definition first_token (s : string) : string :=
  take_nonspace (lstrip_of isspace_char s).

(** [s.split(sep)] for a one-character separator: every occurrence
    splits, empty pieces are kept. *)
Fixpoint split_from (sep : ascii) (cur : string) (s : string) : list string :=
  match s with
  | EmptyString => [cur]
  | String c s' =>
      if Ascii.eqb c sep
      then cur :: split_from sep "" s'
      else split_from sep (cur +:+ String c "") s'
  end.

Definition split (sep : ascii) (s : string) : list string := split_from sep "" s.

(** [s.replace(old, new)] for a non-empty [old]: the occurrences are
    found left to right and do not overlap.  [skip] counts the characters
    of a found occurrence still to pass over. *)
Fixpoint replace_from (old new : string) (skip : nat) (s : string) : string :=
  match s with
  | EmptyString => EmptyString
  | String c s' =>
      match skip with
      | S k => replace_from old new k s'
      | O =>
          if String.prefix old s
          then new +:+ replace_from old new (Nat.pred (String.length old)) s'
          else String c (replace_from old new 0 s')
      end
  end.

Definition replace (old new : string) (s : string) : string :=
  replace_from old new 0 s.

Fixpoint zeros (n : nat) : string :=
  match n with
  | O => EmptyString
  | S k => String "0" (zeros k)
  end.

(** [s.zfill(width)]: zeros go after a leading sign. *)
Definition zfill (width : nat) (s : string) : string :=
  let pad := zeros (width - String.length s) in
  match s with
  | String c s' =>
      if Ascii.eqb c "+" || Ascii.eqb c "-" then String c (pad +:+ s') else pad +:+ s
  | EmptyString => pad
  end.

Fixpoint all_chars (p : ascii → bool) (s : string) : bool :=
  match s with
  | EmptyString => true
  | String c s' => p c && all_chars p s'
  end.

(** [s.isdigit()]: at least one character, and all of them digits. *)
Definition isdigit (s : string) : bool :=
  negb (is_empty s) && all_chars isdigit_char s.

Definition digit_value (c : ascii) : Z := Z.of_N (N_of_ascii c) - 48.

(** The value of a run of decimal digits read after [acc]. *)
Fixpoint digits_value (acc : Z) (s : string) : Z :=
  match s with
  | EmptyString => acc
  | String c s' => digits_value (10 * acc + digit_value c) s'
  end.

(** The digit groups of an integer literal: decimal digits, a single
    underscore allowed between two digits. *)
Fixpoint int_digits (prev_digit : bool) (s : string) : bool :=
  match s with
  | EmptyString => prev_digit
  | String c s' =>
      if isdecimal_char c then int_digits true s'
      else if Ascii.eqb c "_" then prev_digit && negb (is_empty s') && int_digits false s'
      else false
  end.

Fixpoint drop_underscores (s : string) : string :=
  match s with
  | EmptyString => EmptyString
  | String c s' =>
      if Ascii.eqb c "_" then drop_underscores s' else String c (drop_underscores s')
  end.

(** The blanks [int()] passes over at both ends: the C whitespace
    characters, and NEL and NBSP. *)
Definition int_space_char (c : ascii) : bool :=
  let n := N_of_ascii c in
  ((9 <=? n) && (n <=? 13) || (n =? 32) || (n =? 133) || (n =? 160))%N.

(** The default limit of CPython on the digits of a text converted to
    an integer ([sys.int_info.default_max_str_digits]). *)
Definition max_str_digits : nat := 4300.

(** [int(s)] on a [str]: surrounding blanks and one sign are accepted;
    anything that is not a decimal literal raises [ValueError], and so
    does a literal of more digits than the limit. *)
Definition int (s : string) : result Z :=
  let body := lstrip_of int_space_char (rstrip_of int_space_char s) in
  let '(neg, ds) :=
    match body with
    | String c s' =>
        if Ascii.eqb c "-" then (true, s')
        else if Ascii.eqb c "+" then (false, s') else (false, body)
    | EmptyString => (false, body)
    end in
  if int_digits false ds
  then
    let digits := drop_underscores ds in
    if (max_str_digits <? String.length digits)%nat then Raise ValueError
    else let v := digits_value 0 digits in Ok (if neg then - v else v)
  else Raise ValueError.

(** The text [s] with every [c] taken out. *)
Fixpoint without (c : ascii) (s : string) : string :=
  match s with
  | EmptyString => EmptyString
  | String d s' => if Ascii.eqb d c then without c s' else String d (without c s')
  end.

(** [l.sort(key=key, reverse=True)].  The sort is stable: the result is
    in descending key order and elements with equal keys keep their
    order.  One list only meets that contract (see [sort_reverse_unique]
    below), so the model is an insertion sort: [x] goes before the first
    element whose key is not greater than its own. *)
Section Sort.
Context {A K : Type} (ltb : K → K → bool) (key : A → K).

Fixpoint insert_reverse (x : A) (l : list A) : list A :=
  match l with
  | [] => [x]
  | y :: l' => if ltb (key x) (key y) then y :: insert_reverse x l' else x :: l
  end.

Definition sort_reverse (l : list A) : list A := foldr insert_reverse [] l.

(** [x] may stand before [y] in descending order: its key is not the
    smaller one. *)
Definition not_below (x y : A) : Prop := ltb (key x) (key y) = false.
End Sort.

End Py.

(** ** Calendar date-times and [datetime.strptime]

    [datetime] values as the scrapers build them: seconds and
    microseconds are always zero and are left out. *)

Module Datetime.

Record datetime := mkDatetime {
  year : Z;
  month : Z;
  day : Z;
  hour : Z;
  minute : Z
}.

#[global] Instance datetime_eq_dec : EqDecision datetime.
Proof. solve_decision. Defined.

(** [datetime.min], 0001-01-01 00:00. *)
Definition min : datetime := mkDatetime 1 1 1 0 0.

(** [a < b]: date-times compare field by field, most significant first. *)
Definition ltb (a b : datetime) : bool :=
  (year a <? year b) || (year a =? year b) &&
  ((month a <? month b) || (month a =? month b) &&
  ((day a <? day b) || (day a =? day b) &&
  ((hour a <? hour b) || (hour a =? hour b) && (minute a <? minute b)))).

Definition is_leap (y : Z) : bool :=
  (y mod 4 =? 0) && (negb (y mod 100 =? 0) || (y mod 400 =? 0)).

Definition days_in_month (y m : Z) : Z :=
  if m =? 2 then (if is_leap y then 29 else 28)
  else if (m =? 4) || (m =? 6) || (m =? 9) || (m =? 11) then 30
  else 31.

(** *** The regular expression of the format ["%Y-%m-%d %I:%M %p"]

    [strptime] turns the format into a regular expression and matches it
    at the start of the text, ignoring case.  A matcher lists every way
    its pattern matches a prefix of the text, as (matched text, rest), in
    the order a backtracking search tries them; [re.match] takes the
    first match of the whole expression. *)

Definition Matcher : Type := string → list (string * string).

Definition one (p : ascii → bool) : Matcher := λ s,
  match s with
  | String c s' => if p c then [(String c "", s')] else []
  | EmptyString => []
  end.

Definition lit (c : ascii) : Matcher := one (Ascii.eqb c).

(** A letter of the pattern under [re.IGNORECASE]. *)
Definition letter (c : ascii) : Matcher := one (λ x, Ascii.eqb (Py.lower_char x) c).

Definition between (lo hi : ascii) : Matcher :=
  one (λ x, (N_of_ascii lo <=? N_of_ascii x)%N && (N_of_ascii x <=? N_of_ascii hi)%N).

(** [\d] *)
Definition digit : Matcher := one Py.isdecimal_char.

Definition seq (a b : Matcher) : Matcher := λ s,
  '(x, r) ← a s; '(y, r') ← b r; [(x +:+ y, r')].

(** [a|b]: the matches of [a] are tried before those of [b]. *)
Definition alt (a b : Matcher) : Matcher := λ s, a s ++ b s.

(** [\s+], greedy: the longest run of whitespace first. *)
Fixpoint spaces (s : string) : list (string * string) :=
  match s with
  | String c s' =>
      if Py.isspace_char c
      then map (λ m, (String c m.1, m.2)) (spaces s') ++ [(String c "", s')]
      else []
  | EmptyString => []
  end.

(** [(?P<Y>\d\d\d\d)] *)
Definition re_Y : Matcher := seq digit (seq digit (seq digit digit)).
(** [(?P<m>1[0-2]|0[1-9]|[1-9])] *)
Definition re_m : Matcher :=
  alt (seq (lit "1") (between "0" "2"))
      (alt (seq (lit "0") (between "1" "9")) (between "1" "9")).
(** [(?P<d>3[0-1]|[1-2]\d|0[1-9]|[1-9]| [1-9])] *)
Definition re_d : Matcher :=
  alt (seq (lit "3") (between "0" "1"))
      (alt (seq (between "1" "2") digit)
           (alt (seq (lit "0") (between "1" "9"))
                (alt (between "1" "9") (seq (lit " ") (between "1" "9"))))).
(** [(?P<I>1[0-2]|0[1-9]|[1-9])] *)
Definition re_I : Matcher := re_m.
(** [(?P<M>[0-5]\d|\d)] *)
Definition re_M : Matcher := alt (seq (between "0" "5") digit) digit.
(** [(?P<p>am|pm)], the AM/PM names of the C and English locales. *)
Definition re_p : Matcher :=
  alt (seq (letter "a") (letter "m")) (seq (letter "p") (letter "m")).

(** The groups of one match. *)
Record Found := mkFound {
  g_Y : string; g_m : string; g_d : string;
  g_I : string; g_M : string; g_p : string;
  rest : string
}.

(** [%Y-%m-%d\s+%I:%M\s+%p] *)
Definition format_regex (data_string : string) : list Found :=
  '(gY, s) ← re_Y data_string;
  '(_, s) ← lit "-" s;
  '(gm, s) ← re_m s;
  '(_, s) ← lit "-" s;
  '(gd, s) ← re_d s;
  '(_, s) ← spaces s;
  '(gI, s) ← re_I s;
  '(_, s) ← lit ":" s;
  '(gM, s) ← re_M s;
  '(_, s) ← spaces s;
  '(gp, s) ← re_p s;
  [mkFound gY gm gd gI gM gp s].

(** [datetime.strptime(data_string, "%Y-%m-%d %I:%M %p")].  [ValueError]
    when the text does not match the format, when text remains after the
    match, and when the fields are no calendar date. *)
Definition strptime (data_string : string) : Py.result datetime :=
  match format_regex data_string with
  | [] => Py.Raise Py.ValueError
  | found :: _ =>
      if negb (Py.is_empty (rest found)) then Py.Raise Py.ValueError
      else
        Py.bind (Py.int (g_Y found)) (λ year,
        Py.bind (Py.int (g_m found)) (λ month,
        Py.bind (Py.int (g_d found)) (λ day,
        Py.bind (Py.int (g_I found)) (λ hour,
        Py.bind (Py.int (g_M found)) (λ minute,
        let hour :=
          if String.eqb (Py.lower (g_p found)) "am"
          then (if hour =? 12 then 0 else hour)
          else (if hour =? 12 then hour else hour + 12) in
        if (1 <=? year) && (day <=? days_in_month year month)
        then Py.Ok (mkDatetime year month day hour minute)
        else Py.Raise Py.ValueError)))))
  end.

End Datetime.

(** ** The document tree (BeautifulSoup)

    The part of a parsed document the scrapers query: tags with a name,
    attributes and contents, and text nodes. *)

Module Bs4.

(** The classes of text other than plain [NavigableString].  The parser
    gives the text inside [script], [style], [template], [rt] and [rp]
    the class of that tag; comments, declarations and the like have
    theirs. *)
Inductive StringClass :=
| CData | Comment | Declaration | Doctype | ProcessingInstruction
| Script | Stylesheet | TemplateString | RubyTextString | RubyParenthesisString.

#[global] Instance StringClass_eq_dec : EqDecision StringClass.
Proof. solve_decision. Defined.

Inductive Node :=
| NavigableString (text : string)
| SpecialString (class : StringClass) (text : string)
| Tag (name : string) (attrs : gmap string string) (contents : list Node).

(** [tag.descendants]: every node below the tag, in document order. *)
Fixpoint descendants (n : Node) : list Node :=
  match n with
  | NavigableString _ | SpecialString _ _ => []
  | Tag _ _ contents =>
      (fix below (l : list Node) : list Node :=
         match l with
         | [] => []
         | c :: l' => c :: descendants c ++ below l'
         end) contents
  end.

(** What [find_all] is asked for: a test on a tag's name and attributes. *)
Definition Query : Type := string → gmap string string → bool.

Definition find_all (q : Query) (n : Node) : list Node :=
  List.filter (λ d, match d with Tag name attrs _ => q name attrs | _ => false end)
    (descendants n).

Definition find (q : Query) (n : Node) : option Node := head (find_all q n).

(** [tag.get(k)] *)
Definition get (k : string) (n : Node) : option string :=
  match n with
  | Tag _ attrs _ => attrs !! k
  | NavigableString _ | SpecialString _ _ => None
  end.

Definition named (nm : string) : Query := λ name _, String.eqb name nm.
Definition named_in (nms : list string) : Query := λ name _, bool_decide (name ∈ nms).
Definition attr_is (k v : string) : Query := λ _ attrs, bool_decide (attrs !! k = Some v).

(** A condition on [class]: the attribute is a list of
    whitespace-separated values; one value matching is enough, and so is
    the list joined by spaces. *)
Definition class_matches (m : string → bool) (attrs : gmap string string) : bool :=
  match attrs !! "class" with
  | Some v =>
      let values := Py.split_ws v in
      existsb m values || m (String.concat " " values)
  | None => false
  end.

Definition with_class (nm : string) (m : string → bool) : Query :=
  λ name attrs, String.eqb name nm && class_matches m attrs.

(** The builder's [string_containers]: the class a tag of this name
    gives to the text inside it. *)
Definition string_container (name : string) : option StringClass :=
  if String.eqb name "rt" then Some RubyTextString
  else if String.eqb name "rp" then Some RubyParenthesisString
  else if String.eqb name "style" then Some Stylesheet
  else if String.eqb name "script" then Some Script
  else if String.eqb name "template" then Some TemplateString
  else None.

(** [tag.interesting_string_types], asked of a node below the tag: the
    text of the node when its class is one the tag counts as its text.
    That is the tag's own class for the five tags above, and plain text
    and CDATA for every other tag; so the text of a [script] inside a
    cell, and a comment, are no text of the cell. *)
Definition interesting_string (name : string) (d : Node) : option string :=
  match d, string_container name with
  | NavigableString t, None => Some t
  | SpecialString CData t, None => Some t
  | SpecialString class t, Some container =>
      if decide (class = container) then Some t else None
  | _, _ => None
  end.

(** [tag.get_text(strip=True)]: the strings below the tag that count as
    its text, each stripped, the empty ones dropped, joined without
    separator.  The scrapers ask it of tags only. *)
Definition get_text_strip (n : Node) : string :=
  match n with
  | Tag name _ _ =>
      String.concat ""
        (List.filter (λ t, negb (Py.is_empty t))
           (omap (λ d, Py.strip <$> interesting_string name d) (descendants n)))
  | NavigableString _ | SpecialString _ _ => ""
  end.

(** [tag.string]: the text of a tag whose only content is a text node
    (of any class), or a tag with such a [string]. *)
Fixpoint dot_string (n : Node) : option string :=
  match n with
  | NavigableString t | SpecialString _ t => Some t
  | Tag _ _ [c] => dot_string c
  | Tag _ _ _ => None
  end.

End Bs4.

(** ** The row parser

    The body of the row loop of [_parse_transaction_table]; the two
    scrapers have it word for word ([competition_scraper.py] lines
    220-253, [marketwatch_scraper.py] lines 410-443). *)

Module Row.

(** [cells[i]] *)
Definition item {A} (l : list A) (i : nat) : Py.result A :=
  match l !! i with
  | Some x => Py.Ok x
  | None => Py.Raise Py.IndexError
  end.

(** The status and the action read from the action cell's text. *)
Definition status_action (action_text : string) : string * string :=
  if Py.contains "Canceled" action_text
  then ("Canceled",
        match Py.split_ws action_text with
        | first :: _ => first
        | [] => action_text
        end)
  else ("Completed", action_text).

(** [int(amount_text) if amount_text.isdigit() else 0] *)
Definition amount_of (amount_text : string) : Py.result Z :=
  if Py.isdigit amount_text then Py.int amount_text else Py.Ok 0.

(** The fields of one row, in the order of the [Transaction]
    constructor call: (symbol, order_date, transaction_date, action,
    amount, price, status). *)
Record Fields := mkFields {
  f_symbol : string;
  f_order_date : string;
  f_transaction_date : string;
  f_action : string;
  f_amount : Z;
  f_price : string;
  f_status : string
}.

(** The [try] body. *)
Definition parse_cells (cells : list Bs4.Node) : Py.result Fields :=
  Py.bind (item cells 0) (λ c0, let symbol := Bs4.get_text_strip c0 in
  Py.bind (item cells 1) (λ c1, let order_date := Bs4.get_text_strip c1 in
  Py.bind (item cells 2) (λ c2, let transaction_date := Bs4.get_text_strip c2 in
  Py.bind (item cells 3) (λ action_cell,
    let action_text := Bs4.get_text_strip action_cell in
    let '(status, action) := status_action action_text in
  Py.bind (item cells 4) (λ c4,
    let amount_text := Py.replace "," "" (Bs4.get_text_strip c4) in
  Py.bind (amount_of amount_text) (λ amount,
  Py.bind (item cells 5) (λ c5, let price := Bs4.get_text_strip c5 in
  Py.Ok (mkFields symbol order_date transaction_date action amount price status)))))))).

(** [cells = row.find_all(['td', 'th'])] *)
Definition cells_of (row : Bs4.Node) : list Bs4.Node :=
  Bs4.find_all (Bs4.named_in ["td"; "th"]) row.

(** One turn of [for row in rows[1:]]: the cells are the [td] and [th]
    tags of the row; a row of fewer than six is passed over; a
    [ValueError] or [IndexError] of the body abandons the row (the body
    raises nothing else, see [parse_cells_raises]). *)
Definition parse_row (row : Bs4.Node) : option Fields :=
  let cells := cells_of row in
  if (6 <=? length cells)%nat then
    match parse_cells cells with
    | Py.Ok fields => Some fields
    | Py.Raise _ => None
    end
  else None.

End Row.

(** ** [competition_scraper.py] *)

Module competition_scraper.

(** [@dataclass class Transaction]: five text fields, an [int] amount. *)
Record Transaction := mkTransaction {
  symbol : string;
  order_date : string;
  transaction_date : string;
  action : string;
  amount : Z;
  price : string;
  status : string
}.

(** [@dataclass class Competitor]; the [float] fields are only copied,
    and are modelled by rationals. *)
Record Competitor := mkCompetitor {
  public_id : string;
  name : string;
  rank : Z;
  portfolio_value : Q;
  return_percentage : Q;
  return_dollars : Q;
  transactions : list Transaction;
  last_updated : Datetime.datetime
}.

(** [get_competitor_name] (lines 127-141).  A tag that was found counts
    as true whatever it holds. *)
Definition get_competitor_name (soup : Bs4.Node) : string :=
  match Bs4.find (Bs4.with_class "h1" (String.eqb "player-name")) soup with
  | Some name_elem => Bs4.get_text_strip name_elem
  | None =>
      match Bs4.find (Bs4.with_class "div" (String.eqb "profile-name")) soup with
      | Some profile_elem => Bs4.get_text_strip profile_elem
      | None => "Unknown Player"
      end
  end.

(** [portfolio_url] of [scrape_competitor] (line 282). *)
Definition portfolio_url (game_uri public_id : string) : string :=
  "https://www.marketwatch.com/games/" +:+ game_uri +:+ "/portfolio?pub=" +:+ public_id.

(** *** [_parse_transaction_table] (lines 213-257) *)

Definition transaction_of (f : Row.Fields) : Transaction :=
  mkTransaction (Row.f_symbol f) (Row.f_order_date f) (Row.f_transaction_date f)
    (Row.f_action f) (Row.f_amount f) (Row.f_price f) (Row.f_status f).

(** What one row adds to [transactions]. *)
Definition row_transactions (row : Bs4.Node) : list Transaction :=
  match Row.parse_row row with
  | Some f => [transaction_of f]
  | None => []
  end.

(** [t] is the transaction read from some table row. *)
Definition from_row (t : Transaction) : Prop :=
  ∃ row f, Row.parse_row row = Some f ∧ t = transaction_of f.

(** [rows = table.find_all('tr')], then the loop over [rows[1:]]. *)
Definition _parse_transaction_table (table : Bs4.Node) : list Transaction :=
  let rows := Bs4.find_all (Bs4.named "tr") table in
  foldl (λ transactions row, transactions ++ row_transactions row) [] (tail rows).

(** *** [parse_transactions], the discovery phase (lines 177-200)

    Each loop is given the list [transactions] gathered so far and
    returns it extended. *)

(** [for module in vse_modules: ...] (lines 180-186) *)
Definition vse_module_loop (soup : Bs4.Node) (transactions : list Transaction)
    : list Transaction :=
  let vse_modules := Bs4.find_all (Bs4.attr_is "is" "vse-module") soup in
  foldl (λ transactions module,
    if bool_decide (Bs4.get "view" module = Some "transactions") then
      let tables :=
        Bs4.find_all (Bs4.with_class "table" (String.eqb "table--primary")) module in
      foldl (λ transactions table, transactions ++ _parse_transaction_table table)
        transactions tables
    else transactions) transactions vse_modules.

(** [any('Symbol' in h for h in headers) and any('Order' in h for h in headers)] *)
Definition looks_like_transactions (headers : list string) : bool :=
  existsb (Py.contains "Symbol") headers && existsb (Py.contains "Order") headers.

(** [for table in tables: ...] (lines 189-200) *)
Definition header_sniff_loop (soup : Bs4.Node) (transactions : list Transaction)
    : list Transaction :=
  let tables :=
    Bs4.find_all
      (Bs4.with_class "table" (λ v, bool_decide (v ∈ ["table--primary"; "ranking"])))
      soup in
  foldl (λ transactions table,
    match Bs4.find (Bs4.named "tr") table with
    | Some header_row =>
        let header_cells := Bs4.find_all (Bs4.named_in ["th"; "td"]) header_row in
        let headers := map Bs4.get_text_strip header_cells in
        if looks_like_transactions headers
        then transactions ++ _parse_transaction_table table
        else transactions
    | None => transactions
    end) transactions tables.

(** The value of [transactions] at line 201. *)
Definition candidates (soup : Bs4.Node) : list Transaction :=
  let transactions := [] in
  let transactions := vse_module_loop soup transactions in
  let transactions := header_sniff_loop soup transactions in
  transactions.

(** *** Deduplicator: the last phase of [parse_transactions] (lines 202-211) *)

(** [key = (t.symbol, t.order_date, t.action, t.amount)] *)
Definition Key : Type := string * string * string * Z.

Definition key (t : Transaction) : Key :=
  (symbol t, order_date t, action t, amount t).

(** The loop [for t in transactions], with [seen] (a [set]) and
    [unique_transactions] (a list that grows by [append]). *)
Fixpoint dedup_loop (seen : gset Key) (unique_transactions : list Transaction)
    (transactions : list Transaction) : list Transaction :=
  match transactions with
  | [] => unique_transactions
  | t :: rest =>
      if decide (key t ∈ seen)
      then dedup_loop seen unique_transactions rest
      else dedup_loop ({[ key t ]} ∪ seen) (unique_transactions ++ [t]) rest
  end.

(** [seen = set(); unique_transactions = []; for ...; return unique_transactions] *)
Definition dedup (transactions : list Transaction) : list Transaction :=
  dedup_loop ∅ [] transactions.

Definition parse_transactions (soup : Bs4.Node) : list Transaction :=
  dedup (candidates soup).

(** What the deduplicator is to keep: [t] stands at position [i] of
    [T], and no earlier record of [T] has its key. *)
Definition first_with_key (T : list Transaction) (i : nat) (t : Transaction) : Prop :=
  T !! i = Some t ∧ ∀ j u, (j < i)%nat → T !! j = Some u → key u ≠ key t.

(** *** [create_activity_feed] (lines 343-402) *)

(** The dictionary of one feed entry. *)
Module Activity.
Record t := mk {
  timestamp : string;
  player_name : string;
  player_rank : Z;
  action : string;
  symbol : string;
  amount : Z;
  price : string;
  portfolio_value : Q
}.
End Activity.

(** The dictionary built at lines 361-370. *)
Definition activity_of (competitor : Competitor) (transaction : Transaction)
    : Activity.t :=
  {| Activity.timestamp := order_date transaction;
     Activity.player_name := name competitor;
     Activity.player_rank := rank competitor;
     Activity.action := action transaction;
     Activity.symbol := symbol transaction;
     Activity.amount := amount transaction;
     Activity.price := price transaction;
     Activity.portfolio_value := portfolio_value competitor |}.

(** What the feed is to hold for one competitor: an item for each
    transaction that is not canceled, in the order of the transactions. *)
Definition competitor_activities (competitor : Competitor) : list Activity.t :=
  activity_of competitor <$>
    filter (λ t, status t ≠ "Canceled") (transactions competitor).

(** The two nested loops (lines 353-371): the value of [activities]
    before the sort. *)
Definition collect_activities (competitors : list Competitor) : list Activity.t :=
  foldl (λ activities competitor,
    foldl (λ activities transaction,
      if String.eqb (status transaction) "Canceled"
      then activities
      else activities ++ [activity_of competitor transaction])
      activities (transactions competitor))
    [] competitors.

(** The [try] body of [parse_date] (lines 377-396). *)
Definition parse_date_body (date_str : string) : Py.result Datetime.datetime :=
  if Py.is_empty date_str || String.eqb (Py.strip date_str) ""
  then Py.Ok Datetime.min
  else
    let date_str := Py.strip (Py.replace " ET" "" date_str) in
    match Py.split " " date_str with
    | [date_part; time_part] =>
        match Py.split "/" date_part with
        | [month; day; year] =>
            let year := "20" +:+ year in
            let time_part := Py.replace "p" " PM" (Py.replace "a" " AM" time_part) in
            let full_date_str :=
              year +:+ "-" +:+ Py.zfill 2 month +:+ "-" +:+ Py.zfill 2 day
                +:+ " " +:+ time_part in
            Datetime.strptime full_date_str
        | _ => Py.Raise Py.ValueError
        end
    | _ => Py.Raise Py.ValueError
    end.

(** [parse_date]: [except Exception: return datetime.min]. *)
Definition parse_date (date_str : string) : Datetime.datetime :=
  match parse_date_body date_str with
  | Py.Ok d => d
  | Py.Raise _ => Datetime.min
  end.

(** [lambda x: parse_date(x['timestamp'])] *)
Definition sort_key (x : Activity.t) : Datetime.datetime :=
  parse_date (Activity.timestamp x).

Definition create_activity_feed (competitors : list Competitor) : list Activity.t :=
  let activities := collect_activities competitors in
  Py.sort_reverse Datetime.ltb sort_key activities.

End competition_scraper.

(** ** [marketwatch_scraper.py] *)

Module marketwatch_scraper.

(** [@dataclass class Transaction].  The CSV path stores what
    [csv.DictReader] gives for a column, which is [None] where a row is
    shorter than the header: a text field is a [str] ([Some]) or
    [None]. *)
Record Transaction := mkTransaction {
  symbol : option string;
  order_date : option string;
  transaction_date : option string;
  action : option string;
  amount : Z;
  price : option string;
  status : string
}.

(** *** [_parse_transactions_csv] (lines 275-303) *)

(** A row of [csv.DictReader]: column name to text, or to [None]. *)
Definition CsvRow : Type := gmap string (option string).

(** [row.get(k, d)] *)
Definition row_get (row : CsvRow) (k : string) (d : string) : option string :=
  default (Some d) (row !! k).

(** [v.replace(',', '')], an [AttributeError] on [None]. *)
Definition replace_commas (v : option string) : Py.result string :=
  match v with
  | Some text => Py.Ok (Py.replace "," "" text)
  | None => Py.Raise Py.AttributeError
  end.

(** The [Transaction(...)] call of lines 288-296. *)
Definition csv_transaction (row : CsvRow) : Py.result Transaction :=
  let symbol := row_get row "Symbol" "" in
  let order_date := row_get row "Order Date/Time" "" in
  let transaction_date := row_get row "Transaction Date/Time" "" in
  let action := row_get row "Type" "" in
  Py.bind (replace_commas (row_get row "Amount" "0")) (λ amount_text,
  Py.bind (if Py.isdigit amount_text then Py.int amount_text else Py.Ok 0) (λ amount,
  let price := row_get row "Ex. Price" "" in
  Py.Ok (mkTransaction symbol order_date transaction_date action amount price
           "Completed"))).

(** [for row in csv_reader: ...] *)
Fixpoint csv_loop (transactions : list Transaction) (rows : list CsvRow)
    : Py.result (list Transaction) :=
  match rows with
  | [] => Py.Ok transactions
  | row :: rows' =>
      Py.bind (csv_transaction row) (λ transaction,
      csv_loop (transactions ++ [transaction]) rows')
  end.

(** The function, from the rows the reader yields:
    [except Exception: return []]. *)
Definition _parse_transactions_csv (rows : list CsvRow) : list Transaction :=
  match csv_loop [] rows with
  | Py.Ok transactions => transactions
  | Py.Raise _ => []
  end.

(** *** [_parse_transaction_table] (lines 403-448) *)

Definition transaction_of (f : Row.Fields) : Transaction :=
  mkTransaction (Some (Row.f_symbol f)) (Some (Row.f_order_date f))
    (Some (Row.f_transaction_date f)) (Some (Row.f_action f)) (Row.f_amount f)
    (Some (Row.f_price f)) (Row.f_status f).

Definition row_transactions (row : Bs4.Node) : list Transaction :=
  match Row.parse_row row with
  | Some f => [transaction_of f]
  | None => []
  end.

Definition _parse_transaction_table (table : Bs4.Node) : list Transaction :=
  let rows := Bs4.find_all (Bs4.named "tr") table in
  foldl (λ transactions row, transactions ++ row_transactions row) [] (tail rows).

(** [_parse_transaction_json] and [_parse_transaction_div] (lines
    397-401, 450-454): both return an empty list. *)
Definition _parse_transaction_json {J : Type} (data : J) : list Transaction := [].
Definition _parse_transaction_div (div : Bs4.Node) : list Transaction := [].

(** *** [_parse_transactions] (lines 352-395), without the [debug] prints *)

(** [re.search(r'({.*?})', text, re.DOTALL)]: from a [{] to the first
    [}] after it. *)
Fixpoint upto_close (s : string) : option string :=
  match s with
  | EmptyString => None
  | String c s' =>
      if Ascii.eqb c "}" then Some (String c "")
      else String c <$> upto_close s'
  end.

Fixpoint json_match (s : string) : option string :=
  match s with
  | EmptyString => None
  | String c s' =>
      if Ascii.eqb c "{"
      then match upto_close s' with
           | Some body => Some (String c body)
           | None => json_match s'
           end
      else json_match s'
  end.

(** [re.compile(r'.*transaction.*|.*order.*|.*trade.*', re.I).search(v)] *)
Definition loose_class (v : string) : bool :=
  let v := Py.lower v in
  Py.contains "transaction" v || Py.contains "order" v || Py.contains "trade" v.

Section Locator.
(** [json.loads], which the model leaves open: a decoded value, or
    [JSONDecodeError]. *)
Context {J : Type} (json_loads : string → Py.result J).

(** [for script in soup.find_all('script'): ...] (lines 353-367) *)
Definition script_loop (soup : Bs4.Node) (transactions : list Transaction)
    : list Transaction :=
  foldl (λ transactions script,
    match Bs4.dot_string script with
    | Some text =>
        if negb (Py.is_empty text)
           && (Py.contains "transactions" (Py.lower text)
               || Py.contains "orders" (Py.lower text))
        then
          match json_match text with
          | Some json_str =>
              match json_loads json_str with
              | Py.Ok data => transactions ++ _parse_transaction_json data
              | Py.Raise _ => transactions
              end
          | None => transactions
          end
        else transactions
    | None => transactions
    end) transactions (Bs4.find_all (Bs4.named "script") soup).

(** The table looked up at lines 371-379. *)
Definition table_step (soup : Bs4.Node) (transactions : list Transaction)
    : list Transaction :=
  let table :=
    match Bs4.find (Bs4.with_class "table" (String.eqb "table table--primary ranking"))
            soup with
    | Some table => Some table
    | None => Bs4.find (Bs4.with_class "table" loose_class) soup
    end in
  match table with
  | Some table => transactions ++ _parse_transaction_table table
  | None => transactions
  end.

(** [for div in soup.find_all('div', ...)] (lines 382-383) *)
Definition div_loop (soup : Bs4.Node) (transactions : list Transaction)
    : list Transaction :=
  foldl (λ transactions div, transactions ++ _parse_transaction_div div)
    transactions (Bs4.find_all (Bs4.with_class "div" loose_class) soup).

(** [for module in soup.find_all(attrs={'is': 'vse-module'})] (lines 386-393) *)
Definition vse_module_loop (soup : Bs4.Node) (transactions : list Transaction)
    : list Transaction :=
  foldl (λ transactions module,
    if bool_decide (Bs4.get "view" module = Some "transactions") then
      let module_tables := Bs4.find_all (Bs4.named "table") module in
      foldl (λ transactions table, transactions ++ _parse_transaction_table table)
        transactions module_tables
    else transactions)
    transactions (Bs4.find_all (Bs4.attr_is "is" "vse-module") soup).

Definition _parse_transactions (soup : Bs4.Node) : list Transaction :=
  let transactions := [] in
  let transactions := script_loop soup transactions in
  let transactions := table_step soup transactions in
  let transactions := div_loop soup transactions in
  let transactions := vse_module_loop soup transactions in
  transactions.

(** [get_transactions] (lines 224-246), from what the request gives:
    the parsed page, or [None] for a [RequestException]. *)
Definition get_transactions (page : option Bs4.Node) : option (list Transaction) :=
  _parse_transactions <$> page.

(** [get_transactions_csv] (lines 248-273), from the rows of the
    download, or [None] for a [RequestException]. *)
Definition get_transactions_csv (download : option (list CsvRow))
    : option (list Transaction) :=
  _parse_transactions_csv <$> download.

(** [not transactions]: [None] and the empty list. *)
Definition falsy {A} (l : option (list A)) : bool :=
  match l with
  | None | Some [] => true
  | Some (_ :: _) => false
  end.

(** The transactions [get_portfolio_performance] stores (lines 128-138). *)
Definition performance_transactions (page : option Bs4.Node)
    (download : option (list CsvRow)) : list Transaction :=
  let transactions := get_transactions page in
  let transactions :=
    if falsy transactions then
      let csv_transactions := get_transactions_csv download in
      if falsy csv_transactions then transactions else csv_transactions
    else transactions in
  default [] transactions.
End Locator.

End marketwatch_scraper.

(** ** [leaderboard_scraper.py] *)

Module leaderboard_scraper.

(** [href=re.compile(r'/portfolio\?pub=')]: the attribute is there and
    the pattern, a plain text, is found in it. *)
Definition portfolio_link : Bs4.Query := λ name attrs,
  String.eqb name "a" &&
  match attrs !! "href" with
  | Some href => Py.contains "/portfolio?pub=" href
  | None => false
  end.

(** The text after the prefix [p], when [s] starts with [p]. *)
Fixpoint strip_prefix (p s : string) : option string :=
  match p, s with
  | EmptyString, _ => Some s
  | String a p', String b s' => if Ascii.eqb a b then strip_prefix p' s' else None
  | String _ _, EmptyString => None
  end.

(** [[^&]+], greedy: the characters up to the next [&]. *)
Fixpoint upto_amp (s : string) : string :=
  match s with
  | EmptyString => EmptyString
  | String c s' => if Ascii.eqb c "&" then EmptyString else String c (upto_amp s')
  end.

(** [re.search(r'pub=([^&]+)', href)], group 1: at the first place where
    [pub=] stands before a character other than [&]. *)
Fixpoint pub_search (href : string) : option string :=
  match href with
  | EmptyString => None
  | String _ href' =>
      match strip_prefix "pub=" href with
      | Some after =>
          if Py.is_empty (upto_amp after) then pub_search href' else Some (upto_amp after)
      | None => pub_search href'
      end
  end.

(** [link.get('href', '')] *)
Definition href_of (link : Bs4.Node) : string := default "" (Bs4.get "href" link).

(** [try: rank = int(rank_text) except ValueError: rank = 0] *)
Definition rank_of (rank_text : string) : Z :=
  match Py.int rank_text with
  | Py.Ok rank => rank
  | Py.Raise _ => 0
  end.

(** An entry of the result: [(public_id, name, rank)]. *)
Definition Entry : Type := string * string * Z.

(** One turn of [for row in rows[1:]] (lines 59-78). *)
Definition row_step (competitors : list Entry) (row : Bs4.Node) : list Entry :=
  let cells := Bs4.find_all (Bs4.named_in ["td"; "th"]) row in
  if (2 <=? length cells)%nat then
    match Bs4.find portfolio_link row with
    | Some link =>
        match pub_search (href_of link) with
        | Some public_id =>
            let name := Bs4.get_text_strip link in
            let rank_text :=
              match cells with
              | cell :: _ => Bs4.get_text_strip cell
              | [] => ""
              end in
            competitors ++ [(public_id, name, rank_of rank_text)]
        | None => competitors
        end
    | None => competitors
    end
  else competitors.

(** The loop over the tables (lines 53-78). *)
Definition table_pass (soup : Bs4.Node) : list Entry :=
  let tables :=
    Bs4.find_all
      (Bs4.with_class "table"
         (λ v, bool_decide (v ∈ ["leaderboard"; "ranking"; "table--primary"])))
      soup in
  foldl (λ competitors table,
    foldl row_step competitors (tail (Bs4.find_all (Bs4.named "tr") table)))
    [] tables.

(** [for i, link in enumerate(player_links, 1)] (lines 83-90): [i] is
    the number of the link, counted from 1. *)
Fixpoint link_pass (i : Z) (competitors : list Entry) (player_links : list Bs4.Node)
    : list Entry :=
  match player_links with
  | [] => competitors
  | link :: rest =>
      match pub_search (href_of link) with
      | Some public_id =>
          link_pass (i + 1)
            (competitors ++ [(public_id, Bs4.get_text_strip link, i)]) rest
      | None => link_pass (i + 1) competitors rest
      end
  end.

(** An entry whose id is a value of a [pub] parameter and whose name is
    trimmed. *)
Definition well_formed (e : Entry) : Prop :=
  Py.is_empty e.1.1 = false ∧ Py.contains "&" e.1.1 = false ∧
  Py.strip e.1.2 = e.1.2.

(** What the function makes of the parsed page (lines 48-92). *)
Definition competitors_of (soup : Bs4.Node) : list Entry :=
  let competitors := table_pass soup in
  if bool_decide (competitors = [])
  then link_pass 1 competitors (Bs4.find_all portfolio_link soup)
  else competitors.

(** [scrape_leaderboard], from what the request gives: the parsed page,
    or [None] for a [RequestException]. *)
Definition scrape_leaderboard (page : option Bs4.Node) : list Entry :=
  match page with
  | Some soup => competitors_of soup
  | None => []
  end.

End leaderboard_scraper.

(** ** [auto_scraper.py]

    [run_scrapers] (lines 12-59) starts up to three processes, one after
    the other.  What a process does is given from outside: it returns
    with a code, or [subprocess.run] raises. *)

Module auto_scraper.

Inductive Command :=
| leaderboard_scraper    (* [sys.executable, 'leaderboard_scraper.py'], timeout 120 *)
| competition_scraper    (* [sys.executable, 'competition_scraper.py'], timeout 300 *)
| copy_data.             (* ['cp', 'competition_data.json', 'frontend/public/'] *)

#[global] Instance Command_eq_dec : EqDecision Command.
Proof. solve_decision. Defined.

Inductive Outcome :=
| Returned (returncode : Z)
| TimeoutExpired
| OtherException.

(** The state threaded through the calls: the commands started so far,
    oldest first. *)
Definition Started : Type := list Command.

(** [subprocess.run(cmd, ...)]: the command is started; what comes back
    is the return code of the process, or an exception. *)
Definition subprocess_run (world : Command → Outcome) (cmd : Command)
    (started : Started) : Outcome * Started :=
  (world cmd, started ++ [cmd]).

(** [run_scrapers]: the value returned and the commands started.  Both
    [except] clauses return [False]. *)
Definition run_scrapers (world : Command → Outcome) : bool * Started :=
  let '(result1, started) := subprocess_run world leaderboard_scraper [] in
  match result1 with
  | Returned returncode1 =>
      if negb (returncode1 =? 0) then (false, started)
      else
        let '(result2, started) := subprocess_run world competition_scraper started in
        match result2 with
        | Returned returncode2 =>
            if negb (returncode2 =? 0) then (false, started)
            else
              let '(result3, started) := subprocess_run world copy_data started in
              match result3 with
              | Returned returncode3 =>
                  if negb (returncode3 =? 0) then (false, started) else (true, started)
              | TimeoutExpired | OtherException => (false, started)
              end
        | TimeoutExpired | OtherException => (false, started)
        end
  | TimeoutExpired | OtherException => (false, started)
  end.

End auto_scraper.

(** ** Timestamps as the pages show them

    The texts [parse_date] is written for, [7/9/25 10:45a ET]: month, day
    and two-digit year, then the hour on the 12-hour clock, the minute
    in two digits, [a] or [p], and the zone. *)

Module Timestamp.

Definition digit_char (n : Z) : ascii := ascii_of_N (Z.to_N (48 + n)).

Definition two_digits (n : Z) : string :=
  String (digit_char (n / 10)) (String (digit_char (n mod 10)) "").

(** A number below 100 without padding. *)
Definition decimal (n : Z) : string :=
  if n <? 10 then String (digit_char n) "" else two_digits n.

Inductive meridiem := AM | PM.

Record t := mk {
  month : Z;
  day : Z;
  year : Z;      (* the two digits shown: 25 for 2025 *)
  hour : Z;      (* 1 to 12 *)
  minute : Z;
  half : meridiem
}.

Definition date_part (ts : t) : string :=
  decimal (month ts) +:+ "/" +:+ decimal (day ts) +:+ "/" +:+ two_digits (year ts).

Definition clock (ts : t) : string :=
  decimal (hour ts) +:+ ":" +:+ two_digits (minute ts).

Definition time_part (ts : t) : string :=
  clock ts +:+ match half ts with AM => "a" | PM => "p" end.

Definition shown (ts : t) : string :=
  date_part ts +:+ " " +:+ time_part ts +:+ " ET".

(** The fields are those of a date of the century and a time of day. *)
Definition valid (ts : t) : Prop :=
  0 ≤ year ts ≤ 99 ∧ 1 ≤ month ts ≤ 12 ∧
  1 ≤ day ts ≤ Datetime.days_in_month (2000 + year ts) (month ts) ∧
  1 ≤ hour ts ≤ 12 ∧ 0 ≤ minute ts ≤ 59.

(** *** The format as a pattern

    [<M>/<D>/<YY> <H>:<MM><a|p> ET]: M, D and H are one or two decimal
    digits, YY and MM two, then come [a] or [p] and the zone mark. *)

(** The text left after [n] decimal digits at the start of [s]. *)
Fixpoint after_digits (n : nat) (s : string) : list string :=
  match n, s with
  | O, _ => [s]
  | S k, String c r => if Py.isdecimal_char c then after_digits k r else []
  | S _, EmptyString => []
  end.

Definition after_one_or_two (s : string) : list string :=
  after_digits 1 s ++ after_digits 2 s.

Definition after_char (p : ascii → bool) (s : string) : list string :=
  match s with
  | String c r => if p c then [r] else []
  | EmptyString => []
  end.

(** [s] is a text of the format, and nothing else. *)
Definition in_format (s : string) : bool :=
  existsb Py.is_empty
    (r ← after_one_or_two s; r ← after_char (Ascii.eqb "/") r;
     r ← after_one_or_two r; r ← after_char (Ascii.eqb "/") r;
     r ← after_digits 2 r; r ← after_char (Ascii.eqb " ") r;
     r ← after_one_or_two r; r ← after_char (Ascii.eqb ":") r;
     r ← after_digits 2 r;
     r ← after_char (λ c, Ascii.eqb c "a" || Ascii.eqb c "p") r;
     r ← after_char (Ascii.eqb " ") r; r ← after_char (Ascii.eqb "E") r;
     after_char (Ascii.eqb "T") r).

(** *** What the normaliser takes

    The characters of a text that is given a date: decimal digits,
    whitespace, the two separators and the letters of [a], [p], [AM] and
    [PM] in either case. *)
Definition alphabet (c : ascii) : bool :=
  Py.isdecimal_char c || Py.isspace_char c ||
  existsb (Ascii.eqb c) ["/"; ":"; "a"; "p"; "m"; "A"; "P"; "M"]%char.

(** A number in one or two decimal digits: as it is, or padded to two. *)
Definition number_text (s : string) (n : Z) : Prop :=
  s = decimal n ∨ s = two_digits n.

(** [text] has the outline of a timestamp of the year [2000 + y] and the
    month [n]: a date part [<M>/<D>/<YY>] and a time part, with one
    space only, between them, and two slashes only, in the date part. *)
Definition reads_as (text : string) (y n : Z) : Prop :=
  0 ≤ y ≤ 99 ∧ 1 ≤ n ≤ 12 ∧
  ∃ month day time,
    text = month +:+ "/" +:+ day +:+ "/" +:+ two_digits y +:+ " " +:+ time ∧
    number_text month n ∧
    (∃ c rest, day = String c rest ∧ Py.isdecimal_char c = true) ∧
    Py.contains " " day = false ∧ Py.contains "/" day = false ∧
    Py.contains " " time = false ∧
    Py.all_chars alphabet text = true.

(** The only whitespace of [text] is the space. *)
Definition spaces_only (text : string) : bool :=
  Py.all_chars (λ c, negb (Py.isspace_char c) || Ascii.eqb c " ") text.

(** [text] is [<M>/<D>/<YY> <H>:<MM><a|p>] with the numbers of [ts],
    each but the year in one digit or two. *)
Definition written_as (text : string) (ts : t) : Prop :=
  ∃ month_text day_text hour_text minute_text,
    number_text month_text (month ts) ∧ number_text day_text (day ts) ∧
    number_text hour_text (hour ts) ∧ number_text minute_text (minute ts) ∧
    text = month_text +:+ "/" +:+ day_text +:+ "/" +:+ two_digits (year ts) +:+ " "
             +:+ hour_text +:+ ":" +:+ minute_text
             +:+ match half ts with AM => "a" | PM => "p" end.

(** The hour on the 24-hour clock: 12 AM is midnight, 12 PM is noon. *)
Definition hour24 (ts : t) : Z :=
  match half ts with
  | AM => if hour ts =? 12 then 0 else hour ts
  | PM => if hour ts =? 12 then 12 else hour ts + 12
  end.

(** The date-time the text stands for. *)
Definition instant (ts : t) : Datetime.datetime :=
  Datetime.mkDatetime (2000 + year ts) (month ts) (day ts) (hour24 ts) (minute ts).

End Timestamp.

(** ** Sample documents *)

Module Samples.

Definition text (s : string) : Bs4.Node := Bs4.NavigableString s.
Definition el (nm : string) (contents : list Bs4.Node) : Bs4.Node := Bs4.Tag nm ∅ contents.
Definition td (s : string) : Bs4.Node := el "td" [text s].
Definition th (s : string) : Bs4.Node := el "th" [text s].
Definition tr (cells : list Bs4.Node) : Bs4.Node := el "tr" cells.

Definition header : Bs4.Node :=
  tr (th <$> ["Symbol"; "Order Date"; "Transaction Date"; "Type"; "Amount"; "Price"]).

Definition table (class : string) (rows : list Bs4.Node) : Bs4.Node :=
  Bs4.Tag "table" {[ "class" := class ]} rows.

Definition module (contents : list Bs4.Node) : Bs4.Node :=
  Bs4.Tag "div" {[ "is" := "vse-module"; "view" := "transactions" ]} contents.

Definition document (contents : list Bs4.Node) : Bs4.Node :=
  Bs4.Tag "[document]" ∅ contents.

(** U+00B2 SUPERSCRIPT TWO. *)
Definition superscript_two : string := String (ascii_of_nat 178) "".

Definition aapl_row : Bs4.Node :=
  tr (td <$> ["AAPL"; "7/9/25 10:45a ET"; "7/9/25 10:46a ET"; "Buy"; "100"; "$150.00"]).

(** The same order seen a second time with another price. *)
Definition aapl_row_again : Bs4.Node :=
  tr (td <$> ["AAPL"; "7/9/25 10:45a ET"; "7/9/25 10:46a ET"; "Buy"; "100"; "$150.01"]).

Definition canceled_row : Bs4.Node :=
  tr (td <$> ["MSFT"; "7/9/25 2:00p ET"; "N/A"; "Sell Canceled"; "1,250"; "N/A"]).

Definition short_row : Bs4.Node := tr (td <$> ["Totals"; "3"]).

(** Cells with blanks around their text, one of them of two text nodes. *)
Definition padded_row : Bs4.Node :=
  tr [td "  AAPL "; td " 7/9/25 10:45a ET"; td "7/9/25 10:46a ET  ";
      el "td" [text " Buy "; el "span" [text "  "]; text " Canceled "];
      td " 1,250 "; td "  N/A  "].

(** A row whose amount cell also holds a script and a comment. *)
Definition annotated_row : Bs4.Node :=
  tr [td "AAPL"; td "7/9/25 10:45a ET"; td "7/9/25 10:46a ET"; td "Buy";
      el "td" [text "100"; Bs4.Tag "script" ∅ [Bs4.SpecialString Bs4.Script "7"];
               Bs4.SpecialString Bs4.Comment "8"];
      td "$150.00"].

Definition superscript_row : Bs4.Node :=
  tr (td <$> ["AAPL"; "7/9/25 10:45a ET"; "7/9/25 10:46a ET"; "Buy"; superscript_two;
              "$150.00"]).

(** A completed transaction like [t], ordered at [date]. *)
Definition placed (t : competition_scraper.Transaction) (date : string)
    : competition_scraper.Transaction :=
  competition_scraper.mkTransaction (competition_scraper.symbol t) date
    (competition_scraper.transaction_date t) (competition_scraper.action t)
    (competition_scraper.amount t) (competition_scraper.price t) "Completed".

(** The competitor [c] with the transactions [ts]. *)
Definition holding (c : competition_scraper.Competitor)
    (ts : list competition_scraper.Transaction) : competition_scraper.Competitor :=
  competition_scraper.mkCompetitor (competition_scraper.public_id c)
    (competition_scraper.name c) (competition_scraper.rank c)
    (competition_scraper.portfolio_value c) (competition_scraper.return_percentage c)
    (competition_scraper.return_dollars c) ts (competition_scraper.last_updated c).

Definition player_link (href name : string) : Bs4.Node :=
  Bs4.Tag "a" {[ "href" := href ]} [text name].

Definition csv_row (symbol type amount : string) : marketwatch_scraper.CsvRow :=
  {[ "Symbol" := Some symbol; "Order Date/Time" := Some "7/9/25 10:45a ET";
     "Transaction Date/Time" := Some "7/9/25 10:46a ET"; "Type" := Some type;
     "Amount" := Some amount; "Ex. Price" := Some "$150.00" ]}.

End Samples.

(** * Properties *)

(** ** The deduplicator *)

Section Dedup.
Import competition_scraper.

Implicit Types (t r : Transaction) (T : list Transaction) (seen : gset Key).

Lemma dedup_loop_acc seen (u : list Transaction) T :
  dedup_loop seen u T = u ++ dedup_loop seen [] T.
Proof.
  revert seen u. induction T as [|t T IH]; intros seen u; simpl.
  - by rewrite app_nil_r.
  - case_decide; [apply IH|].
    rewrite (IH _ (u ++ [t])), (IH _ [t]). by rewrite <- app_assoc.
Qed.

Lemma dedup_loop_cons seen t T :
  dedup_loop seen [] (t :: T) =
    if decide (key t ∈ seen) then dedup_loop seen [] T
    else t :: dedup_loop ({[ key t ]} ∪ seen) [] T.
Proof. simpl. case_decide; [done|]. by rewrite dedup_loop_acc. Qed.

Lemma dedup_loop_app seen T1 T2 :
  dedup_loop seen [] (T1 ++ T2) =
    dedup_loop seen [] T1 ++ dedup_loop (list_to_set (key <$> T1) ∪ seen) [] T2.
Proof.
  revert seen. induction T1 as [|t T1 IH]; intros seen.
  - simpl. by rewrite (left_id_L ∅ (∪)).
  - rewrite <- app_comm_cons, !dedup_loop_cons, fmap_cons, list_to_set_cons.
    case_decide as Hin; rewrite IH.
    + replace ({[key t]} ∪ list_to_set (key <$> T1) ∪ seen)
        with (list_to_set (key <$> T1) ∪ seen : gset Key) by set_solver.
      done.
    + replace ({[key t]} ∪ list_to_set (key <$> T1) ∪ seen)
        with (list_to_set (key <$> T1) ∪ ({[key t]} ∪ seen) : gset Key) by set_solver.
      done.
Qed.

Lemma dedup_loop_elem seen T r :
  r ∈ dedup_loop seen [] T → r ∈ T ∧ key r ∉ seen.
Proof.
  revert seen. induction T as [|t T IH]; intros seen.
  - simpl. by intros ?%elem_of_nil.
  - rewrite dedup_loop_cons. case_decide as Hin.
    + intros [? ?]%IH. split; [by right|done].
    + intros [->|[? Hr]%IH]%elem_of_cons.
      * split; [by left|done].
      * split; [by right|]. intros ?. apply Hr. apply elem_of_union. by right.
Qed.

Lemma dedup_loop_NoDup seen T : NoDup (key <$> dedup_loop seen [] T).
Proof.
  revert seen. induction T as [|t T IH]; intros seen.
  - simpl. constructor.
  - rewrite dedup_loop_cons. case_decide; [apply IH|].
    rewrite fmap_cons. constructor; [|apply IH].
    intros (r & Hk & [_ Hr]%dedup_loop_elem)%list_elem_of_fmap.
    apply Hr. rewrite <- Hk. apply elem_of_union. left. by apply elem_of_singleton.
Qed.

Lemma dedup_loop_keys seen T (k : Key) :
  k ∈ key <$> dedup_loop seen [] T ↔ k ∈ key <$> T ∧ k ∉ seen.
Proof.
  revert seen. induction T as [|t T IH]; intros seen.
  - simpl. split; [by intros ?%elem_of_nil|by intros [?%elem_of_nil _]].
  - rewrite dedup_loop_cons. case_decide as Hin.
    + rewrite IH, fmap_cons, elem_of_cons. split; [naive_solver|].
      intros [[->|?] ?]; [done|by split].
    + rewrite !fmap_cons, !elem_of_cons, IH.
      rewrite not_elem_of_union, not_elem_of_singleton. split.
      * intros [->|[? [? ?]]]; [by split; [left|]|by split; [right|]].
      * intros [[->|?] ?]; [by left|].
        destruct (decide (k = key t)) as [->|]; [by left|by right].
Qed.

(** A list already filtered against [seen] passes unchanged. *)
Lemma dedup_loop_idem seen T :
  dedup_loop seen [] (dedup_loop seen [] T) = dedup_loop seen [] T.
Proof.
  revert seen. induction T as [|t T IH]; intros seen.
  - done.
  - rewrite dedup_loop_cons. case_decide as Hin; [apply IH|].
    rewrite dedup_loop_cons. rewrite decide_False by done. by rewrite IH.
Qed.

Lemma dedup_snoc T t :
  dedup (T ++ [t]) =
    if decide (key t ∈ key <$> T) then dedup T else dedup T ++ [t].
Proof.
  unfold dedup. rewrite dedup_loop_app, dedup_loop_cons. simpl.
  rewrite (right_id_L ∅ (∪)).
  case_decide as Hin; case_decide as Hin'; try done.
  - by rewrite app_nil_r.
  - exfalso. apply Hin'. by apply elem_of_list_to_set in Hin.
  - exfalso. apply Hin. by apply elem_of_list_to_set.
Qed.

Lemma first_with_key_snoc_old T t i r :
  first_with_key T i r → first_with_key (T ++ [t]) i r.
Proof.
  intros [Hi Hfirst]. pose proof (lookup_lt_Some _ _ _ Hi) as Hlt. split.
  - by rewrite lookup_app_l.
  - intros j u Hj. rewrite lookup_app_l by lia. by apply Hfirst.
Qed.

Lemma first_with_key_snoc_new T t :
  key t ∉ key <$> T → first_with_key (T ++ [t]) (length T) t.
Proof.
  intros Hnew. split.
  - rewrite lookup_app_r by lia. by rewrite Nat.sub_diag.
  - intros j u Hj. rewrite lookup_app_l by lia. intros Hu Hk.
    apply Hnew. rewrite <- Hk. apply list_elem_of_fmap_2.
    by eapply list_elem_of_lookup_2.
Qed.

Lemma first_with_key_snoc_inv T t i r :
  first_with_key (T ++ [t]) i r →
  first_with_key T i r ∨ (i = length T ∧ r = t ∧ key t ∉ key <$> T).
Proof.
  intros [Hi Hfirst]. destruct (decide (i < length T)%nat) as [Hlt|Hge].
  - left. rewrite lookup_app_l in Hi by done. split; [done|].
    intros j u Hj Hu. apply (Hfirst j u Hj). by rewrite lookup_app_l by lia.
  - right. rewrite lookup_app_r in Hi by lia.
    apply list_lookup_singleton_Some in Hi as [Hi ->].
    split; [lia|]. split; [done|].
    intros (u & Hk & (j & Hj)%list_elem_of_lookup_1)%list_elem_of_fmap.
    pose proof (lookup_lt_Some _ _ _ Hj).
    apply (Hfirst j u); [lia| |done]. by rewrite lookup_app_l by lia.
Qed.

(** The positions kept by [dedup]: increasing, and exactly the first
    occurrences. *)
Lemma StronglySorted_lt_snoc (idx : list nat) (n : nat) :
  StronglySorted lt idx → (∀ i, i ∈ idx → (i < n)%nat) →
  StronglySorted lt (idx ++ [n]).
Proof.
  induction 1 as [|i idx Hs IH Hi]; intros Hbound; simpl.
  - repeat constructor.
  - constructor.
    + apply IH. intros j Hj. apply Hbound. by right.
    + apply Forall_app. split; [done|]. repeat constructor.
      apply Hbound. by left.
Qed.

Lemma dedup_positions T :
  ∃ idx : list nat,
    StronglySorted lt idx ∧
    (∀ i, i ∈ idx ↔ ∃ t, first_with_key T i t) ∧
    Forall2 (λ r i, first_with_key T i r) (dedup T) idx.
Proof.
  induction T as [|t T (idx & Hsorted & Hidx & Hall)] using rev_ind.
  { exists []. split; [constructor|]. split; [|constructor].
    intros i. split; [by intros ?%elem_of_nil|].
    by intros (t & Hi & _). }
  assert (Hbound : ∀ i, i ∈ idx → (i < length T)%nat).
  { intros i (u & Hu & _)%Hidx. by eapply lookup_lt_Some. }
  assert (Hold : Forall2 (λ r i, first_with_key (T ++ [t]) i r) (dedup T) idx).
  { eapply Forall2_impl; [done|]. intros r i. apply first_with_key_snoc_old. }
  rewrite dedup_snoc. case_decide as Hin.
  { exists idx. split; [done|]. split; [|done].
    intros i. rewrite Hidx. split.
    - intros (u & Hu). exists u. by apply first_with_key_snoc_old.
    - intros (u & [Hu|(_ & -> & Hnew)]%first_with_key_snoc_inv); [by exists u|done]. }
  exists (idx ++ [length T]). split; [|split].
  { by apply StronglySorted_lt_snoc. }
  { intros i. rewrite elem_of_app, list_elem_of_singleton, Hidx. split.
    - intros [(u & Hu)| ->].
      + exists u. by apply first_with_key_snoc_old.
      + exists t. by apply first_with_key_snoc_new.
    - intros (u & [Hu|(-> & _)]%first_with_key_snoc_inv); [left; by exists u|by right]. }
  apply Forall2_app; [done|].
  constructor; [by apply first_with_key_snoc_new|constructor].
Qed.

End Dedup.

(** ** Python text: facts used below *)

Section Text.
Local Ltac by_cases c :=
  destruct c as [[] [] [] [] [] [] [] []]; vm_compute; try done.

Lemma isdecimal_char_plain c :
  Py.isdecimal_char c = true →
  Py.int_space_char c = false ∧ Py.isspace_char c = false ∧
  Ascii.eqb c "-" = false ∧ Ascii.eqb c "+" = false ∧ Ascii.eqb c "_" = false ∧
  Py.isdigit_char c = true ∧ 0 ≤ Py.digit_value c ≤ 9.
Proof. by_cases c; intros _; repeat split; done. Qed.

Lemma rstrip_of_none p s :
  Py.all_chars (λ c, negb (p c)) s = true → Py.rstrip_of p s = s.
Proof.
  induction s as [|c s IH]; simpl; [done|].
  intros [Hc Hs]%andb_true_iff. rewrite (IH Hs).
  destruct s; [|done]. by destruct (p c).
Qed.

Lemma lstrip_of_none p s :
  Py.all_chars (λ c, negb (p c)) s = true → Py.lstrip_of p s = s.
Proof.
  destruct s as [|c s]; simpl; [done|].
  intros [Hc Hs]%andb_true_iff. by destruct (p c).
Qed.

Lemma all_chars_impl (p q : ascii → bool) s :
  (∀ c, p c = true → q c = true) →
  Py.all_chars p s = true → Py.all_chars q s = true.
Proof.
  intros Hpq. induction s as [|c s IH]; simpl; [done|].
  intros [Hc Hs]%andb_true_iff. by rewrite (Hpq c Hc), (IH Hs).
Qed.

Lemma int_digits_decimal b s :
  Py.all_chars Py.isdecimal_char s = true →
  Py.int_digits b s = (b || negb (Py.is_empty s)).
Proof.
  revert b. induction s as [|c s IH]; intros b; simpl.
  - intros _. by rewrite orb_false_r.
  - intros [Hc Hs]%andb_true_iff. rewrite Hc, (IH _ Hs). by rewrite orb_true_r.
Qed.

Lemma drop_underscores_decimal s :
  Py.all_chars Py.isdecimal_char s = true → Py.drop_underscores s = s.
Proof.
  induction s as [|c s IH]; simpl; [done|].
  intros [Hc Hs]%andb_true_iff.
  destruct (isdecimal_char_plain c Hc) as (_ & _ & _ & _ & -> & _).
  by rewrite (IH Hs).
Qed.

(** [int] of a non-empty run of decimal digits, no longer than the
    limit, is its value. *)
Lemma int_decimal s :
  Py.all_chars Py.isdecimal_char s = true → Py.is_empty s = false →
  (String.length s ≤ Py.max_str_digits)%nat →
  Py.int s = Py.Ok (Py.digits_value 0 s).
Proof.
  intros Hs Hne Hlen. unfold Py.int.
  assert (Hplain : Py.all_chars (λ c, negb (Py.int_space_char c)) s = true).
  { eapply all_chars_impl; [|done]. intros c Hc.
    by destruct (isdecimal_char_plain c Hc) as (-> & _). }
  rewrite (rstrip_of_none _ _ Hplain), (lstrip_of_none _ _ Hplain).
  destruct s as [|c s]; [done|]. pose proof Hs as Hall. simpl in Hs.
  apply andb_true_iff in Hs as [Hc Hs].
  destruct (isdecimal_char_plain c Hc) as (_ & _ & -> & -> & Hu & _).
  rewrite int_digits_decimal, (drop_underscores_decimal _ Hall) by done.
  simpl orb. cbv iota.
  by destruct (Nat.ltb_spec Py.max_str_digits (String.length (String c s))); [lia|].
Qed.

(** *** [split()] and the first token *)

Lemma append_cons c (s t : string) : String c s +:+ t = String c (s +:+ t).
Proof. reflexivity. Qed.

Lemma append_empty_r (s : string) : s +:+ "" = s.
Proof. induction s as [|c s IH]; [done|]. by rewrite append_cons, IH. Qed.

Lemma append_cons_assoc (cur : string) c (s : string) :
  cur +:+ String c s = (cur +:+ String c "") +:+ s.
Proof. induction cur as [|d cur IH]; [done|]. by rewrite !append_cons, IH. Qed.

Lemma split_ws_from_first cur s :
  Py.is_empty (cur +:+ Py.take_nonspace s) = false →
  ∃ rest, Py.split_ws_from cur s = (cur +:+ Py.take_nonspace s) :: rest.
Proof.
  revert cur. induction s as [|c s IH]; intros cur; simpl.
  - rewrite append_empty_r. intros ->. eauto.
  - destruct (Py.isspace_char c) eqn:Hc.
    + rewrite append_empty_r. intros ->. eauto.
    + rewrite append_cons_assoc. apply IH.
Qed.

Lemma split_ws_from_lstrip s :
  Py.split_ws_from "" s = Py.split_ws_from "" (Py.lstrip_of Py.isspace_char s).
Proof.
  induction s as [|c s IH]; simpl; [done|].
  destruct (Py.isspace_char c) eqn:Hc; [done|]. simpl. by rewrite Hc.
Qed.

(** [s.split()[0]] is the first token of [s], when [s] has one. *)
Lemma split_ws_first_token s :
  Py.is_empty (Py.first_token s) = false →
  ∃ rest, Py.split_ws s = Py.first_token s :: rest.
Proof.
  intros Hne. unfold Py.split_ws. rewrite split_ws_from_lstrip.
  by apply (split_ws_from_first "").
Qed.

(** Text containing a word that starts with a non-blank has a first
    token. *)
Lemma contains_first_token c sub s :
  Py.isspace_char c = false →
  Py.contains (String c sub) s = true →
  Py.is_empty (Py.first_token s) = false.
Proof.
  intros Hc. induction s as [|d s IH].
  - simpl. done.
  - intros Hin. unfold Py.first_token. simpl.
    destruct (Py.isspace_char d) eqn:Hd.
    + apply IH. simpl in Hin. apply orb_true_iff in Hin as [Hp|Hin]; [|done].
      destruct (ascii_dec c d) as [->|]; [congruence|done].
    + simpl. by rewrite Hd.
Qed.
End Text.

(** ** Loops that extend a list

    A loop whose body appends to the list it is given only adds, to
    whatever was gathered before, what its body yields on each element. *)

Section Loops.
Context {A B : Type}.

Lemma foldl_extend (f : B → list A) (acc : list A) (l : list B) :
  foldl (λ acc x, acc ++ f x) acc l = acc ++ (l ≫= f).
Proof.
  revert acc. induction l as [|x l IH]; intros acc.
  - simpl. by rewrite app_nil_r.
  - rewrite bind_cons, app_assoc. apply IH.
Qed.

Lemma foldl_extend_ext (step : list A → B → list A) (f : B → list A)
    (acc : list A) (l : list B) :
  (∀ acc x, step acc x = acc ++ f x) →
  foldl step acc l = acc ++ (l ≫= f).
Proof.
  intros Hstep. revert acc. induction l as [|x l IH]; intros acc.
  - simpl. by rewrite app_nil_r.
  - rewrite bind_cons, app_assoc, <- Hstep. apply IH.
Qed.
End Loops.

(** ** The row parser *)

Section Rows.
Implicit Types (row cell : Bs4.Node) (cells : list Bs4.Node) (f : Row.Fields).

(** The body on six cells or more. *)
Lemma parse_cells_six c0 c1 c2 c3 c4 c5 (more : list Bs4.Node) :
  Row.parse_cells (c0 :: c1 :: c2 :: c3 :: c4 :: c5 :: more) =
    Py.bind (Row.amount_of (Py.replace "," "" (Bs4.get_text_strip c4))) (λ amount,
      Py.Ok (Row.mkFields (Bs4.get_text_strip c0) (Bs4.get_text_strip c1)
               (Bs4.get_text_strip c2)
               (Row.status_action (Bs4.get_text_strip c3)).2 amount
               (Bs4.get_text_strip c5)
               (Row.status_action (Bs4.get_text_strip c3)).1)).
Proof.
  unfold Row.parse_cells. simpl.
  by destruct (Row.status_action (Bs4.get_text_strip c3)) as [status action].
Qed.

Lemma six_cells cells :
  (6 ≤ length cells)%nat →
  ∃ c0 c1 c2 c3 c4 c5 more, cells = c0 :: c1 :: c2 :: c3 :: c4 :: c5 :: more.
Proof.
  intros Hlen.
  destruct cells as [|c0 [|c1 [|c2 [|c3 [|c4 [|c5 more]]]]]]; simpl in Hlen; try lia.
  by eexists _, _, _, _, _, _, _.
Qed.

Lemma parse_cells_take cells :
  (6 ≤ length cells)%nat → Row.parse_cells cells = Row.parse_cells (take 6 cells).
Proof.
  intros (c0 & c1 & c2 & c3 & c4 & c5 & more & ->)%six_cells.
  simpl take. by rewrite !parse_cells_six.
Qed.

Lemma int_raises s e : Py.int s = Py.Raise e → e = Py.ValueError.
Proof.
  unfold Py.int.
  destruct (match Py.lstrip_of _ _ with EmptyString => _ | String _ _ => _ end)
    as [neg ds].
  destruct (Py.int_digits false ds); [|congruence].
  destruct (_ <? _)%nat; congruence.
Qed.

Lemma amount_of_raises amount_text e :
  Row.amount_of amount_text = Py.Raise e → e = Py.ValueError.
Proof.
  unfold Row.amount_of.
  destruct (Py.isdigit amount_text); [apply int_raises|done].
Qed.

(** The body raises nothing but the two exceptions the loop catches. *)
Lemma parse_cells_raises cells e :
  Row.parse_cells cells = Py.Raise e → e = Py.ValueError ∨ e = Py.IndexError.
Proof.
  destruct (decide (6 ≤ length cells)%nat) as [Hlen|Hlen].
  - destruct (six_cells _ Hlen) as (c0 & c1 & c2 & c3 & c4 & c5 & more & ->).
    rewrite parse_cells_six.
    destruct (Row.amount_of _) as [a|e'] eqn:Ha; simpl; [done|].
    intros [= ->]. left. by apply (amount_of_raises _ _ Ha).
  - unfold Row.parse_cells, Row.item.
    destruct cells as [|c0 [|c1 [|c2 [|c3 [|c4 [|c5 more]]]]]];
      simpl in Hlen; try lia; simpl;
      try destruct (Row.status_action _); simpl;
      try (destruct (Row.amount_of _) as [a|e'] eqn:Ha; simpl;
           [|intros [= ->]; left; by apply (amount_of_raises _ _ Ha)]);
      intros Heq; right; congruence.
Qed.

Lemma isdigit_decimal amount_text :
  Py.all_chars Py.isdecimal_char amount_text = true →
  Py.is_empty amount_text = false →
  Py.isdigit amount_text = true.
Proof.
  intros Hdec Hne. unfold Py.isdigit. rewrite Hne. simpl.
  apply (all_chars_impl Py.isdecimal_char Py.isdigit_char); [|done].
  intros c Hc. by destruct (isdecimal_char_plain c Hc) as (_ & _ & _ & _ & _ & -> & _).
Qed.

Lemma amount_of_decimal amount_text :
  Py.all_chars Py.isdecimal_char amount_text = true →
  Py.is_empty amount_text = false →
  (String.length amount_text ≤ Py.max_str_digits)%nat →
  Row.amount_of amount_text = Py.Ok (Py.digits_value 0 amount_text).
Proof.
  intros Hdec Hne Hlen. unfold Row.amount_of.
  rewrite isdigit_decimal by done. by apply int_decimal.
Qed.

Lemma amount_of_not_digit amount_text :
  Py.isdigit amount_text = false → Row.amount_of amount_text = Py.Ok 0.
Proof. unfold Row.amount_of. by intros ->. Qed.

Lemma parse_row_spec row :
  Row.parse_row row =
    if (6 <=? length (Row.cells_of row))%nat
    then match Row.parse_cells (take 6 (Row.cells_of row)) with
         | Py.Ok f => Some f
         | Py.Raise _ => None
         end
    else None.
Proof.
  unfold Row.parse_row.
  destruct (6 <=? length (Row.cells_of row))%nat eqn:Hlen; [|done].
  apply Nat.leb_le in Hlen. by rewrite <- parse_cells_take.
Qed.

Lemma parse_row_fields row f :
  Row.parse_row row = Some f →
  ∃ c0 c1 c2 c3 c4 c5,
    take 6 (Row.cells_of row) = [c0; c1; c2; c3; c4; c5] ∧
    Row.f_symbol f = Bs4.get_text_strip c0 ∧
    Row.f_order_date f = Bs4.get_text_strip c1 ∧
    Row.f_transaction_date f = Bs4.get_text_strip c2 ∧
    (Row.f_status f, Row.f_action f) = Row.status_action (Bs4.get_text_strip c3) ∧
    Row.amount_of (Py.replace "," "" (Bs4.get_text_strip c4)) = Py.Ok (Row.f_amount f) ∧
    Row.f_price f = Bs4.get_text_strip c5.
Proof.
  unfold Row.parse_row.
  destruct (6 <=? length (Row.cells_of row))%nat eqn:Hlen; [|done].
  apply Nat.leb_le in Hlen.
  destruct (six_cells _ Hlen) as (c0 & c1 & c2 & c3 & c4 & c5 & more & ->).
  rewrite parse_cells_six.
  destruct (Row.amount_of _) as [amount|] eqn:Ha; simpl; [|done].
  intros [= <-]. exists c0, c1, c2, c3, c4, c5. simpl.
  repeat split; try done. by destruct (Row.status_action _).
Qed.
End Rows.

(** ** The timestamp normaliser *)

Section Timestamps.
Import Datetime.

Lemma one_spec p s (m r : string) :
  (m, r) ∈ one p s → ∃ c, s = String c r ∧ m = String c "" ∧ p c = true.
Proof.
  unfold one. destruct s as [|c s]; [by intros ?%elem_of_nil|].
  destruct (p c) eqn:Hc; [|by intros ?%elem_of_nil].
  intros [= -> ->]%list_elem_of_singleton. by exists c.
Qed.

Lemma seq_spec (a b : Matcher) s (m r : string) :
  (m, r) ∈ seq a b s →
  ∃ m1 r1 m2, (m1, r1) ∈ a s ∧ (m2, r) ∈ b r1 ∧ m = m1 +:+ m2.
Proof.
  unfold seq. intros ([m1 r1] & Hin & H1)%list_elem_of_bind.
  apply list_elem_of_bind in Hin as ([m2 r2] & Hin & H2).
  apply list_elem_of_singleton in Hin as [= -> ->]. by exists m1, r1, m2.
Qed.

(** The year group is the first four characters, all decimal digits. *)
Lemma re_Y_spec s (m r : string) :
  (m, r) ∈ re_Y s →
  ∃ c1 c2 c3 c4,
    s = String c1 (String c2 (String c3 (String c4 r))) ∧
    m = String c1 (String c2 (String c3 (String c4 ""))) ∧
    Py.isdecimal_char c1 = true ∧ Py.isdecimal_char c2 = true ∧
    Py.isdecimal_char c3 = true ∧ Py.isdecimal_char c4 = true.
Proof.
  unfold re_Y, digit.
  intros (m1 & r1 & m' & (c1 & -> & -> & H1)%one_spec & H & ->)%seq_spec.
  apply seq_spec in H as (m2 & r2 & m'' & (c2 & -> & -> & H2)%one_spec & H & ->).
  apply seq_spec in H
    as (m3 & r3 & m4 & (c3 & -> & -> & H3)%one_spec & (c4 & -> & -> & H4)%one_spec & ->).
  by exists c1, c2, c3, c4.
Qed.

Lemma format_regex_Y data_string found :
  found ∈ format_regex data_string →
  ∃ r, (g_Y found, r) ∈ re_Y data_string.
Proof.
  unfold format_regex. intros ([gY r] & Hin & HY)%list_elem_of_bind.
  exists r. revert Hin.
  repeat (intros ([? ?] & Hin & _)%list_elem_of_bind; revert Hin).
  by intros ->%list_elem_of_singleton.
Qed.

Lemma strptime_year data_string d :
  strptime data_string = Py.Ok d →
  ∃ found r, (g_Y found, r) ∈ re_Y data_string ∧ Py.int (g_Y found) = Py.Ok (year d).
Proof.
  unfold strptime.
  destruct (format_regex data_string) as [|found others] eqn:Hre; [done|].
  assert (Hin : found ∈ format_regex data_string) by (rewrite Hre; by left).
  apply format_regex_Y in Hin as (r & Hin).
  destruct (negb _); [done|].
  destruct (Py.int (g_Y found)) as [y|] eqn:HY; simpl; [|done].
  destruct (Py.int (g_m found)) as [m|]; simpl; [|done].
  destruct (Py.int (g_d found)) as [dd|]; simpl; [|done].
  destruct (Py.int (g_I found)) as [h|]; simpl; [|done].
  destruct (Py.int (g_M found)) as [mi|]; simpl; [|done].
  destruct (_ && _); [|done]. intros [= <-]. exists found, r. by split.
Qed.

(** A text that starts with ["20"] has its year in this century. *)
Lemma strptime_20 (tail : string) d :
  strptime ("20" +:+ tail) = Py.Ok d → 2000 ≤ year d ≤ 2099.
Proof.
  intros (found & r & HY & Hint)%strptime_year.
  apply re_Y_spec in HY as (c1 & c2 & c3 & c4 & Hs & Hm & H1 & H2 & H3 & H4).
  injection Hs as <- <- Htail. rewrite Hm in Hint.
  rewrite int_decimal in Hint
    by (try (simpl; by rewrite ?H3, ?H4); unfold Py.max_str_digits; simpl; lia).
  injection Hint as <-. simpl.
  destruct (isdecimal_char_plain c3 H3) as (_ & _ & _ & _ & _ & _ & ?).
  destruct (isdecimal_char_plain c4 H4) as (_ & _ & _ & _ & _ & _ & ?).
  change (Py.digit_value "2") with 2. change (Py.digit_value "0") with 0. lia.
Qed.

Import competition_scraper.

Lemma parse_date_body_year date_str d :
  parse_date_body date_str = Py.Ok d → d = min ∨ 2000 ≤ year d ≤ 2099.
Proof.
  unfold parse_date_body. destruct (_ || _); [intros [= <-]; by left|].
  destruct (Py.split " " _) as [|date_part [|time_part [|]]]; try done.
  destruct (Py.split "/" _) as [|mo [|dy [|yr [|]]]]; try done.
  intros Hd. right. by apply (strptime_20 _ _ Hd).
Qed.

Lemma parse_date_year date_str :
  parse_date date_str = min ∨ 2000 ≤ year (parse_date date_str) ≤ 2099.
Proof.
  unfold parse_date. destruct (parse_date_body date_str) as [d|] eqn:Hd; [|by left].
  by apply (parse_date_body_year date_str).
Qed.

(** The sentinel sorts as the oldest: no key is below it. *)
Lemma parse_date_min_least date_str : ltb (parse_date date_str) min = false.
Proof.
  destruct (parse_date_year date_str) as [->|Hy]; [done|].
  unfold ltb. simpl.
  destruct (Z.ltb_spec (year (parse_date date_str)) 1); [lia|].
  destruct (Z.eqb_spec (year (parse_date date_str)) 1); [lia|done].
Qed.
End Timestamps.

(** ** The stable descending sort *)

Section SortReverse.
Context {A K : Type} `{EqDecision K} (ltb : K → K → bool) (key : A → K).
Hypothesis ltb_irrefl : ∀ a, ltb a a = false.
Hypothesis ltb_asym : ∀ a b, ltb a b = true → ltb b a = false.
Hypothesis ltb_neg_trans : ∀ a b c, ltb a b = false → ltb b c = false → ltb a c = false.
Hypothesis ltb_total : ∀ a b, ltb a b = false → ltb b a = false → a = b.

Local Abbreviation insert := (Py.insert_reverse ltb key).
Local Abbreviation sort := (Py.sort_reverse ltb key).

Lemma insert_reverse_perm x l : insert x l ≡ₚ x :: l.
Proof.
  induction l as [|y l IH]; simpl; [done|].
  destruct (ltb (key x) (key y)); [|done].
  rewrite IH. apply perm_swap.
Qed.

Lemma sort_reverse_perm l : sort l ≡ₚ l.
Proof.
  induction l as [|x l IH]; simpl; [done|].
  by rewrite insert_reverse_perm, IH.
Qed.

Lemma insert_reverse_sorted x l :
  StronglySorted (Py.not_below ltb key) l → StronglySorted (Py.not_below ltb key) (insert x l).
Proof.
  induction 1 as [|y l Hs IH Hy]; simpl.
  - repeat constructor.
  - destruct (ltb (key x) (key y)) eqn:Hxy.
    + constructor; [done|].
      rewrite insert_reverse_perm. constructor; [|done].
      by apply ltb_asym.
    + constructor; [by constructor|].
      constructor; [done|].
      eapply Forall_impl; [done|]. intros z Hz.
      by apply (ltb_neg_trans _ (key y)).
Qed.

Lemma sort_reverse_sorted l : StronglySorted (Py.not_below ltb key) (sort l).
Proof.
  induction l as [|x l IH]; simpl; [constructor|].
  by apply insert_reverse_sorted.
Qed.

(** Elements of one key keep their order. *)
Lemma insert_reverse_stable k x l :
  filter (λ y, key y = k) (insert x l) = filter (λ y, key y = k) (x :: l).
Proof.
  induction l as [|y l IH]; simpl; [done|].
  destruct (ltb (key x) (key y)) eqn:Hxy; [|done].
  rewrite filter_cons, IH, !filter_cons.
  destruct (decide (key y = k)) as [Hy|Hy]; [|done].
  destruct (decide (key x = k)) as [Hx|Hx]; [|done].
  rewrite Hx, Hy, ltb_irrefl in Hxy. done.
Qed.

Lemma sort_reverse_stable k l :
  filter (λ y, key y = k) (sort l) = filter (λ y, key y = k) l.
Proof.
  induction l as [|x l IH]; simpl; [done|].
  by rewrite insert_reverse_stable, !filter_cons, IH.
Qed.

(** Descending order and stability leave one list only. *)
Lemma sorted_stable_unique (l1 l2 : list A) :
  StronglySorted (Py.not_below ltb key) l1 → StronglySorted (Py.not_below ltb key) l2 →
  (∀ k, filter (λ y, key y = k) l1 = filter (λ y, key y = k) l2) →
  l1 = l2.
Proof.
  assert (Hhead : ∀ x l y l',
    StronglySorted (Py.not_below ltb key) (y :: l') →
    filter (λ z, key z = key x) (x :: l) = filter (λ z, key z = key x) (y :: l') →
    ltb (key y) (key x) = false).
  { intros x l y l' Hs Hf.
    assert (Hin : x ∈ y :: l').
    { eapply (list_elem_of_filter (λ z, key z = key x)). rewrite <- Hf.
      rewrite filter_cons, decide_True by done. by left. }
    apply elem_of_cons in Hin as [->|Hin]; [apply ltb_irrefl|].
    apply StronglySorted_inv in Hs as [_ Hall].
    by apply (proj1 (Forall_forall _ _) Hall x). }
  intros Hs1. revert l2. induction Hs1 as [|x l1 Hs1 IH Hx]; intros l2 Hs2 Hf.
  - destruct l2 as [|y l2]; [done|].
    specialize (Hf (key y)). rewrite filter_cons, decide_True in Hf by done.
    by rewrite filter_nil in Hf.
  - destruct l2 as [|y l2].
    { specialize (Hf (key x)). rewrite filter_cons, decide_True in Hf by done.
      by rewrite filter_nil in Hf. }
    assert (Hkey : key x = key y).
    { apply ltb_total.
      - apply (Hhead y l2 x l1); [by constructor|]. symmetry. apply Hf.
      - apply (Hhead x l1 y l2); [done|]. apply Hf. }
    assert (Hxy : x = y).
    { specialize (Hf (key x)).
      rewrite !filter_cons, decide_True, decide_True in Hf by done.
      by injection Hf. }
    subst y. f_equal. apply IH; [by apply StronglySorted_inv in Hs2 as [? _]|].
    intros k. specialize (Hf k). rewrite !filter_cons in Hf.
    destruct (decide (key x = k)); [by injection Hf|done].
Qed.

(** Any sort that meets the contract returns the list of the model. *)
Lemma sort_reverse_unique (l sorted : list A) :
  StronglySorted (Py.not_below ltb key) sorted →
  (∀ k, filter (λ y, key y = k) sorted = filter (λ y, key y = k) l) →
  sorted = sort l.
Proof.
  intros Hs Hf. apply sorted_stable_unique; [done|apply sort_reverse_sorted|].
  intros k. by rewrite Hf, sort_reverse_stable.
Qed.
End SortReverse.

(** ** Date-times are totally ordered *)

Section DatetimeOrder.
Import Datetime.

Lemma ltb_lt a b :
  ltb a b = true ↔
  year a < year b ∨ year a = year b ∧
  (month a < month b ∨ month a = month b ∧
  (day a < day b ∨ day a = day b ∧
  (hour a < hour b ∨ hour a = hour b ∧ minute a < minute b))).
Proof.
  unfold ltb.
  repeat (rewrite orb_true_iff || rewrite andb_true_iff
          || rewrite Z.ltb_lt || rewrite Z.eqb_eq).
  done.
Qed.

Lemma ltb_ge a b :
  ltb a b = false ↔
  ¬ (year a < year b ∨ year a = year b ∧
  (month a < month b ∨ month a = month b ∧
  (day a < day b ∨ day a = day b ∧
  (hour a < hour b ∨ hour a = hour b ∧ minute a < minute b)))).
Proof. by rewrite <- ltb_lt, not_true_iff_false. Qed.

Lemma ltb_irrefl a : ltb a a = false.
Proof. rewrite ltb_ge. lia. Qed.

Lemma ltb_asym a b : ltb a b = true → ltb b a = false.
Proof. rewrite ltb_lt, ltb_ge. lia. Qed.

Lemma ltb_neg_trans a b c : ltb a b = false → ltb b c = false → ltb a c = false.
Proof. rewrite !ltb_ge. lia. Qed.

Lemma ltb_total a b : ltb a b = false → ltb b a = false → a = b.
Proof.
  rewrite !ltb_ge. destruct a as [y1 m1 d1 h1 n1], b as [y2 m2 d2 h2 n2]. simpl.
  intros H1 H2.
  assert (y1 = y2 ∧ m1 = m2 ∧ d1 = d2 ∧ h1 = h2 ∧ n1 = n2) as (-> & -> & -> & -> & ->);
    [lia|done].
Qed.
End DatetimeOrder.

(** ** The feed assembler *)

Section Feed.
Import competition_scraper.

Implicit Types (c : Competitor) (t : Transaction).

Lemma collect_activities_spec (competitors : list Competitor) :
  collect_activities competitors = competitors ≫= competitor_activities.
Proof.
  unfold collect_activities.
  rewrite (foldl_extend_ext _ competitor_activities); [done|].
  intros acc c. unfold competitor_activities.
  rewrite (foldl_extend_ext _
    (λ t, if String.eqb (status t) "Canceled" then [] else [activity_of c t])).
  - f_equal. induction (transactions c) as [|t l IH]; [done|].
    rewrite bind_cons, filter_cons, IH.
    destruct (String.eqb_spec (status t) "Canceled") as [Heq|Hne].
    + by rewrite decide_False by (by intros ?).
    + by rewrite decide_True by done.
  - intros acc' t. destruct (String.eqb _ _); [by rewrite app_nil_r|done].
Qed.

Lemma create_activity_feed_perm (competitors : list Competitor) :
  create_activity_feed competitors ≡ₚ competitors ≫= competitor_activities.
Proof.
  unfold create_activity_feed.
  by rewrite sort_reverse_perm, collect_activities_spec.
Qed.

Lemma create_activity_feed_elem (competitors : list Competitor) item :
  item ∈ create_activity_feed competitors ↔
  ∃ c t, c ∈ competitors ∧ t ∈ transactions c ∧ status t ≠ "Canceled" ∧
         item = activity_of c t.
Proof.
  rewrite create_activity_feed_perm, list_elem_of_bind. split.
  - intros (c & (t & -> & [Hst Ht]%list_elem_of_filter)%list_elem_of_fmap & Hc).
    by exists c, t.
  - intros (c & t & Hc & Ht & Hst & ->). exists c. split; [|done].
    apply list_elem_of_fmap_2. by apply list_elem_of_filter.
Qed.

Lemma create_activity_feed_sorted (competitors : list Competitor) :
  StronglySorted (Py.not_below Datetime.ltb sort_key) (create_activity_feed competitors).
Proof.
  apply sort_reverse_sorted.
  - apply ltb_asym.
  - apply ltb_neg_trans.
Qed.

Lemma create_activity_feed_stable (competitors : list Competitor) k :
  filter (λ x, sort_key x = k) (create_activity_feed competitors) =
  filter (λ x, sort_key x = k) (collect_activities competitors).
Proof. apply sort_reverse_stable, ltb_irrefl. Qed.
End Feed.

(** ** The transaction table locator *)

Section LocatorFacts.

Lemma competition_table_rows table :
  competition_scraper._parse_transaction_table table =
    tail (Bs4.find_all (Bs4.named "tr") table) ≫= competition_scraper.row_transactions.
Proof. unfold competition_scraper._parse_transaction_table. by rewrite foldl_extend. Qed.

Lemma marketwatch_table_rows table :
  marketwatch_scraper._parse_transaction_table table =
    tail (Bs4.find_all (Bs4.named "tr") table) ≫= marketwatch_scraper.row_transactions.
Proof. unfold marketwatch_scraper._parse_transaction_table. by rewrite foldl_extend. Qed.

(** Each loop leaves what was gathered before it in place and appends
    what it finds in the document. *)
Lemma competition_vse_module_loop soup acc :
  competition_scraper.vse_module_loop soup acc =
    acc ++ competition_scraper.vse_module_loop soup [].
Proof.
  unfold competition_scraper.vse_module_loop.
  set (found := λ module : Bs4.Node,
    if bool_decide (Bs4.get "view" module = Some "transactions")
    then Bs4.find_all (Bs4.with_class "table" (String.eqb "table--primary")) module
           ≫= competition_scraper._parse_transaction_table
    else []).
  assert (Hstep : ∀ acc module,
    (if bool_decide (Bs4.get "view" module = Some "transactions")
     then foldl (λ transactions table,
                   transactions ++ competition_scraper._parse_transaction_table table)
            acc
            (Bs4.find_all (Bs4.with_class "table" (String.eqb "table--primary")) module)
     else acc) = acc ++ found module).
  { intros acc' module. unfold found. case_bool_decide.
    - by rewrite foldl_extend.
    - by rewrite app_nil_r. }
  by rewrite !(foldl_extend_ext _ found _ _ Hstep).
Qed.

Lemma competition_header_sniff_loop soup acc :
  competition_scraper.header_sniff_loop soup acc =
    acc ++ competition_scraper.header_sniff_loop soup [].
Proof.
  unfold competition_scraper.header_sniff_loop.
  set (found := λ table : Bs4.Node,
    match Bs4.find (Bs4.named "tr") table with
    | Some header_row =>
        if competition_scraper.looks_like_transactions
             (map Bs4.get_text_strip
                (Bs4.find_all (Bs4.named_in ["th"; "td"]) header_row))
        then competition_scraper._parse_transaction_table table
        else []
    | None => []
    end).
  rewrite !(foldl_extend_ext _ found); [done| |].
  all: intros acc' table; unfold found;
    destruct (Bs4.find _ table); [|by rewrite app_nil_r];
    destruct (competition_scraper.looks_like_transactions _);
    [done|by rewrite app_nil_r].
Qed.

Context {J : Type} (json_loads : string → Py.result J).

Lemma marketwatch_script_loop soup acc :
  marketwatch_scraper.script_loop json_loads soup acc = acc.
Proof.
  unfold marketwatch_scraper.script_loop.
  rewrite (foldl_extend_ext _ (λ _, [])).
  - induction (Bs4.find_all _ soup) as [|x l IH]; simpl; [by rewrite app_nil_r|done].
  - intros acc' script. rewrite app_nil_r.
    destruct (Bs4.dot_string script) as [text|]; [|done].
    destruct (_ && _); [|done].
    destruct (marketwatch_scraper.json_match text) as [json_str|]; [|done].
    destruct (json_loads json_str); [|done].
    unfold marketwatch_scraper._parse_transaction_json. by rewrite app_nil_r.
Qed.

Lemma marketwatch_table_step soup acc :
  marketwatch_scraper.table_step soup acc =
    acc ++ marketwatch_scraper.table_step soup [].
Proof.
  unfold marketwatch_scraper.table_step.
  destruct (match Bs4.find _ soup with Some _ => _ | None => _ end); [done|].
  by rewrite app_nil_r.
Qed.

Lemma marketwatch_div_loop soup acc :
  marketwatch_scraper.div_loop soup acc = acc.
Proof.
  unfold marketwatch_scraper.div_loop.
  rewrite (foldl_extend_ext _ (λ _, [])).
  - induction (Bs4.find_all _ soup) as [|x l IH]; simpl; [by rewrite app_nil_r|done].
  - done.
Qed.

Lemma marketwatch_vse_module_loop soup acc :
  marketwatch_scraper.vse_module_loop soup acc =
    acc ++ marketwatch_scraper.vse_module_loop soup [].
Proof.
  unfold marketwatch_scraper.vse_module_loop.
  set (found := λ module : Bs4.Node,
    if bool_decide (Bs4.get "view" module = Some "transactions")
    then Bs4.find_all (Bs4.named "table") module
           ≫= marketwatch_scraper._parse_transaction_table
    else []).
  rewrite !(foldl_extend_ext _ found); [done| |].
  all: intros acc' module; unfold found; case_bool_decide;
    [by rewrite foldl_extend|by rewrite app_nil_r].
Qed.
End LocatorFacts.

(** ** The CSV path *)

Section Csv.
Import marketwatch_scraper.

Lemma csv_transaction_status row t :
  csv_transaction row = Py.Ok t → status t = "Completed".
Proof.
  unfold csv_transaction.
  destruct (replace_commas _) as [amount_text|]; simpl; [|done].
  destruct (if Py.isdigit amount_text then _ else _) as [amount|]; simpl; [|done].
  by intros [= <-].
Qed.

Lemma csv_loop_status rows : ∀ acc ts,
  csv_loop acc rows = Py.Ok ts →
  Forall (λ t, status t = "Completed") acc →
  Forall (λ t, status t = "Completed") ts.
Proof.
  induction rows as [|row rows IH]; simpl; intros acc ts.
  - by intros [= <-].
  - destruct (csv_transaction row) as [t|] eqn:Ht; simpl; [|done].
    intros Hloop Hacc. apply (IH _ _ Hloop).
    apply Forall_app. split; [done|].
    constructor; [by eapply csv_transaction_status|constructor].
Qed.

Lemma _parse_transactions_csv_status rows :
  Forall (λ t, status t = "Completed") (_parse_transactions_csv rows).
Proof.
  unfold _parse_transactions_csv.
  destruct (csv_loop [] rows) as [ts|] eqn:Hloop; [|constructor].
  by eapply csv_loop_status.
Qed.
End Csv.

(** * The claims *)

Section Claims.
Import Samples.

(** C1.  For every list of transactions, the deduplicator returns one
    record for each distinct key [(symbol, order_date, action, amount)]
    and no two with the same key; the records it returns stand, in
    increasing order of position, exactly at the positions of the input
    where a key is seen for the first time, so each is the first-seen
    record of its key with all of its field values, whatever a later
    record of that key holds in [price], [transaction_date] or
    [status]. *)
Theorem dedup_first_occurrences (T : list competition_scraper.Transaction) :
  NoDup (competition_scraper.key <$> competition_scraper.dedup T) ∧
  (∀ k, k ∈ competition_scraper.key <$> competition_scraper.dedup T
        ↔ k ∈ competition_scraper.key <$> T) ∧
  ∃ idx : list nat,
    StronglySorted lt idx ∧
    (∀ i, i ∈ idx ↔ ∃ t, competition_scraper.first_with_key T i t) ∧
    Forall2 (λ r i, competition_scraper.first_with_key T i r)
      (competition_scraper.dedup T) idx.
Proof.
  split; [apply dedup_loop_NoDup|]. split; [|apply dedup_positions].
  intros k. unfold competition_scraper.dedup. rewrite dedup_loop_keys.
  split; [by intros [? _]|]. intros Hk. split; [done|]. apply not_elem_of_empty.
Qed.

(** The two rows of the specification that differ in price only
    collapse to the first. *)
Example dedup_keeps_first_price :
  competition_scraper.parse_transactions
    (document [table "table table--primary ranking" [header; aapl_row; aapl_row_again]])
  = [competition_scraper.mkTransaction "AAPL" "7/9/25 10:45a ET" "7/9/25 10:46a ET"
       "Buy" 100 "$150.00" "Completed"].
Proof. vm_compute. reflexivity. Qed.

(** C8.  Deduplication is idempotent. *)
Theorem dedup_idempotent (T : list competition_scraper.Transaction) :
  competition_scraper.dedup (competition_scraper.dedup T) = competition_scraper.dedup T.
Proof. apply dedup_loop_idem. Qed.

(** C5.  A row with fewer than six cells yields no transaction, in
    either scraper; a row with six cells or more yields at most one,
    and what it yields is decided by its first six cells, which give
    the fields in order. *)
Theorem row_count_invariant (row : Bs4.Node) :
  ((length (Row.cells_of row) < 6)%nat →
     Row.parse_row row = None ∧
     competition_scraper.row_transactions row = [] ∧
     marketwatch_scraper.row_transactions row = []) ∧
  ((6 ≤ length (Row.cells_of row))%nat →
     (length (competition_scraper.row_transactions row) ≤ 1)%nat ∧
     (length (marketwatch_scraper.row_transactions row) ≤ 1)%nat ∧
     Row.parse_row row =
       match Row.parse_cells (take 6 (Row.cells_of row)) with
       | Py.Ok f => Some f
       | Py.Raise _ => None
       end ∧
     ∀ f, Row.parse_row row = Some f →
       ∃ c0 c1 c2 c3 c4 c5,
         take 6 (Row.cells_of row) = [c0; c1; c2; c3; c4; c5] ∧
         Row.f_symbol f = Bs4.get_text_strip c0 ∧
         Row.f_order_date f = Bs4.get_text_strip c1 ∧
         Row.f_transaction_date f = Bs4.get_text_strip c2 ∧
         (Row.f_status f, Row.f_action f) = Row.status_action (Bs4.get_text_strip c3) ∧
         Row.amount_of (Py.replace "," "" (Bs4.get_text_strip c4))
           = Py.Ok (Row.f_amount f) ∧
         Row.f_price f = Bs4.get_text_strip c5).
Proof.
  unfold competition_scraper.row_transactions, marketwatch_scraper.row_transactions.
  split; intros Hlen.
  - assert (Hnone : Row.parse_row row = None).
    { rewrite parse_row_spec.
      destruct (Nat.leb_spec 6 (length (Row.cells_of row))); [lia|done]. }
    by rewrite Hnone.
  - split; [|split; [|split]].
    + destruct (Row.parse_row row); simpl; lia.
    + destruct (Row.parse_row row); simpl; lia.
    + rewrite parse_row_spec.
      destruct (Nat.leb_spec 6 (length (Row.cells_of row))); [done|lia].
    + apply parse_row_fields.
Qed.

Lemma row_count_invariant_witness :
  (Row.parse_row short_row = None ∧
   competition_scraper.row_transactions short_row = [] ∧
   marketwatch_scraper.row_transactions short_row = []) ∧
  (length (competition_scraper.row_transactions aapl_row) ≤ 1)%nat.
Proof.
  split.
  - apply (proj1 (row_count_invariant short_row)). vm_compute. lia.
  - apply (proj2 (row_count_invariant aapl_row)). vm_compute. lia.
Defined.

(** The table parser passes over the header row and gathers what the
    other rows yield. *)
Example table_skips_short_rows :
  competition_scraper._parse_transaction_table
    (table "ranking" [header; short_row; aapl_row; canceled_row])
  = [competition_scraper.mkTransaction "AAPL" "7/9/25 10:45a ET" "7/9/25 10:46a ET"
       "Buy" 100 "$150.00" "Completed";
     competition_scraper.mkTransaction "MSFT" "7/9/25 2:00p ET" "N/A"
       "Sell" 1250 "N/A" "Canceled"].
Proof. vm_compute. reflexivity. Qed.

(** C7.  The action cell: a text that contains "Canceled" gives the
    status "Canceled" and, as action, the first whitespace-delimited
    token of the text, which is [split()[0]]; any other text gives the
    status "Completed" and the whole text as action.  Every transaction
    a row yields, in either scraper, has the status and the action so
    read from the text of its fourth cell. *)
Theorem action_cell_status (action_text : string) :
  (Py.contains "Canceled" action_text = true →
     Row.status_action action_text = ("Canceled", Py.first_token action_text) ∧
     ∃ rest, Py.split_ws action_text = Py.first_token action_text :: rest) ∧
  (Py.contains "Canceled" action_text = false →
     Row.status_action action_text = ("Completed", action_text)) ∧
  (∀ row t, t ∈ competition_scraper.row_transactions row →
     ∃ cell, Row.cells_of row !! 3%nat = Some cell ∧
       (competition_scraper.status t, competition_scraper.action t)
         = Row.status_action (Bs4.get_text_strip cell)) ∧
  (∀ row t, t ∈ marketwatch_scraper.row_transactions row →
     ∃ cell, Row.cells_of row !! 3%nat = Some cell ∧
       (marketwatch_scraper.status t, marketwatch_scraper.action t)
         = ((Row.status_action (Bs4.get_text_strip cell)).1,
            Some (Row.status_action (Bs4.get_text_strip cell)).2)).
Proof.
  assert (Hrow : ∀ row f, Row.parse_row row = Some f →
    ∃ cell, Row.cells_of row !! 3%nat = Some cell ∧
      (Row.f_status f, Row.f_action f) = Row.status_action (Bs4.get_text_strip cell)).
  { intros row f (c0 & c1 & c2 & c3 & c4 & c5 & Htake & _ & _ & _ & Hsa & _)%parse_row_fields.
    exists c3. split; [|done].
    rewrite <- (lookup_take_lt _ 6) by lia. by rewrite Htake. }
  split; [|split; [|split]].
  - intros Hin. unfold Row.status_action. rewrite Hin.
    assert (Hne : Py.is_empty (Py.first_token action_text) = false).
    { by apply (contains_first_token "C" "anceled"). }
    destruct (split_ws_first_token _ Hne) as [rest Hsplit].
    rewrite Hsplit. split; [done|by exists rest].
  - intros Hin. unfold Row.status_action. by rewrite Hin.
  - intros row t. unfold competition_scraper.row_transactions.
    destruct (Row.parse_row row) as [f|] eqn:Hf; [|by intros ?%elem_of_nil].
    intros ->%list_elem_of_singleton. by apply Hrow.
  - intros row t. unfold marketwatch_scraper.row_transactions.
    destruct (Row.parse_row row) as [f|] eqn:Hf; [|by intros ?%elem_of_nil].
    intros ->%list_elem_of_singleton.
    destruct (Hrow _ _ Hf) as (cell & Hcell & Hsa).
    exists cell. split; [done|]. simpl. by rewrite <- Hsa.
Qed.

Lemma action_cell_status_witness :
  (Row.status_action "Sell Canceled" = ("Canceled", Py.first_token "Sell Canceled") ∧
   ∃ rest, Py.split_ws "Sell Canceled" = Py.first_token "Sell Canceled" :: rest) ∧
  Row.status_action "Buy" = ("Completed", "Buy").
Proof.
  split.
  - apply (proj1 (action_cell_status "Sell Canceled")). vm_compute. reflexivity.
  - apply (proj1 (proj2 (action_cell_status "Buy"))). vm_compute. reflexivity.
Defined.

Example canceled_row_action :
  competition_scraper.row_transactions canceled_row
  = [competition_scraper.mkTransaction "MSFT" "7/9/25 2:00p ET" "N/A"
       "Sell" 1250 "N/A" "Canceled"].
Proof. vm_compute. reflexivity. Qed.

(** *** The amount cell *)

Lemma isdigit_char_plain c :
  Py.isdigit_char c = true →
  Py.int_space_char c = false ∧ Ascii.eqb c "-" = false ∧ Ascii.eqb c "+" = false ∧
  Ascii.eqb c "_" = false.
Proof.
  destruct c as [[] [] [] [] [] [] [] []]; vm_compute; try done.
Qed.

Lemma int_digits_superscript b s :
  Py.all_chars Py.isdigit_char s = true →
  Py.all_chars Py.isdecimal_char s = false →
  Py.int_digits b s = false.
Proof.
  revert b. induction s as [|c s IH]; intros b; simpl; [done|].
  intros [Hc Hs]%andb_true_iff.
  destruct (Py.isdecimal_char c); simpl; [by apply IH|].
  intros _. by destruct (isdigit_char_plain c Hc) as (_ & _ & _ & ->).
Qed.

(** The conversion raises exactly on the texts [isdigit] accepts and
    [int] does not: digits only, with a superscript digit among them
    or more of them than the limit of [int]. *)
Lemma amount_of_raises_iff amount_text :
  Py.raises (Row.amount_of amount_text) ↔
  Py.isdigit amount_text = true ∧
  (Py.all_chars Py.isdecimal_char amount_text = false ∨
   (Py.max_str_digits < String.length amount_text)%nat).
Proof.
  split.
  - intros [e He]. destruct (Py.isdigit amount_text) eqn:Hd.
    + split; [done|].
      destruct (Py.all_chars Py.isdecimal_char amount_text) eqn:Hdec; [|by left].
      destruct (decide (Py.max_str_digits < String.length amount_text)%nat);
        [by right|].
      rewrite amount_of_decimal in He; [done|done| |lia].
      unfold Py.isdigit in Hd. by destruct (Py.is_empty amount_text).
    + by rewrite amount_of_not_digit in He.
  - intros [Hd Hwhy]. exists Py.ValueError.
    unfold Row.amount_of. rewrite Hd. unfold Py.isdigit in Hd.
    apply andb_true_iff in Hd as [Hne Hall]. unfold Py.int.
    assert (Hplain : Py.all_chars (λ c, negb (Py.int_space_char c)) amount_text = true).
    { eapply all_chars_impl; [|done]. intros c Hc.
      by destruct (isdigit_char_plain c Hc) as (-> & _). }
    rewrite (rstrip_of_none _ _ Hplain), (lstrip_of_none _ _ Hplain).
    destruct amount_text as [|c s]; [done|].
    pose proof Hall as Hall'. simpl in Hall'.
    apply andb_true_iff in Hall' as [Hc Hs].
    destruct (isdigit_char_plain c Hc) as (_ & -> & -> & _).
    destruct (Py.all_chars Py.isdecimal_char (String c s)) eqn:Hdec.
    + destruct Hwhy as [?|Hlong]; [done|].
      rewrite int_digits_decimal, (drop_underscores_decimal _ Hdec) by done.
      simpl orb. cbv iota.
      by destruct (Nat.ltb_spec Py.max_str_digits (String.length (String c s)));
        [|lia].
    + by rewrite int_digits_superscript.
Qed.

(** What holds of the amount rule: with the commas removed, a text of
    decimal digits (within the limit of [int]) is read as its value,
    and a text that [isdigit] rejects gives 0. *)
Lemma amount_of_spec (cell_text : string) :
  let amount_text := Py.replace "," "" cell_text in
  (Py.is_empty amount_text = false →
   Py.all_chars Py.isdecimal_char amount_text = true →
   (String.length amount_text ≤ Py.max_str_digits)%nat →
   Row.amount_of amount_text = Py.Ok (Py.digits_value 0 amount_text)) ∧
  (Py.isdigit amount_text = false → Row.amount_of amount_text = Py.Ok 0).
Proof.
  intros amount_text. split.
  - intros ? ? ?. by apply amount_of_decimal.
  - apply amount_of_not_digit.
Qed.

(** C6.  The amount text "²" (U+00B2) is all-digit for [isdigit], and
    [int] raises [ValueError] on it: the conversion does raise.  The
    row loop catches the exception and drops the row; the CSV path
    catches it and returns no transaction at all. *)
Theorem amount_superscript_digit_raises :
  Py.isdigit (Py.replace "," "" superscript_two) = true ∧
  Row.amount_of (Py.replace "," "" superscript_two) = Py.Raise Py.ValueError ∧
  competition_scraper.row_transactions superscript_row = [] ∧
  marketwatch_scraper.row_transactions superscript_row = [] ∧
  competition_scraper._parse_transaction_table
    (table "ranking" [header; aapl_row; superscript_row]) =
    [competition_scraper.mkTransaction "AAPL" "7/9/25 10:45a ET" "7/9/25 10:46a ET"
       "Buy" 100 "$150.00" "Completed"] ∧
  marketwatch_scraper._parse_transactions_csv
    [csv_row "AAPL" "Buy" "100"; csv_row "MSFT" "Sell" superscript_two] = [].
Proof. repeat split; vm_compute; reflexivity. Qed.

Example amount_examples :
  Row.amount_of (Py.replace "," "" "1,250") = Py.Ok 1250 ∧
  Row.amount_of (Py.replace "," "" "n/a") = Py.Ok 0 ∧
  Row.amount_of (Py.replace "," "" "") = Py.Ok 0 ∧
  Row.amount_of (Py.replace "," "" "-5") = Py.Ok 0 ∧
  Row.amount_of (Py.replace "," "" "12.5") = Py.Ok 0.
Proof. repeat split; vm_compute; reflexivity. Qed.

(** C3.  The feed holds, in some order, exactly the items of the
    transactions that are not canceled, one for each such transaction
    of each competitor; an item carries the transaction's order date
    (as timestamp), action, symbol, amount and price and the
    competitor's name, rank and portfolio value; nothing else is in the
    feed, so no canceled transaction gives an item. *)
Theorem feed_items (competitors : list competition_scraper.Competitor) :
  competition_scraper.create_activity_feed competitors
    ≡ₚ competitors ≫= competition_scraper.competitor_activities ∧
  (∀ item, item ∈ competition_scraper.create_activity_feed competitors ↔
     ∃ c t, c ∈ competitors ∧ t ∈ competition_scraper.transactions c ∧
            competition_scraper.status t ≠ "Canceled" ∧
            item = competition_scraper.activity_of c t) ∧
  (∀ c t,
     let item := competition_scraper.activity_of c t in
     competition_scraper.Activity.timestamp item = competition_scraper.order_date t ∧
     competition_scraper.Activity.action item = competition_scraper.action t ∧
     competition_scraper.Activity.symbol item = competition_scraper.symbol t ∧
     competition_scraper.Activity.amount item = competition_scraper.amount t ∧
     competition_scraper.Activity.price item = competition_scraper.price t ∧
     competition_scraper.Activity.player_name item = competition_scraper.name c ∧
     competition_scraper.Activity.player_rank item = competition_scraper.rank c ∧
     competition_scraper.Activity.portfolio_value item
       = competition_scraper.portfolio_value c).
Proof.
  split; [apply create_activity_feed_perm|].
  split; [apply create_activity_feed_elem|].
  intros c t. by repeat split.
Qed.

(** C4.  The feed is in descending order of the normalised order date:
    no item stands before one with a greater key.  Items with equal
    keys stand in the order in which the loops gathered them.  The
    three order dates of the specification come out newest first. *)
Theorem feed_sorted_newest_first (competitors : list competition_scraper.Competitor) :
  StronglySorted (Py.not_below Datetime.ltb competition_scraper.sort_key)
    (competition_scraper.create_activity_feed competitors) ∧
  (∀ k, filter (λ x, competition_scraper.sort_key x = k)
           (competition_scraper.create_activity_feed competitors)
        = filter (λ x, competition_scraper.sort_key x = k)
           (competition_scraper.collect_activities competitors)) ∧
  (∀ c t1 t2 t3,
     competition_scraper.create_activity_feed
       [holding c [placed t1 "7/9/25 10:45a ET"; placed t2 "7/8/25 9:00a ET";
                   placed t3 "7/9/25 2:00p ET"]]
     = [competition_scraper.activity_of c (placed t3 "7/9/25 2:00p ET");
        competition_scraper.activity_of c (placed t1 "7/9/25 10:45a ET");
        competition_scraper.activity_of c (placed t2 "7/8/25 9:00a ET")]).
Proof.
  split; [apply create_activity_feed_sorted|].
  split; [intros k; apply create_activity_feed_stable|].
  intros c t1 t2 t3. vm_compute. reflexivity.
Qed.

(** The list the model returns is the only one in descending key order
    that keeps the items of each key in their order. *)
Lemma feed_sort_unique (competitors : list competition_scraper.Competitor)
    (sorted : list competition_scraper.Activity.t) :
  StronglySorted (Py.not_below Datetime.ltb competition_scraper.sort_key) sorted →
  (∀ k, filter (λ x, competition_scraper.sort_key x = k) sorted
        = filter (λ x, competition_scraper.sort_key x = k)
            (competition_scraper.collect_activities competitors)) →
  sorted = competition_scraper.create_activity_feed competitors.
Proof.
  apply sort_reverse_unique.
  - apply ltb_irrefl.
  - apply ltb_asym.
  - apply ltb_neg_trans.
  - apply ltb_total.
Qed.

(** C9.  In both scrapers the list handed on is the concatenation of
    what each discovery strategy finds in the document: each loop keeps
    what was gathered before it and appends its own finds, which depend
    on the document only. *)
Theorem locator_strategies_concatenate {J : Type} (json_loads : string → Py.result J)
    (soup : Bs4.Node) :
  (competition_scraper.candidates soup =
     competition_scraper.vse_module_loop soup []
     ++ competition_scraper.header_sniff_loop soup []) ∧
  (∀ acc, competition_scraper.vse_module_loop soup acc =
            acc ++ competition_scraper.vse_module_loop soup []) ∧
  (∀ acc, competition_scraper.header_sniff_loop soup acc =
            acc ++ competition_scraper.header_sniff_loop soup []) ∧
  (marketwatch_scraper._parse_transactions json_loads soup =
     marketwatch_scraper.script_loop json_loads soup []
     ++ marketwatch_scraper.table_step soup []
     ++ marketwatch_scraper.div_loop soup []
     ++ marketwatch_scraper.vse_module_loop soup []) ∧
  (∀ acc, marketwatch_scraper.script_loop json_loads soup acc =
            acc ++ marketwatch_scraper.script_loop json_loads soup []) ∧
  (∀ acc, marketwatch_scraper.table_step soup acc =
            acc ++ marketwatch_scraper.table_step soup []) ∧
  (∀ acc, marketwatch_scraper.div_loop soup acc =
            acc ++ marketwatch_scraper.div_loop soup []) ∧
  (∀ acc, marketwatch_scraper.vse_module_loop soup acc =
            acc ++ marketwatch_scraper.vse_module_loop soup []).
Proof.
  repeat split.
  - unfold competition_scraper.candidates.
    by rewrite competition_header_sniff_loop.
  - apply competition_vse_module_loop.
  - apply competition_header_sniff_loop.
  - unfold marketwatch_scraper._parse_transactions.
    rewrite marketwatch_vse_module_loop, !marketwatch_div_loop, marketwatch_table_step.
    by rewrite !marketwatch_script_loop, <- app_assoc.
  - intros acc. by rewrite !marketwatch_script_loop, app_nil_r.
  - apply marketwatch_table_step.
  - intros acc. by rewrite !marketwatch_div_loop, app_nil_r.
  - apply marketwatch_vse_module_loop.
Qed.

(** A table inside the transactions module that also has the exact
    class is found by two strategies of each scraper, and both finds
    are kept. *)
Example overlapping_strategies :
  let soup := document [module [table "table table--primary ranking" [header; aapl_row]]] in
  let found := competition_scraper.mkTransaction "AAPL" "7/9/25 10:45a ET"
                 "7/9/25 10:46a ET" "Buy" 100 "$150.00" "Completed" in
  competition_scraper.candidates soup = [found; found] ∧
  competition_scraper.parse_transactions soup = [found] ∧
  length (marketwatch_scraper._parse_transactions
            (λ _ : string, Py.Raise (A:=unit) Py.JSONDecodeError) soup) = 2%nat.
Proof. repeat split; vm_compute; reflexivity. Qed.

(** C10.  Every transaction of the CSV path has the status
    "Completed", and its action is the [Type] column as it stands: the
    text "Canceled" is not looked for.  A transaction with that status
    is not left out of the activity feed. *)
Theorem csv_status_always_completed (rows : list marketwatch_scraper.CsvRow) :
  Forall (λ t, marketwatch_scraper.status t = "Completed")
    (marketwatch_scraper._parse_transactions_csv rows) ∧
  (∀ row t, marketwatch_scraper.csv_transaction row = Py.Ok t →
     marketwatch_scraper.status t = "Completed" ∧
     marketwatch_scraper.action t = marketwatch_scraper.row_get row "Type" "") ∧
  (∀ competitors c t,
     c ∈ competitors → t ∈ competition_scraper.transactions c →
     competition_scraper.status t = "Completed" →
     competition_scraper.activity_of c t
       ∈ competition_scraper.create_activity_feed competitors).
Proof.
  split; [apply _parse_transactions_csv_status|]. split.
  - intros row t Ht. split; [by eapply csv_transaction_status|].
    revert Ht. unfold marketwatch_scraper.csv_transaction.
    destruct (marketwatch_scraper.replace_commas _) as [amount_text|]; simpl; [|done].
    destruct (if Py.isdigit amount_text then _ else _) as [amount|]; simpl; [|done].
    by intros [= <-].
  - intros competitors c t Hc Ht Hst. apply create_activity_feed_elem.
    exists c, t. repeat split; try done. by rewrite Hst.
Qed.

Lemma csv_status_always_completed_witness :
  (marketwatch_scraper.status
     (marketwatch_scraper.mkTransaction (Some "MSFT") (Some "7/9/25 10:45a ET")
        (Some "7/9/25 10:46a ET") (Some "Sell Canceled") 1250 (Some "$150.00")
        "Completed") = "Completed" ∧
   marketwatch_scraper.action
     (marketwatch_scraper.mkTransaction (Some "MSFT") (Some "7/9/25 10:45a ET")
        (Some "7/9/25 10:46a ET") (Some "Sell Canceled") 1250 (Some "$150.00")
        "Completed")
   = marketwatch_scraper.row_get (csv_row "MSFT" "Sell Canceled" "1,250") "Type" "").
Proof.
  apply (proj1 (proj2 (csv_status_always_completed []))
           (csv_row "MSFT" "Sell Canceled" "1,250")).
  vm_compute. reflexivity.
Defined.

(** A canceled order read from CSV and from the page. *)
Example csv_canceled_order :
  marketwatch_scraper._parse_transactions_csv [csv_row "MSFT" "Sell Canceled" "1,250"]
  = [marketwatch_scraper.mkTransaction (Some "MSFT") (Some "7/9/25 10:45a ET")
       (Some "7/9/25 10:46a ET") (Some "Sell Canceled") 1250 (Some "$150.00")
       "Completed"] ∧
  marketwatch_scraper.row_transactions canceled_row
  = [marketwatch_scraper.mkTransaction (Some "MSFT") (Some "7/9/25 2:00p ET")
       (Some "N/A") (Some "Sell") 1250 (Some "N/A") "Canceled"].
Proof. split; vm_compute; reflexivity. Qed.
End Claims.

(** * Further properties *)

(** ** More on the deduplicator *)

Section DedupMore.
Import competition_scraper.

Implicit Types (t r u : Transaction) (T : list Transaction) (seen : gset Key).

Lemma NoDup_fmap_elem {A B} (f : A → B) (l : list A) x y :
  NoDup (f <$> l) → x ∈ l → y ∈ l → f x = f y → x = y.
Proof.
  induction l as [|z l IH]; [by intros _ ?%elem_of_nil|].
  rewrite fmap_cons. intros [Hz Hl]%NoDup_cons.
  intros [->|Hx]%elem_of_cons [->|Hy]%elem_of_cons Hf; try done.
  - exfalso. apply Hz. rewrite Hf. by apply list_elem_of_fmap_2.
  - exfalso. apply Hz. rewrite <- Hf. by apply list_elem_of_fmap_2.
  - by apply IH.
Qed.

(** A list whose keys are distinct and new passes the loop unchanged. *)
Lemma dedup_loop_NoDup_id seen T :
  NoDup (key <$> T) → (∀ t, t ∈ T → key t ∉ seen) →
  dedup_loop seen [] T = T.
Proof.
  revert seen. induction T as [|t T IH]; intros seen; [done|].
  rewrite fmap_cons. intros [Ht HT]%NoDup_cons Hnew.
  rewrite dedup_loop_cons, decide_False by (apply Hnew; by left).
  f_equal. apply IH; [done|].
  intros u Hu. rewrite not_elem_of_union, not_elem_of_singleton. split.
  - intros Heq. apply Ht. rewrite <- Heq. by apply list_elem_of_fmap_2.
  - apply Hnew. by right.
Qed.

(** Starting from a set of keys already seen is filtering the
    deduplicated list against that set. *)
Lemma dedup_loop_filter (s1 s2 : gset Key) T :
  dedup_loop (s1 ∪ s2) [] T = filter (λ t, key t ∉ s1) (dedup_loop s2 [] T).
Proof.
  revert s2. induction T as [|t T IH]; intros s2; [done|].
  rewrite !dedup_loop_cons.
  destruct (decide (key t ∈ s2)) as [H2|H2].
  - rewrite decide_True by (apply elem_of_union; by right). apply IH.
  - destruct (decide (key t ∈ s1)) as [H1|H1].
    + rewrite decide_True by (apply elem_of_union; by left).
      rewrite filter_cons, decide_False by (by intros ?).
      rewrite <- IH. f_equal.
      apply set_eq. intros k. rewrite !elem_of_union, elem_of_singleton.
      split; [tauto|]. intros [?|[->|?]]; tauto.
    + rewrite decide_False by (rewrite elem_of_union; tauto).
      rewrite filter_cons, decide_True by done.
      rewrite <- IH. do 2 f_equal.
      apply set_eq. intros k. rewrite !elem_of_union. tauto.
Qed.

Lemma first_with_key_dedup T i t :
  first_with_key T i t → t ∈ dedup T.
Proof.
  intros Hfirst. destruct (dedup_positions T) as (idx & _ & Hidx & Hall).
  assert (Hi : i ∈ idx) by (apply Hidx; by exists t).
  apply list_elem_of_lookup_1 in Hi as [n Hn].
  destruct (Forall2_lookup_r _ _ _ _ _ Hall Hn) as (r & Hr & [Hri _]).
  destruct Hfirst as [Hti _]. rewrite Hti in Hri. injection Hri as ->.
  by eapply list_elem_of_lookup_2.
Qed.

(** The item of a transaction tells its key. *)
Lemma activity_of_key c c' t u :
  activity_of c t = activity_of c' u → key t = key u.
Proof. unfold activity_of, key. by intros [= -> _ _ -> -> -> _ _]. Qed.
End DedupMore.

(** ** More on text and rows *)

Section TextMore.

Lemma replace_char_empty (c : ascii) (s : string) :
  Py.replace (String c "") "" s = Py.without c s.
Proof.
  unfold Py.replace. induction s as [|d s IH]; [done|].
  simpl. destruct (ascii_dec c d) as [->|Hne].
  - rewrite Ascii.eqb_refl. destruct s; simpl in *; exact IH.
  - destruct (Ascii.eqb_spec d c) as [->|_]; [done|]. by rewrite IH.
Qed.

Lemma digits_value_nonneg acc s :
  Py.all_chars Py.isdecimal_char s = true → 0 ≤ acc → 0 ≤ Py.digits_value acc s.
Proof.
  revert acc. induction s as [|c s IH]; intros acc; simpl; [done|].
  intros [Hc Hs]%andb_true_iff Hacc. apply IH; [done|].
  destruct (isdecimal_char_plain c Hc) as (_ & _ & _ & _ & _ & _ & ?). lia.
Qed.

(** *** Trimmed text *)

Lemma lstrip_of_length p s :
  (String.length (Py.lstrip_of p s) ≤ String.length s)%nat.
Proof.
  induction s as [|c s IH]; simpl; [done|].
  destruct (p c); simpl; lia.
Qed.

Lemma lstrip_of_fixed_head p c s :
  Py.lstrip_of p (String c s) = String c s → p c = false.
Proof.
  simpl. destruct (p c); [|done]. intros Heq.
  pose proof (lstrip_of_length p s) as Hlen. rewrite Heq in Hlen. simpl in Hlen. lia.
Qed.

Lemma lstrip_of_idem p s :
  Py.lstrip_of p (Py.lstrip_of p s) = Py.lstrip_of p s.
Proof.
  induction s as [|c s IH]; simpl; [done|].
  destruct (p c) eqn:Hc; [done|]. simpl. by rewrite Hc.
Qed.

Lemma rstrip_of_cons p c s :
  Py.rstrip_of p (String c s) =
    match Py.rstrip_of p s with
    | EmptyString => if p c then EmptyString else String c EmptyString
    | r => String c r
    end.
Proof. reflexivity. Qed.

Lemma rstrip_of_idem p s :
  Py.rstrip_of p (Py.rstrip_of p s) = Py.rstrip_of p s.
Proof.
  induction s as [|c s IH]; [done|].
  rewrite rstrip_of_cons.
  destruct (Py.rstrip_of p s) as [|d r] eqn:Hr.
  - destruct (p c) eqn:Hc; [done|]. rewrite rstrip_of_cons. simpl. by rewrite Hc.
  - by rewrite rstrip_of_cons, IH.
Qed.

(** Taking blanks off the front leaves the end as it is. *)
Lemma rstrip_of_lstrip_of p s :
  Py.rstrip_of p s = s → Py.rstrip_of p (Py.lstrip_of p s) = Py.lstrip_of p s.
Proof.
  induction s as [|c s IH]; [done|].
  rewrite rstrip_of_cons.
  destruct (Py.rstrip_of p s) as [|d r] eqn:Hr.
  - destruct (p c) eqn:Hc; [done|]. intros [= <-]. simpl. rewrite Hc.
    simpl. by rewrite Hc.
  - intros [= <-]. simpl. destruct (p c) eqn:Hc; [by apply IH|].
    by rewrite rstrip_of_cons, Hr.
Qed.

Lemma strip_trimmed s : Py.strip (Py.strip s) = Py.strip s.
Proof.
  unfold Py.strip.
  rewrite (rstrip_of_lstrip_of _ (Py.rstrip_of _ s)) by apply rstrip_of_idem.
  apply lstrip_of_idem.
Qed.

Lemma strip_fixed_parts s :
  Py.strip s = s ↔
  Py.lstrip_of Py.isspace_char s = s ∧ Py.rstrip_of Py.isspace_char s = s.
Proof.
  unfold Py.strip. split.
  - intros Heq. assert (Hr : Py.rstrip_of Py.isspace_char s = s).
    { rewrite <- Heq at 1.
      rewrite rstrip_of_lstrip_of by apply rstrip_of_idem. done. }
    split; [|done]. by rewrite Hr in Heq.
  - intros [Hl Hr]. by rewrite Hr.
Qed.

Lemma rstrip_of_app p (a b : string) :
  Py.is_empty (Py.rstrip_of p b) = false →
  Py.rstrip_of p (a +:+ b) = a +:+ Py.rstrip_of p b.
Proof.
  intros Hb. induction a as [|c a IH]; [done|].
  rewrite !append_cons. simpl. rewrite IH.
  destruct (a +:+ Py.rstrip_of p b) eqn:Hab; [|done].
  destruct a; [|done]. change (Py.rstrip_of p b = "") in Hab. by rewrite Hab in Hb.
Qed.

Lemma lstrip_of_app p (a b : string) :
  Py.is_empty a = false → Py.lstrip_of p a = a →
  Py.lstrip_of p (a +:+ b) = a +:+ b.
Proof.
  destruct a as [|c a]; [done|]. intros _ Hc%lstrip_of_fixed_head.
  rewrite append_cons. simpl. by rewrite Hc.
Qed.

(** Non-empty trimmed pieces joined without separator are trimmed. *)
Lemma concat_trimmed (pieces : list string) :
  Forall (λ t, Py.is_empty t = false ∧ Py.strip t = t) pieces →
  Py.strip (String.concat "" pieces) = String.concat "" pieces.
Proof.
  intros Hall. apply strip_fixed_parts. split.
  - destruct Hall as [|t pieces [Hne [Hl _]%strip_fixed_parts] _]; [done|].
    destruct pieces as [|t' pieces]; [done|].
    change (String.concat "" (t :: t' :: pieces))
      with (t +:+ "" +:+ String.concat "" (t' :: pieces)).
    by apply lstrip_of_app.
  - induction Hall as [|t pieces [Hne [_ Hr]%strip_fixed_parts] Hall IH]; [done|].
    destruct pieces as [|t' pieces]; [done|].
    change (String.concat "" (t :: t' :: pieces))
      with (t +:+ "" +:+ String.concat "" (t' :: pieces)).
    change ("" +:+ String.concat "" (t' :: pieces))
      with (String.concat "" (t' :: pieces)).
    rewrite rstrip_of_app; [by rewrite IH|]. rewrite IH.
    apply Forall_cons in Hall as [[Hne' _] _]. clear -Hne'.
    destruct t'; [done|]. by destruct pieces.
Qed.

Lemma get_text_strip_trimmed (n : Bs4.Node) :
  Py.strip (Bs4.get_text_strip n) = Bs4.get_text_strip n.
Proof.
  destruct n as [text|class text|name attrs contents]; [done..|].
  unfold Bs4.get_text_strip. apply concat_trimmed.
  apply Forall_forall. intros t Ht. apply list_elem_of_In in Ht.
  apply filter_In in Ht as [Ht Hne]. apply negb_true_iff in Hne.
  split; [done|]. apply list_elem_of_In, list_elem_of_omap in Ht as (d & _ & Hd).
  destruct (Bs4.interesting_string name d) as [text|]; [|done].
  injection Hd as <-. apply strip_trimmed.
Qed.

(** The text of a script inside a cell, and a comment, are no text
    of the cell; the text of a script is the script's own. *)
Example script_text_is_no_cell_text :
  Row.parse_row Samples.annotated_row
    = Some (Row.mkFields "AAPL" "7/9/25 10:45a ET" "7/9/25 10:46a ET" "Buy" 100
              "$150.00" "Completed") ∧
  Bs4.get_text_strip (Bs4.Tag "script" ∅ [Bs4.SpecialString Bs4.Script " 7 "]) = "7".
Proof. split; vm_compute; reflexivity. Qed.

Lemma take_nonspace_plain s :
  Py.all_chars (λ c, negb (Py.isspace_char c)) (Py.take_nonspace s) = true.
Proof.
  induction s as [|c s IH]; simpl; [done|].
  destruct (Py.isspace_char c) eqn:Hc; [done|]. simpl. by rewrite Hc, IH.
Qed.

Lemma first_token_trimmed s : Py.strip (Py.first_token s) = Py.first_token s.
Proof.
  unfold Py.strip, Py.first_token.
  by rewrite rstrip_of_none, lstrip_of_none by apply take_nonspace_plain.
Qed.
End TextMore.

Section RowsMore.

Lemma action_text_cases action_text :
  (Py.contains "Canceled" action_text = true →
     Row.status_action action_text = ("Canceled", Py.first_token action_text) ∧
     Py.is_empty (Py.first_token action_text) = false) ∧
  (Py.contains "Canceled" action_text = false →
     Row.status_action action_text = ("Completed", action_text)).
Proof.
  split; intros Hin; unfold Row.status_action; rewrite Hin; [|done].
  assert (Hne : Py.is_empty (Py.first_token action_text) = false).
  { by apply (contains_first_token "C" "anceled"). }
  destruct (split_ws_first_token _ Hne) as [rest ->]. done.
Qed.

Lemma amount_of_ok_cases amount_text a :
  Row.amount_of amount_text = Py.Ok a →
  a = 0 ∨ (Py.all_chars Py.isdecimal_char amount_text = true ∧
           a = Py.digits_value 0 amount_text).
Proof.
  intros Ha. destruct (Py.isdigit amount_text) eqn:Hd.
  - destruct (Py.all_chars Py.isdecimal_char amount_text) eqn:Hdec.
    + destruct (decide (String.length amount_text ≤ Py.max_str_digits)%nat).
      * rewrite amount_of_decimal in Ha; [right; split; congruence|done| |done].
        unfold Py.isdigit in Hd. by destruct (Py.is_empty amount_text).
      * assert (Hr : Py.raises (Row.amount_of amount_text)).
        { apply amount_of_raises_iff. split; [done|]. right. lia. }
        destruct Hr as [e He]. congruence.
    + assert (Hr : Py.raises (Row.amount_of amount_text)).
      { apply amount_of_raises_iff. split; [done|]. by left. }
      destruct Hr as [e He]. congruence.
  - rewrite amount_of_not_digit in Ha by done. left. congruence.
Qed.

Lemma amount_of_nonneg amount_text a :
  Row.amount_of amount_text = Py.Ok a → 0 ≤ a.
Proof.
  intros [->|[Hdec ->]]%amount_of_ok_cases; [done|].
  by apply digits_value_nonneg.
Qed.

Lemma bind_length_le {A B} (f : A → list B) (l : list A) :
  (∀ x, length (f x) ≤ 1)%nat → (length (l ≫= f) ≤ length l)%nat.
Proof.
  intros Hf. induction l as [|x l IH]; [done|].
  rewrite bind_cons, length_app. simpl. specialize (Hf x). lia.
Qed.

Lemma foldl_Forall {A B} (P : A → Prop) (step : list A → B → list A)
    (acc : list A) (l : list B) :
  (∀ acc x, Forall P acc → Forall P (step acc x)) →
  Forall P acc → Forall P (foldl step acc l).
Proof.
  intros Hstep. revert acc. induction l as [|x l IH]; intros acc Hacc; [done|].
  simpl. by apply IH, Hstep.
Qed.

Lemma competition_table_from_row table :
  Forall competition_scraper.from_row (competition_scraper._parse_transaction_table table).
Proof.
  rewrite competition_table_rows. apply Forall_forall.
  intros t (row & Ht & _)%list_elem_of_bind.
  unfold competition_scraper.row_transactions in Ht.
  destruct (Row.parse_row row) as [f|] eqn:Hf; [|by apply elem_of_nil in Ht].
  apply list_elem_of_singleton in Ht as ->. by exists row, f.
Qed.

Lemma candidates_from_row soup :
  Forall competition_scraper.from_row (competition_scraper.candidates soup).
Proof.
  unfold competition_scraper.candidates, competition_scraper.header_sniff_loop,
    competition_scraper.vse_module_loop.
  apply foldl_Forall.
  - intros acc table Hacc. destruct (Bs4.find _ table); [|done].
    destruct (competition_scraper.looks_like_transactions _); [|done].
    apply Forall_app. split; [done|apply competition_table_from_row].
  - apply foldl_Forall; [|constructor].
    intros acc module Hacc. case_bool_decide; [|done].
    apply foldl_Forall; [|done].
    intros acc' table Hacc'. apply Forall_app.
    split; [done|apply competition_table_from_row].
Qed.

Lemma parse_transactions_from_row soup :
  Forall competition_scraper.from_row (competition_scraper.parse_transactions soup).
Proof.
  apply Forall_forall. intros t [Ht _]%dedup_loop_elem.
  by apply (proj1 (Forall_forall _ _) (candidates_from_row soup)).
Qed.
Lemma StronglySorted_lookup_lt {A} (R : A → A → Prop) (l : list A) i j x y :
  StronglySorted R l → l !! i = Some x → l !! j = Some y → (i < j)%nat → R x y.
Proof.
  intros Hs. revert i j. induction Hs as [|z l Hs IH Hz]; intros i j.
  - by rewrite lookup_nil.
  - destruct i as [|i], j as [|j]; simpl; try lia.
    + intros [= ->] Hy _. apply (proj1 (Forall_forall _ _) Hz).
      by eapply list_elem_of_lookup_2.
    + intros Hx Hy Hij. apply (IH i j); [done|done|lia].
Qed.
End RowsMore.

(** ** The leaderboard *)

Section Leaderboard.
Import leaderboard_scraper.

Lemma strip_prefix_Some p s after :
  strip_prefix p s = Some after → s = p +:+ after.
Proof.
  revert s. induction p as [|a p IH]; intros s; simpl.
  - by intros [= ->].
  - destruct s as [|b s]; [done|].
    destruct (Ascii.eqb_spec a b) as [->|]; [|done].
    intros ->%IH. done.
Qed.

Lemma upto_amp_split s :
  ∃ post, s = upto_amp s +:+ post ∧ (post = "" ∨ ∃ r, post = String "&" r).
Proof.
  induction s as [|c s (post & Hs & Hpost)]; simpl.
  - exists "". by split; [|left].
  - destruct (Ascii.eqb_spec c "&") as [->|Hc].
    + exists (String "&" s). split; [done|]. right. by exists s.
    + exists post. split; [|done]. by rewrite append_cons, <- Hs.
Qed.

Lemma contains_char_cons a c s :
  Py.contains (String a "") (String c s) = Ascii.eqb a c || Py.contains (String a "") s.
Proof.
  change (Py.contains (String a "") (String c s))
    with (String.prefix (String a "") (String c s) || Py.contains (String a "") s).
  f_equal. simpl. destruct (ascii_dec a c) as [->|Hac].
  - rewrite Ascii.eqb_refl. by destruct s.
  - by apply Ascii.eqb_neq in Hac as ->.
Qed.

Lemma upto_amp_no_amp s : Py.contains "&" (upto_amp s) = false.
Proof.
  induction s as [|c s IH]; [done|]. simpl upto_amp.
  destruct (Ascii.eqb_spec c "&") as [->|Hc]; [done|].
  rewrite contains_char_cons, IH, orb_false_r.
  apply Ascii.eqb_neq. congruence.
Qed.

Lemma upto_amp_id s : Py.contains "&" s = false → upto_amp s = s.
Proof.
  induction s as [|c s IH]; [done|].
  rewrite contains_char_cons. intros [Hc Hs]%orb_false_iff. simpl.
  rewrite Ascii.eqb_sym, Hc. by rewrite IH.
Qed.

(** What the search returns stands in the text right after [pub=] and
    runs to the next [&] or to the end. *)
Lemma pub_search_sound href public_id :
  pub_search href = Some public_id →
  Py.is_empty public_id = false ∧ Py.contains "&" public_id = false ∧
  ∃ pre post, href = pre +:+ "pub=" +:+ public_id +:+ post ∧
              (post = "" ∨ ∃ r, post = String "&" r).
Proof.
  induction href as [|c href IH]; [done|].
  assert (Hrec : pub_search href = Some public_id →
    Py.is_empty public_id = false ∧ Py.contains "&" public_id = false ∧
    ∃ pre post, String c href = pre +:+ "pub=" +:+ public_id +:+ post ∧
                (post = "" ∨ ∃ r, post = String "&" r)).
  { intros (Hne & Hamp & pre & post & -> & Hpost)%IH.
    split; [done|]. split; [done|]. by exists (String c pre), post. }
  change (pub_search (String c href)) with
    (match strip_prefix "pub=" (String c href) with
     | Some after =>
         if Py.is_empty (upto_amp after) then pub_search href else Some (upto_amp after)
     | None => pub_search href
     end).
  destruct (strip_prefix "pub=" (String c href)) as [after|] eqn:Hpre; [|done].
  destruct (Py.is_empty (upto_amp after)) eqn:Hne; [done|].
  intros [= <-]. split; [done|]. split; [apply upto_amp_no_amp|].
  apply strip_prefix_Some in Hpre.
  destruct (upto_amp_split after) as (post & Hafter & Hpost).
  exists "", post. split; [|done]. rewrite Hpre.
  change ("" +:+ "pub=" +:+ upto_amp after +:+ post)
    with ("pub=" +:+ (upto_amp after +:+ post)).
  by rewrite <- Hafter.
Qed.

Lemma row_step_well_formed competitors row :
  Forall well_formed competitors → Forall well_formed (row_step competitors row).
Proof.
  intros Hacc. unfold row_step. destruct (_ <=? _)%nat; [|done].
  destruct (Bs4.find portfolio_link row) as [link|]; [|done].
  destruct (pub_search (href_of link)) as [public_id|] eqn:Hid; [|done].
  apply Forall_app. split; [done|]. constructor; [|constructor].
  apply pub_search_sound in Hid as (Hne & Hamp & _).
  split; [done|]. split; [done|]. apply get_text_strip_trimmed.
Qed.

Lemma table_pass_well_formed soup : Forall well_formed (table_pass soup).
Proof.
  unfold table_pass. apply foldl_Forall; [|constructor].
  intros acc table Hacc. apply foldl_Forall; [|done].
  intros acc' row. apply row_step_well_formed.
Qed.

(** What the pass over the links returns: what it was given, then an
    entry for each link with an id, numbered by the place of the link. *)
Lemma link_pass_spec player_links : ∀ i competitors,
  ∃ added,
    link_pass i competitors player_links = competitors ++ added ∧
    StronglySorted Z.lt (snd <$> added) ∧
    Forall (λ e, ∃ n link,
              player_links !! n = Some link ∧ e.2 = i + Z.of_nat n ∧
              pub_search (href_of link) = Some e.1.1 ∧
              e.1.2 = Bs4.get_text_strip link) added.
Proof.
  induction player_links as [|link rest IH]; intros i competitors.
  - exists []. simpl. rewrite app_nil_r. repeat split; constructor.
  - simpl. destruct (pub_search (href_of link)) as [public_id|] eqn:Hid.
    + destruct (IH (i + 1) (competitors ++ [(public_id, Bs4.get_text_strip link, i)]))
        as (added & -> & Hsorted & Hall).
      exists ((public_id, Bs4.get_text_strip link, i) :: added).
      rewrite <- app_assoc. split; [done|]. split.
      * rewrite fmap_cons. constructor; [done|].
        apply Forall_fmap. eapply Forall_impl; [done|].
        intros e (n & _ & _ & He & _). simpl. lia.
      * constructor.
        { exists 0%nat, link. simpl. repeat split; [lia|done]. }
        eapply Forall_impl; [done|].
        intros e (n & l & Hl & Hn & He). exists (S n), l. simpl.
        split; [done|]. split; [lia|done].
    + destruct (IH (i + 1) competitors) as (added & -> & Hsorted & Hall).
      exists added. split; [done|]. split; [done|].
      eapply Forall_impl; [done|].
      intros e (n & l & Hl & Hn & He). exists (S n), l. simpl.
      split; [done|]. split; [lia|done].
Qed.

(** *** The id in a portfolio address *)

Lemma strip_prefix_prefix p : ∀ s,
  String.prefix p s = false → strip_prefix p s = None.
Proof.
  induction p as [|a p IH]; intros [|b s]; simpl; try done.
  destruct (ascii_dec a b) as [->|Hab].
  - rewrite Ascii.eqb_refl. apply IH.
  - by apply Ascii.eqb_neq in Hab as ->.
Qed.

Lemma strip_prefix_slash p : ∀ g tail,
  Py.contains "/" p = false →
  strip_prefix p g = None →
  strip_prefix p (g +:+ String "/" tail) = None.
Proof.
  induction p as [|a p IH]; intros g tail Hp; [done|].
  rewrite contains_char_cons in Hp. apply orb_false_iff in Hp as [Ha Hp].
  destruct g as [|b g]; simpl.
  - by rewrite Ascii.eqb_sym, Ha.
  - destruct (Ascii.eqb a b); [|done]. by apply IH.
Qed.

Lemma strip_prefix_pub_slash (g tail : string) :
  Py.contains "pub=" g = false →
  strip_prefix "pub=" (g +:+ String "/" tail) = None.
Proof.
  intros Hg. apply strip_prefix_slash; [done|].
  apply strip_prefix_prefix. destruct g; [done|].
  change (String.prefix "pub=" (String a g) || Py.contains "pub=" g = false) in Hg.
  by apply orb_false_iff in Hg as [? _].
Qed.

Lemma contains_tail sub c s :
  Py.contains sub (String c s) = false → Py.contains sub s = false.
Proof.
  change (Py.contains sub (String c s))
    with (String.prefix sub (String c s) || Py.contains sub s).
  by intros [_ ?]%orb_false_iff.
Qed.

Lemma pub_search_miss c (s : string) :
  strip_prefix "pub=" (String c s) = None →
  pub_search (String c s) = pub_search s.
Proof.
  intros Hmiss.
  change (pub_search (String c s)) with
    (match strip_prefix "pub=" (String c s) with
     | Some after =>
         if Py.is_empty (upto_amp after) then pub_search s else Some (upto_amp after)
     | None => pub_search s
     end).
  by rewrite Hmiss.
Qed.

Lemma pub_search_skip (g tail : string) :
  Py.contains "pub=" g = false →
  pub_search (g +:+ String "/" tail) = pub_search (String "/" tail).
Proof.
  induction g as [|c g IH]; [done|]. intros Hg.
  rewrite append_cons.
  change (pub_search (String c (g +:+ String "/" tail))) with
    (match strip_prefix "pub=" (String c (g +:+ String "/" tail)) with
     | Some after =>
         if Py.is_empty (upto_amp after) then pub_search (g +:+ String "/" tail)
         else Some (upto_amp after)
     | None => pub_search (g +:+ String "/" tail)
     end).
  rewrite <- append_cons, strip_prefix_pub_slash by done.
  apply IH. by eapply contains_tail.
Qed.
End Leaderboard.

(** ** Timestamps in the shown format *)

Section ShownTimestamps.
Import Datetime Timestamp competition_scraper.

Local Ltac by_cases c :=
  destruct c as [[] [] [] [] [] [] [] []]; vm_compute; try done.

Local Abbreviation free a s := (Py.all_chars (λ c, negb (Ascii.eqb c a)) s = true).
Local Abbreviation digits s := (Py.all_chars Py.isdecimal_char s = true).

Lemma range_cases (P : Z → Prop) lo hi :
  Forall P (seqZ lo (hi - lo + 1)) → ∀ x, lo ≤ x ≤ hi → P x.
Proof.
  intros HP x Hx. eapply Forall_forall; [done|]. apply elem_of_seqZ. lia.
Qed.

Local Ltac each_case :=
  match goal with
  | |- ∀ n, ?lo ≤ n ≤ ?hi → @?P n => apply (range_cases P lo hi)
  end;
  match goal with
  | |- Forall ?P (seqZ ?lo ?n) =>
      let l := eval vm_compute in (seqZ lo n) in change (Forall P l)
  end;
  repeat first
    [ apply List.Forall_nil
    | apply List.Forall_cons; [cbv beta; intros; vm_compute; repeat split; reflexivity|] ].

Lemma append_assoc (s t u : string) : (s +:+ t) +:+ u = s +:+ t +:+ u.
Proof. induction s as [|c s IH]; [done|]. by rewrite !append_cons, IH. Qed.

Lemma all_chars_app p (s t : string) :
  Py.all_chars p (s +:+ t) = Py.all_chars p s && Py.all_chars p t.
Proof.
  induction s as [|c s IH]; [done|].
  rewrite append_cons. simpl. by rewrite IH, andb_assoc.
Qed.

Lemma string_prefix_cons a (s : string) b (t : string) :
  String.prefix (String a s) (String b t) = Ascii.eqb a b && String.prefix s t.
Proof.
  simpl. destruct (ascii_dec a b) as [->|Hab].
  - by rewrite Ascii.eqb_refl.
  - by apply Ascii.eqb_neq in Hab as ->.
Qed.

Lemma all_chars_cons p c (s : string) :
  Py.all_chars p (String c s) = p c && Py.all_chars p s.
Proof. reflexivity. Qed.

Lemma replace_skip a old new (s t : string) :
  free a s →
  Py.replace_from (String a old) new 0 (s +:+ t) =
    s +:+ Py.replace_from (String a old) new 0 t.
Proof.
  induction s as [|c s IH]; [done|]. simpl Py.all_chars.
  intros [Hc Hs]%andb_true_iff. rewrite !append_cons. simpl.
  destruct (ascii_dec a c) as [->|_].
  - by rewrite Ascii.eqb_refl in Hc.
  - by rewrite IH.
Qed.

Lemma split_skip sep (s : string) : ∀ cur t,
  free sep s → Py.split_from sep cur (s +:+ t) = Py.split_from sep (cur +:+ s) t.
Proof.
  induction s as [|c s IH]; intros cur t.
  - by rewrite append_empty_r.
  - simpl Py.all_chars. intros [Hc Hs]%andb_true_iff. rewrite append_cons. simpl.
    apply negb_true_iff in Hc as ->. rewrite IH by done.
    by rewrite <- append_cons_assoc.
Qed.

Lemma split_sep sep cur (t : string) :
  Py.split_from sep cur (String sep t) = cur :: Py.split_from sep "" t.
Proof. simpl. by rewrite Ascii.eqb_refl. Qed.

Lemma split_last sep cur (s : string) :
  free sep s → Py.split_from sep cur s = [cur +:+ s].
Proof.
  intros Hs. rewrite <- (append_empty_r s) at 1. by rewrite split_skip.
Qed.

Lemma rstrip_of_app_id p (a b : string) :
  Py.rstrip_of p b = b → Py.is_empty b = false →
  Py.rstrip_of p (a +:+ b) = a +:+ b.
Proof. intros Hb Hne. rewrite rstrip_of_app; by rewrite Hb. Qed.

Lemma decimal_char_class c :
  Py.isdecimal_char c = true →
  Ascii.eqb c " " = false ∧ Ascii.eqb c "/" = false ∧ Ascii.eqb c "a" = false ∧
  Ascii.eqb c "p" = false ∧ Ascii.eqb c "E" = false ∧ Py.isspace_char c = false.
Proof. by_cases c; intros _; repeat split; done. Qed.

Lemma digits_free a (s : string) :
  Py.isdecimal_char a = false → digits s → free a s.
Proof.
  intros Ha. apply all_chars_impl. intros c Hc. apply negb_true_iff.
  destruct (Ascii.eqb_spec c a) as [->|]; [congruence|done].
Qed.

(** *** The fields as texts *)

Lemma two_digits_digits : ∀ n, 0 ≤ n ≤ 99 → digits (two_digits n).
Proof. each_case. Qed.

Lemma decimal_digits : ∀ n, 0 ≤ n ≤ 99 →
  digits (decimal n) ∧ Py.is_empty (decimal n) = false ∧
  Py.zfill 2 (decimal n) = two_digits n.
Proof. each_case. Qed.

Lemma int_two_digits : ∀ n, 0 ≤ n ≤ 99 →
  Py.int (two_digits n) = Py.Ok n ∧ Py.int (decimal n) = Py.Ok n ∧
  Py.int ("20" +:+ two_digits n) = Py.Ok (2000 + n).
Proof. each_case. Qed.

(** *** The text given to [strptime] *)

Lemma replace_ET (date time : string) :
  free " " date → free " " time →
  (∃ c rest, time = String c rest ∧ Ascii.eqb c "E" = false) →
  Py.replace " ET" "" (date +:+ " " +:+ time +:+ " ET") = date +:+ " " +:+ time.
Proof.
  intros Hdate Htime (c & rest & -> & Hc). unfold Py.replace.
  rewrite replace_skip by done. f_equal.
  change (" " +:+ String c rest +:+ " ET") with (String " " (String c (rest +:+ " ET"))).
  change (Py.replace_from " ET" "" 0 (String " " (String c (rest +:+ " ET"))))
    with (if String.prefix " ET" (String " " (String c (rest +:+ " ET")))
          then "" +:+ Py.replace_from " ET" "" 2 (String c (rest +:+ " ET"))
          else String " " (Py.replace_from " ET" "" 0 (String c (rest +:+ " ET")))).
  assert (String.prefix " ET" (String " " (String c (rest +:+ " ET"))) = false) as ->.
  { rewrite !string_prefix_cons, (Ascii.eqb_sym "E"), Hc. done. }
  rewrite <- append_cons, replace_skip by done.
  change (Py.replace_from " ET" "" 0 " ET") with "". by rewrite append_empty_r.
Qed.

Lemma strip_date_time (date time : string) :
  (∃ c rest, date = String c rest ∧ Py.isspace_char c = false) →
  Py.all_chars (λ c, negb (Py.isspace_char c)) time = true →
  Py.is_empty time = false →
  Py.strip (date +:+ " " +:+ time) = date +:+ " " +:+ time.
Proof.
  intros (c & rest & -> & Hc) Htime Hne. unfold Py.strip.
  rewrite rstrip_of_app_id.
  - rewrite append_cons. simpl. by rewrite Hc.
  - rewrite (rstrip_of_app_id _ " " time); [done| |done]. by apply rstrip_of_none.
  - done.
Qed.

Lemma replace_am_pm (hm : string) (h : meridiem) :
  free "a" hm → free "p" hm →
  Py.replace "p" " PM"
    (Py.replace "a" " AM" (hm +:+ match h with AM => "a" | PM => "p" end)) =
  hm +:+ match h with AM => " AM" | PM => " PM" end.
Proof.
  intros Ha Hp. unfold Py.replace. rewrite replace_skip by done.
  destruct h.
  - change (Py.replace_from "a" " AM" 0 "a") with " AM".
    by rewrite replace_skip.
  - change (Py.replace_from "a" " AM" 0 "p") with "p".
    by rewrite replace_skip.
Qed.

Lemma free_digit a :
  Py.isdecimal_char a = false →
  ∀ c, Py.isdecimal_char c = true → negb (Ascii.eqb c a) = true.
Proof.
  intros Ha c Hc. apply negb_true_iff.
  destruct (Ascii.eqb_spec c a) as [->|]; [congruence|done].
Qed.

Lemma nonspace_digit c :
  Py.isdecimal_char c = true → negb (Py.isspace_char c) = true.
Proof. intros Hc. by destruct (decimal_char_class c Hc) as (_ & _ & _ & _ & _ & ->). Qed.

(** The text built from a timestamp of the shown format. *)
Lemma parse_date_body_shown (ts : t) :
  0 ≤ year ts ≤ 99 → 0 ≤ month ts ≤ 99 → 0 ≤ day ts ≤ 99 →
  0 ≤ hour ts ≤ 99 → 0 ≤ minute ts ≤ 99 →
  parse_date_body (shown ts) =
    strptime ("20" +:+ two_digits (year ts) +:+ "-" +:+ two_digits (month ts) +:+ "-"
                +:+ two_digits (day ts) +:+ " " +:+ decimal (hour ts) +:+ ":"
                +:+ two_digits (minute ts)
                +:+ match half ts with AM => " AM" | PM => " PM" end).
Proof.
  intros Hy Hm Hd Hh Hmi.
  destruct (decimal_digits _ Hm) as (Dm & Nm & Zm).
  destruct (decimal_digits _ Hd) as (Dd & Nd & Zd).
  destruct (decimal_digits _ Hh) as (Dh & Nh & _).
  pose proof (two_digits_digits _ Hy) as Dy.
  pose proof (two_digits_digits _ Hmi) as Dmi.
  assert (Hclock : ∀ q, (∀ c, Py.isdecimal_char c = true → q c = true) →
    q ":"%char = true → Py.all_chars q (clock ts) = true).
  { intros q Hq Hcolon. unfold clock.
    rewrite !all_chars_app, (all_chars_impl _ q _ Hq Dh), (all_chars_impl _ q _ Hq Dmi).
    rewrite all_chars_cons. by rewrite Hcolon. }
  assert (Hdate : ∀ q, (∀ c, Py.isdecimal_char c = true → q c = true) →
    q "/"%char = true → Py.all_chars q (date_part ts) = true).
  { intros q Hq Hslash. unfold date_part. rewrite !all_chars_app.
    rewrite (all_chars_impl _ q _ Hq Dm), (all_chars_impl _ q _ Hq Dd),
      (all_chars_impl _ q _ Hq Dy).
    rewrite !all_chars_cons. by rewrite Hslash. }
  assert (Htime : ∀ q, (∀ c, Py.isdecimal_char c = true → q c = true) →
    q ":"%char = true → q "a"%char = true → q "p"%char = true →
    Py.all_chars q (time_part ts) = true).
  { intros q Hq Hcolon Haa Hpa. unfold time_part.
    rewrite all_chars_app, Hclock by done.
    destruct (half ts); rewrite all_chars_cons.
    - by rewrite Haa.
    - by rewrite Hpa. }
  assert (Hhead : ∃ c rest, date_part ts = String c rest ∧ Py.isdecimal_char c = true).
  { unfold date_part. destruct (decimal (month ts)) as [|c rest]; [done|].
    exists c, (rest +:+ "/" +:+ decimal (day ts) +:+ "/" +:+ two_digits (year ts)).
    split; [done|]. simpl in Dm. by apply andb_true_iff in Dm as [? _]. }
  assert (Hhead' : ∃ c rest, time_part ts = String c rest ∧ Py.isdecimal_char c = true).
  { unfold time_part, clock. destruct (decimal (hour ts)) as [|c rest]; [done|].
    eexists c, _. split; [by rewrite !append_cons|].
    simpl in Dh. by apply andb_true_iff in Dh as [? _]. }
  assert (Hnonspace : Py.all_chars (λ c, negb (Py.isspace_char c)) (time_part ts) = true).
  { apply Htime; [apply nonspace_digit|done..]. }
  assert (Hne : Py.is_empty (time_part ts) = false).
  { destruct Hhead' as (c & rest & -> & _). done. }
  unfold parse_date_body.
  assert (Hfirst : Py.is_empty (shown ts) = false).
  { unfold shown. destruct Hhead as (c & rest & -> & _). done. }
  rewrite Hfirst. cbn [orb].
  assert (Hwhole : Py.strip (shown ts) = shown ts).
  { unfold shown, Py.strip.
    rewrite rstrip_of_app_id; [| |done].
    - destruct Hhead as (c & rest & -> & Hc). rewrite append_cons. simpl.
      by destruct (decimal_char_class c Hc) as (_ & _ & _ & _ & _ & ->).
    - rewrite (rstrip_of_app_id _ " "); [done| |].
      + by rewrite rstrip_of_app_id.
      + destruct Hhead' as (c & rest & -> & _). done. }
  rewrite Hwhole.
  assert (String.eqb (shown ts) "" = false) as ->.
  { destruct (shown ts); done. }
  unfold shown at 1. rewrite replace_ET; cycle 1.
  { apply Hdate; [by apply free_digit|done]. }
  { apply Htime; [by apply free_digit|done..]. }
  { destruct Hhead' as (c & rest & Heq & Hc). exists c, rest. split; [done|].
    by destruct (decimal_char_class c Hc) as (_ & _ & _ & _ & -> & _). }
  rewrite strip_date_time; [| |done..]; cycle 1.
  { destruct Hhead as (c & rest & Heq & Hc). exists c, rest. split; [done|].
    by destruct (decimal_char_class c Hc) as (_ & _ & _ & _ & _ & ->). }
  unfold Py.split. rewrite split_skip by (apply Hdate; [by apply free_digit|done]).
  change (" " +:+ time_part ts) with (String " " (time_part ts)).
  rewrite split_sep, split_last by (apply Htime; [by apply free_digit|done..]).
  change ("" +:+ date_part ts) with (date_part ts).
  change ("" +:+ time_part ts) with (time_part ts).
  cbv iota beta. unfold date_part.
  rewrite split_skip by (by apply digits_free).
  change ("/" +:+ decimal (day ts) +:+ "/" +:+ two_digits (year ts))
    with (String "/" (decimal (day ts) +:+ String "/" (two_digits (year ts)))).
  rewrite split_sep, split_skip by (by apply digits_free).
  rewrite split_sep, split_last by (by apply digits_free).
  cbv iota beta. change ("" +:+ ?x) with x.
  unfold time_part.
  rewrite replace_am_pm by (apply Hclock; [by apply free_digit|done]).
  rewrite Zm, Zd. f_equal. unfold clock.
  rewrite !append_assoc. done.
Qed.

(** *** The match of the format

    The first match of a sequence goes through the first match of its
    head whenever the rest matches after it. *)

Lemma head_bind {A B} (f : A → list B) (l : list A) x y :
  head l = Some x → head (f x) = Some y → head (l ≫= f) = Some y.
Proof.
  destruct l as [|x' l]; [done|]. intros [= ->]. rewrite bind_cons.
  by destruct (f x).
Qed.

Lemma re_Y_shown : ∀ n, 0 ≤ n ≤ 99 → ∀ r,
  head (re_Y ("20" +:+ two_digits n +:+ r)) = Some ("20" +:+ two_digits n, r).
Proof. each_case. Qed.

Lemma re_m_shown : ∀ n, 1 ≤ n ≤ 12 → ∀ r,
  head (re_m (two_digits n +:+ String "-" r)) = Some (two_digits n, String "-" r).
Proof. each_case. Qed.

Lemma re_d_shown : ∀ n, 1 ≤ n ≤ 31 → ∀ r,
  head (re_d (two_digits n +:+ String " " r)) = Some (two_digits n, String " " r).
Proof. each_case. Qed.

Lemma spaces_shown : ∀ n, 1 ≤ n ≤ 12 → ∀ r,
  head (spaces (String " " (decimal n +:+ r))) = Some (" ", decimal n +:+ r).
Proof. each_case. Qed.

Lemma re_I_shown : ∀ n, 1 ≤ n ≤ 12 → ∀ r,
  head (re_I (decimal n +:+ String ":" r)) = Some (decimal n, String ":" r).
Proof. each_case. Qed.

Lemma re_M_shown : ∀ n, 0 ≤ n ≤ 59 → ∀ r,
  head (re_M (two_digits n +:+ r)) = Some (two_digits n, r).
Proof. each_case. Qed.

Lemma format_regex_shown (y m d h mi : Z) (p : string) :
  0 ≤ y ≤ 99 → 1 ≤ m ≤ 12 → 1 ≤ d ≤ 31 → 1 ≤ h ≤ 12 → 0 ≤ mi ≤ 59 →
  p = "AM" ∨ p = "PM" →
  head (format_regex ("20" +:+ two_digits y +:+ "-" +:+ two_digits m +:+ "-"
                        +:+ two_digits d +:+ " " +:+ decimal h +:+ ":"
                        +:+ two_digits mi +:+ " " +:+ p)) =
    Some (mkFound ("20" +:+ two_digits y) (two_digits m) (two_digits d)
            (decimal h) (two_digits mi) p "").
Proof.
  intros Hy Hm Hd Hh Hmi Hp. unfold format_regex.
  eapply head_bind; [by apply re_Y_shown|]. cbv beta iota.
  eapply head_bind; [reflexivity|]. cbv beta iota.
  eapply head_bind; [by apply re_m_shown|]. cbv beta iota.
  eapply head_bind; [reflexivity|]. cbv beta iota.
  eapply head_bind; [by apply re_d_shown|]. cbv beta iota.
  eapply head_bind; [by apply spaces_shown|]. cbv beta iota.
  eapply head_bind; [by apply re_I_shown|]. cbv beta iota.
  eapply head_bind; [reflexivity|]. cbv beta iota.
  eapply head_bind; [by apply re_M_shown|]. cbv beta iota.
  by destruct Hp as [-> | ->].
Qed.

Lemma strptime_shown (ts : t) :
  valid ts →
  strptime ("20" +:+ two_digits (year ts) +:+ "-" +:+ two_digits (month ts) +:+ "-"
              +:+ two_digits (day ts) +:+ " " +:+ decimal (hour ts) +:+ ":"
              +:+ two_digits (minute ts)
              +:+ match half ts with AM => " AM" | PM => " PM" end) =
    Py.Ok (instant ts).
Proof.
  intros (Hy & Hm & Hd & Hh & Hmi).
  assert (Hd31 : 1 ≤ day ts ≤ 31).
  { split; [lia|]. etrans; [apply Hd|]. unfold days_in_month.
    repeat (match goal with |- context [if ?b then _ else _] => destruct b end); lia. }
  pose (p := match half ts with AM => "AM" | PM => "PM" end).
  assert (Hp : p = "AM" ∨ p = "PM") by (unfold p; destruct (half ts); auto).
  pose proof (format_regex_shown _ _ _ _ _ p Hy Hm Hd31 Hh Hmi Hp) as Hre.
  replace (match half ts with AM => " AM" | PM => " PM" end) with (" " +:+ p)
    by (unfold p; by destruct (half ts)).
  unfold strptime.
  destruct (format_regex _) as [|found others]; [done|].
  injection Hre as ->. cbn [rest g_Y g_m g_d g_I g_M g_p Py.is_empty negb].
  destruct (int_two_digits (year ts) ltac:(lia)) as (_ & _ & ->).
  destruct (int_two_digits (month ts) ltac:(lia)) as (-> & _ & _).
  destruct (int_two_digits (day ts) ltac:(lia)) as (-> & _ & _).
  destruct (int_two_digits (hour ts) ltac:(lia)) as (_ & -> & _).
  destruct (int_two_digits (minute ts) ltac:(lia)) as (-> & _ & _).
  cbn [Py.bind].
  assert ((1 <=? 2000 + year ts) && (day ts <=? days_in_month (2000 + year ts) (month ts))
          = true) as ->.
  { apply andb_true_iff. split; apply Z.leb_le; lia. }
  unfold instant, hour24, p. destruct (half ts); [done|].
  change (Py.lower "PM" =? "am")%string with false. cbv iota.
  by destruct (Z.eqb_spec (hour ts) 12) as [->|].
Qed.

Lemma parse_date_shown (ts : t) : valid ts → parse_date (shown ts) = instant ts.
Proof.
  intros Hts. pose proof Hts as (Hy & Hm & Hd & Hh & Hmi).
  assert (Hd99 : 0 ≤ day ts ≤ 99).
  { split; [lia|]. etrans; [apply Hd|]. unfold days_in_month.
    repeat (match goal with |- context [if ?b then _ else _] => destruct b end); lia. }
  unfold parse_date.
  rewrite parse_date_body_shown by lia.
  by rewrite strptime_shown.
Qed.
End ShownTimestamps.

(** ** The texts the timestamp normaliser takes *)

Section TimestampShape.
Import Datetime Timestamp competition_scraper.

Local Abbreviation free a s := (Py.all_chars (λ c, negb (Ascii.eqb c a)) s = true).

(** *** Splitting *)

Lemma free_contains a (s : string) :
  free a s ↔ Py.contains (String a "") s = false.
Proof.
  induction s as [|c s IH]; [done|].
  rewrite all_chars_cons, contains_char_cons, andb_true_iff, orb_false_iff, IH.
  rewrite negb_true_iff, (Ascii.eqb_sym a c). done.
Qed.

Lemma free_app a (s t : string) : free a (s +:+ t) ↔ free a s ∧ free a t.
Proof. by rewrite all_chars_app, andb_true_iff. Qed.

Lemma free_cons a c (s : string) :
  free a (String c s) ↔ c ≠ a ∧ free a s.
Proof.
  rewrite all_chars_cons, andb_true_iff, negb_true_iff.
  by destruct (Ascii.eqb_spec c a); intuition.
Qed.

Lemma split_from_cons sep (s : string) : ∀ cur,
  ∃ piece pieces, Py.split_from sep cur s = piece :: pieces.
Proof.
  induction s as [|c s IH]; intros cur; simpl; [by eexists _, _|].
  destruct (Ascii.eqb c sep); [by eexists _, _|]. apply IH.
Qed.

Lemma split_from_join sep (s : string) : ∀ cur,
  String.concat (String sep "") (Py.split_from sep cur s) = cur +:+ s.
Proof.
  induction s as [|c s IH]; intros cur; simpl.
  - by rewrite append_empty_r.
  - destruct (Ascii.eqb_spec c sep) as [->|_].
    + destruct (split_from_cons sep s "") as (piece & pieces & Hs).
      pose proof (IH "") as Hjoin. rewrite Hs in *.
      change (String.concat (String sep "") (cur :: piece :: pieces))
        with (cur +:+ String sep "" +:+ String.concat (String sep "") (piece :: pieces)).
      by rewrite Hjoin.
    + rewrite IH. by rewrite <- append_cons_assoc.
Qed.

Lemma split_from_free sep (s : string) : ∀ cur,
  free sep cur → Forall (λ piece, free sep piece) (Py.split_from sep cur s).
Proof.
  induction s as [|c s IH]; intros cur Hcur; simpl.
  - by constructor.
  - destruct (Ascii.eqb_spec c sep) as [->|Hc].
    + constructor; [done|]. by apply IH.
    + apply IH. apply free_app. split; [done|]. by apply free_cons.
Qed.

Lemma split_two sep (s a b : string) :
  Py.split sep s = [a; b] →
  s = a +:+ String sep b ∧ free sep a ∧ free sep b.
Proof.
  unfold Py.split. intros Hs.
  pose proof (split_from_join sep s "") as Hjoin.
  pose proof (split_from_free sep s "" eq_refl) as Hfree.
  rewrite Hs in *.
  change (String.concat (String sep "") [a; b]) with (a +:+ String sep b) in Hjoin.
  change ("" +:+ s) with s in Hjoin.
  apply Forall_cons in Hfree as [Ha Hfree]. apply Forall_cons in Hfree as [Hb _].
  by rewrite <- Hjoin.
Qed.

Lemma split_three sep (s a b c : string) :
  Py.split sep s = [a; b; c] →
  s = a +:+ String sep (b +:+ String sep c) ∧ free sep a ∧ free sep b ∧ free sep c.
Proof.
  unfold Py.split. intros Hs.
  pose proof (split_from_join sep s "") as Hjoin.
  pose proof (split_from_free sep s "" eq_refl) as Hfree.
  rewrite Hs in *.
  change (String.concat (String sep "") [a; b; c])
    with (a +:+ String sep (b +:+ String sep c)) in Hjoin.
  change ("" +:+ s) with s in Hjoin.
  apply Forall_cons in Hfree as [Ha Hfree]. apply Forall_cons in Hfree as [Hb Hfree].
  apply Forall_cons in Hfree as [Hc _].
  by rewrite <- Hjoin.
Qed.

(** Two ways to cut a text at a [c], the second at its first [c]. *)
Lemma split_first c (a' : string) : ∀ a b b' : string,
  free c a' →
  a +:+ String c b = a' +:+ String c b' →
  (a = a' ∧ b = b') ∨ (∃ a'', a = a' +:+ String c a'' ∧ b' = a'' +:+ String c b).
Proof.
  induction a' as [|x a' IH]; intros a b b' Hfree Heq.
  - destruct a as [|y a]; simpl in Heq.
    + left. by injection Heq as ->.
    + right. injection Heq as -> <-. by exists a.
  - apply free_cons in Hfree as [Hx Hfree].
    destruct a as [|y a]; simpl in Heq; injection Heq as Hhead Heq.
    + congruence.
    + subst y. destruct (IH _ _ _ Hfree Heq) as [[-> ->]|(a'' & -> & ->)].
      * by left.
      * right. by exists a''.
Qed.

(** *** Padding and replacing *)

Lemma zfill_two (s : string) : ∃ a b r, Py.zfill 2 s = String a (String b r).
Proof.
  destruct s as [|x [|y s]]; unfold Py.zfill; simpl.
  - by eexists _, _, _.
  - destruct (Ascii.eqb x "+" || Ascii.eqb x "-"); by eexists _, _, _.
  - destruct (Ascii.eqb x "+" || Ascii.eqb x "-"); by eexists _, _, _.
Qed.

Lemma zfill_two_digits (s : string) a b :
  Py.zfill 2 s = String a (String b "") → Py.isdecimal_char a = true →
  s = String a (String b "") ∨
  (a = "0"%char ∧ (s = String b "" ∨ (s = "" ∧ b = "0"%char))).
Proof.
  intros Hz Ha.
  assert (Hsign : Ascii.eqb a "+" || Ascii.eqb a "-" = false).
  { destruct (isdecimal_char_plain a Ha) as (_ & _ & -> & -> & _). done. }
  destruct s as [|x [|y [|z s]]]; unfold Py.zfill in Hz; simpl in Hz.
  - injection Hz as <- <-. right. split; [done|]. by right.
  - destruct (Ascii.eqb x "+" || Ascii.eqb x "-") eqn:Hx.
    + injection Hz as -> _. congruence.
    + injection Hz as <- <-. right. split; [done|]. by left.
  - destruct (Ascii.eqb x "+" || Ascii.eqb x "-"); injection Hz as <- <-; by left.
  - destruct (Ascii.eqb x "+" || Ascii.eqb x "-"); discriminate.
Qed.

Lemma zfill_chars q n (s : string) :
  Py.all_chars q (Py.zfill n s) = true → Py.all_chars q s = true.
Proof.
  unfold Py.zfill. destruct s as [|x s]; [done|].
  destruct (Ascii.eqb x "+" || Ascii.eqb x "-").
  - rewrite !all_chars_cons, all_chars_app, !andb_true_iff. tauto.
  - rewrite all_chars_app, andb_true_iff. tauto.
Qed.

Lemma zfill_free a n (s : string) :
  a ≠ "0"%char → free a s → free a (Py.zfill n s).
Proof.
  intros Ha Hs.
  assert (Hz : ∀ k, free a (Py.zeros k)).
  { induction k as [|k IH]; [done|]. simpl Py.zeros. apply free_cons. by split. }
  unfold Py.zfill. destruct s as [|x s]; [apply Hz|].
  apply free_cons in Hs as [Hx Hs].
  destruct (Ascii.eqb x "+" || Ascii.eqb x "-").
  - apply free_cons. split; [done|]. apply free_app. by split.
  - apply free_app. split; [done|]. by apply free_cons.
Qed.

(** The characters of a text are, but for [a], among those of the
    text with [a] replaced. *)
Lemma replace_char_chars q a new (s : string) :
  q a = true →
  Py.all_chars q (Py.replace (String a "") new s) = true → Py.all_chars q s = true.
Proof.
  intros Ha. unfold Py.replace. induction s as [|c s IH]; [done|].
  change (Py.replace_from (String a "") new 0 (String c s))
    with (if String.prefix (String a "") (String c s)
          then new +:+ Py.replace_from (String a "") new 0 s
          else String c (Py.replace_from (String a "") new 0 s)).
  rewrite string_prefix_cons. destruct (Ascii.eqb_spec a c) as [<-|Hc].
  - replace (String.prefix "" s) with true by (by destruct s). simpl andb. cbv iota.
    rewrite all_chars_app, all_chars_cons, Ha, andb_true_iff.
    intros [_ Hs]. by rewrite IH.
  - simpl andb. cbv iota. rewrite !all_chars_cons, !andb_true_iff.
    intros [Hq Hs]. split; [done|]. by apply IH.
Qed.

(** A text without spaces has, after the replacement of [a] by a space
    and more, its first space where its first [a] stood. *)
Lemma replace_char_free a b new (s : string) :
  free b new → free b s →
  free b (Py.replace (String a "") new s).
Proof.
  intros Hnew. unfold Py.replace. induction s as [|c s IH]; [done|].
  change (Py.replace_from (String a "") new 0 (String c s))
    with (if String.prefix (String a "") (String c s)
          then new +:+ Py.replace_from (String a "") new 0 s
          else String c (Py.replace_from (String a "") new 0 s)).
  rewrite string_prefix_cons. intros [Hc Hs]%free_cons.
  destruct (Ascii.eqb a c).
  - replace (String.prefix "" s) with true by (by destruct s). simpl andb. cbv iota.
    apply free_app. split; [done|]. by apply IH.
  - simpl andb. cbv iota. apply free_cons. split; [done|]. by apply IH.
Qed.

(** *** Digits and numbers *)

Lemma digit_char_value c : digit_char (Py.digit_value c) = c.
Proof.
  unfold digit_char, Py.digit_value.
  replace (48 + (Z.of_N (N_of_ascii c) - 48)) with (Z.of_N (N_of_ascii c)) by lia.
  by rewrite N2Z.id, ascii_N_embedding.
Qed.

Lemma two_digits_of j k :
  0 ≤ k ≤ 9 →
  two_digits (10 * j + k) = String (digit_char j) (String (digit_char k) "").
Proof.
  intros Hk. unfold two_digits.
  replace ((10 * j + k) `div` 10) with j by (apply (Z.div_unique _ _ _ k); lia).
  replace ((10 * j + k) `mod` 10) with k by (apply (Z.mod_unique _ _ j); lia).
  done.
Qed.

Lemma decimal_of k : 0 ≤ k ≤ 9 → decimal k = String (digit_char k) "".
Proof. intros Hk. unfold decimal. by destruct (Z.ltb_spec k 10); [|lia]. Qed.

Lemma alphabet_digit k : 0 ≤ k ≤ 9 → alphabet (digit_char k) = true.
Proof.
  intros Hk. assert (Hcases : k ∈ seqZ 0 10) by (apply elem_of_seqZ; lia).
  revert Hcases. clear Hk. vm_compute seqZ.
  rewrite !elem_of_cons, elem_of_nil. intros [->|[->|[->|[->|[->|[->|[->|[->|[->|[->|[]]]]]]]]]]];
    reflexivity.
Qed.

Lemma int_digit k : 0 ≤ k ≤ 9 → Py.int (String (digit_char k) "") = Py.Ok k.
Proof.
  intros Hk. assert (Hcases : k ∈ seqZ 0 10) by (apply elem_of_seqZ; lia).
  revert Hcases. clear Hk. vm_compute seqZ.
  rewrite !elem_of_cons, elem_of_nil. intros [->|[->|[->|[->|[->|[->|[->|[->|[->|[->|[]]]]]]]]]]];
    reflexivity.
Qed.

(** *** What the matchers take *)

Lemma alt_spec (a b : Matcher) s (m r : string) :
  (m, r) ∈ alt a b s → (m, r) ∈ a s ∨ (m, r) ∈ b s.
Proof. unfold alt. apply elem_of_app. Qed.

Lemma lit_spec c s (m r : string) :
  (m, r) ∈ lit c s → s = String c r ∧ m = String c "".
Proof. intros (x & -> & -> & <-%Ascii.eqb_eq)%one_spec. done. Qed.

Lemma between_spec lo hi (a b : Z) s (m r : string) :
  a = Py.digit_value lo → b = Py.digit_value hi →
  (m, r) ∈ between lo hi s →
  ∃ k, a ≤ k ≤ b ∧ s = String (digit_char k) r ∧ m = String (digit_char k) "".
Proof.
  intros -> -> (c & -> & -> & Hc)%one_spec.
  apply andb_true_iff in Hc as [Hlo%N.leb_le Hhi%N.leb_le].
  exists (Py.digit_value c). rewrite digit_char_value. split; [|done].
  unfold Py.digit_value. lia.
Qed.

Lemma digit_spec s (m r : string) :
  (m, r) ∈ digit s →
  ∃ k, 0 ≤ k ≤ 9 ∧ s = String (digit_char k) r ∧ m = String (digit_char k) "".
Proof.
  intros (c & -> & -> & Hc)%one_spec.
  exists (Py.digit_value c). rewrite digit_char_value. split; [|done].
  by destruct (isdecimal_char_plain c Hc) as (_ & _ & _ & _ & _ & _ & ?).
Qed.

Lemma letter_spec c s (m r : string) :
  (m, r) ∈ letter c s → ∃ x, s = String x r ∧ m = String x "" ∧ Py.lower_char x = c.
Proof.
  intros (x & -> & -> & Hx%Ascii.eqb_eq)%one_spec. by exists x.
Qed.

Lemma spaces_spec s : ∀ m r : string,
  (m, r) ∈ spaces s →
  s = m +:+ r ∧ Py.all_chars Py.isspace_char m = true ∧ Py.is_empty m = false.
Proof.
  induction s as [|c s IH]; intros m r; simpl; [by intros ?%elem_of_nil|].
  destruct (Py.isspace_char c) eqn:Hc; [|by intros ?%elem_of_nil].
  intros [Hin|Hin]%elem_of_app.
  - apply list_elem_of_fmap in Hin as ([m' r'] & [= -> ->] & Hin).
    destruct (IH _ _ Hin) as (-> & Hm & _). simpl. by rewrite Hc, Hm.
  - apply list_elem_of_singleton in Hin as [= -> ->]. simpl. by rewrite Hc.
Qed.

(** A number of one or two digits, as [re_m], [re_d], [re_I] and
    [re_M] take them. *)
Local Abbreviation number m n := (m = decimal n ∨ m = two_digits n).

Lemma re_m_spec s (m r : string) :
  (m, r) ∈ re_m s → s = m +:+ r ∧ ∃ n, 1 ≤ n ≤ 12 ∧ number m n.
Proof.
  unfold re_m. intros [H|[H|H]%alt_spec]%alt_spec.
  - apply seq_spec in H as (m1 & r1 & m2 & [-> ->]%lit_spec & H & ->).
    apply (between_spec _ _ 0 2) in H as (k & Hk & -> & ->); [|done..].
    split; [done|]. exists (10 * 1 + k). split; [lia|]. right.
    by rewrite two_digits_of by lia.
  - apply seq_spec in H as (m1 & r1 & m2 & [-> ->]%lit_spec & H & ->).
    apply (between_spec _ _ 1 9) in H as (k & Hk & -> & ->); [|done..].
    split; [done|]. exists (10 * 0 + k). split; [lia|]. right.
    by rewrite two_digits_of by lia.
  - apply (between_spec _ _ 1 9) in H as (k & Hk & -> & ->); [|done..].
    split; [done|]. exists k. split; [lia|]. left. by rewrite decimal_of by lia.
Qed.

Lemma re_d_spec s (m r : string) :
  (m, r) ∈ re_d s →
  s = m +:+ r ∧
  ((∃ n, 1 ≤ n ≤ 31 ∧ number m n) ∨ ∃ k, 1 ≤ k ≤ 9 ∧ m = String " " (decimal k)).
Proof.
  unfold re_d. intros [H|[H|[H|[H|H]%alt_spec]%alt_spec]%alt_spec]%alt_spec.
  - apply seq_spec in H as (m1 & r1 & m2 & [-> ->]%lit_spec & H & ->).
    apply (between_spec _ _ 0 1) in H as (k & Hk & -> & ->); [|done..].
    split; [done|]. left. exists (10 * 3 + k). split; [lia|]. right.
    by rewrite two_digits_of by lia.
  - apply seq_spec in H as (m1 & r1 & m2 & H1 & H & ->).
    apply (between_spec _ _ 1 2) in H1 as (j & Hj & -> & ->); [|done..].
    apply digit_spec in H as (k & Hk & -> & ->).
    split; [done|]. left. exists (10 * j + k). split; [lia|]. right.
    by rewrite two_digits_of by lia.
  - apply seq_spec in H as (m1 & r1 & m2 & [-> ->]%lit_spec & H & ->).
    apply (between_spec _ _ 1 9) in H as (k & Hk & -> & ->); [|done..].
    split; [done|]. left. exists (10 * 0 + k). split; [lia|]. right.
    by rewrite two_digits_of by lia.
  - apply (between_spec _ _ 1 9) in H as (k & Hk & -> & ->); [|done..].
    split; [done|]. left. exists k. split; [lia|]. left. by rewrite decimal_of by lia.
  - apply seq_spec in H as (m1 & r1 & m2 & [-> ->]%lit_spec & H & ->).
    apply (between_spec _ _ 1 9) in H as (k & Hk & -> & ->); [|done..].
    split; [done|]. right. exists k. split; [lia|]. by rewrite decimal_of by lia.
Qed.

Lemma re_M_spec s (m r : string) :
  (m, r) ∈ re_M s → s = m +:+ r ∧ ∃ n, 0 ≤ n ≤ 59 ∧ number m n.
Proof.
  unfold re_M. intros [H|H]%alt_spec.
  - apply seq_spec in H as (m1 & r1 & m2 & H1 & H & ->).
    apply (between_spec _ _ 0 5) in H1 as (j & Hj & -> & ->); [|done..].
    apply digit_spec in H as (k & Hk & -> & ->).
    split; [done|]. exists (10 * j + k). split; [lia|]. right.
    by rewrite two_digits_of by lia.
  - apply digit_spec in H as (k & Hk & -> & ->).
    split; [done|]. exists k. split; [lia|]. left. by rewrite decimal_of by lia.
Qed.

Lemma re_p_spec s (m r : string) :
  (m, r) ∈ re_p s →
  s = m +:+ r ∧ ∃ x y, m = String x (String y "") ∧
    (Py.lower_char x = "a"%char ∨ Py.lower_char x = "p"%char) ∧
    Py.lower_char y = "m"%char.
Proof.
  unfold re_p. intros [H|H]%alt_spec;
    apply seq_spec in H as (m1 & r1 & m2 & H1 & H & ->);
    apply letter_spec in H1 as (x & -> & -> & Hx);
    apply letter_spec in H as (y & -> & -> & Hy);
    (split; [done|]); exists x, y; auto.
Qed.

(** The characters of the groups. *)
Lemma number_alphabet (m : string) n :
  0 ≤ n ≤ 99 → number m n → Py.all_chars alphabet m = true.
Proof.
  intros Hn Hm.
  assert (Hd : Py.all_chars Py.isdecimal_char m = true).
  { destruct Hm as [-> | ->].
    - by destruct (decimal_digits n Hn) as (? & _).
    - by apply two_digits_digits. }
  eapply all_chars_impl; [|exact Hd]. intros c Hc. unfold alphabet. by rewrite Hc.
Qed.

Lemma spaces_alphabet (w : string) :
  Py.all_chars Py.isspace_char w = true → Py.all_chars alphabet w = true.
Proof.
  apply all_chars_impl. intros c Hc. unfold alphabet. by rewrite Hc, orb_true_r.
Qed.

Lemma lower_char_letter x :
  (Py.lower_char x = "a"%char ∨ Py.lower_char x = "p"%char ∨ Py.lower_char x = "m"%char) →
  alphabet x = true.
Proof.
  destruct x as [[] [] [] [] [] [] [] []]; vm_compute; intros [H|[H|H]];
    first [reflexivity | discriminate].
Qed.

Lemma alphabet_no_dash c : alphabet c = true → negb (Ascii.eqb c "-") = true.
Proof. destruct c as [[] [] [] [] [] [] [] []]; vm_compute; done. Qed.

Lemma decimal_no_dash c : Py.isdecimal_char c = true → negb (Ascii.eqb c "-") = true.
Proof. intros Hc. by destruct (isdecimal_char_plain c Hc) as (_ & _ & -> & _). Qed.

Lemma isdecimal_digit_char k : 0 ≤ k ≤ 9 → Py.isdecimal_char (digit_char k) = true.
Proof.
  intros Hk. pose proof (decimal_digits k ltac:(lia)) as (Hd & _).
  rewrite decimal_of in Hd by done. simpl in Hd. by apply andb_true_iff in Hd as [? _].
Qed.

(** *** The match as a whole *)

Lemma format_regex_groups data_string found :
  found ∈ format_regex data_string →
  ∃ (w1 w2 : string) c1 c2 c3 c4 n nd h mi x y,
    data_string =
      g_Y found +:+ String "-" (g_m found +:+ String "-"
        (g_d found +:+ w1 +:+ g_I found +:+ String ":"
           (g_M found +:+ w2 +:+ g_p found +:+ rest found))) ∧
    g_Y found = String c1 (String c2 (String c3 (String c4 ""))) ∧
    Py.isdecimal_char c1 = true ∧ Py.isdecimal_char c2 = true ∧
    Py.isdecimal_char c3 = true ∧ Py.isdecimal_char c4 = true ∧
    1 ≤ n ≤ 12 ∧ number (g_m found) n ∧
    ((1 ≤ nd ≤ 31 ∧ number (g_d found) nd) ∨
     (1 ≤ nd ≤ 9 ∧ g_d found = String " " (decimal nd))) ∧
    Py.all_chars Py.isspace_char w1 = true ∧ Py.is_empty w1 = false ∧
    1 ≤ h ≤ 12 ∧ number (g_I found) h ∧
    0 ≤ mi ≤ 59 ∧ number (g_M found) mi ∧
    Py.all_chars Py.isspace_char w2 = true ∧ Py.is_empty w2 = false ∧
    g_p found = String x (String y "") ∧
    (Py.lower_char x = "a"%char ∨ Py.lower_char x = "p"%char) ∧
    Py.lower_char y = "m"%char.
Proof.
  unfold format_regex.
  intros ([gY r1] & Hin & HY)%list_elem_of_bind.
  apply list_elem_of_bind in Hin as ([x2 r2] & Hin & [-> ->]%lit_spec).
  apply list_elem_of_bind in Hin as ([gm r3] & Hin & Hm).
  apply list_elem_of_bind in Hin as ([x4 r4] & Hin & [-> ->]%lit_spec).
  apply list_elem_of_bind in Hin as ([gd r5] & Hin & Hd).
  apply list_elem_of_bind in Hin as ([w1 r6] & Hin & Hw1).
  apply list_elem_of_bind in Hin as ([gI r7] & Hin & HI).
  apply list_elem_of_bind in Hin as ([x8 r8] & Hin & [-> ->]%lit_spec).
  apply list_elem_of_bind in Hin as ([gM r9] & Hin & HM).
  apply list_elem_of_bind in Hin as ([w2 r10] & Hin & Hw2).
  apply list_elem_of_bind in Hin as ([gp r11] & Hin & Hp).
  apply list_elem_of_singleton in Hin as ->. simpl.
  apply re_Y_spec in HY as (c1 & c2 & c3 & c4 & -> & -> & H1 & H2 & H3 & H4).
  apply re_m_spec in Hm as (-> & n & Hn & Hgm).
  apply re_d_spec in Hd as (-> & Hgd).
  apply spaces_spec in Hw1 as (-> & Hw1 & Hne1).
  apply re_m_spec in HI as (-> & h & Hh & HgI).
  apply re_M_spec in HM as (-> & mi & Hmi & HgM).
  apply spaces_spec in Hw2 as (-> & Hw2 & Hne2).
  apply re_p_spec in Hp as (-> & x & y & -> & Hx & Hy).
  destruct Hgd as [(nd & Hnd & Hgd)|(nd & Hnd & Hgd)];
    exists w1, w2, c1, c2, c3, c4, n, nd, h, mi, x, y; repeat split; auto; lia.
Qed.

Lemma strptime_Ok data_string d :
  strptime data_string = Py.Ok d →
  ∃ found hour, found ∈ format_regex data_string ∧ rest found = "" ∧
    Py.int (g_Y found) = Py.Ok (Datetime.year d) ∧
    Py.int (g_m found) = Py.Ok (Datetime.month d) ∧
    Py.int (g_d found) = Py.Ok (Datetime.day d) ∧
    Py.int (g_I found) = Py.Ok hour ∧
    Py.int (g_M found) = Py.Ok (Datetime.minute d) ∧
    Datetime.hour d =
      (if String.eqb (Py.lower (g_p found)) "am"
       then (if hour =? 12 then 0 else hour)
       else (if hour =? 12 then hour else hour + 12)) ∧
    Datetime.day d ≤ days_in_month (Datetime.year d) (Datetime.month d).
Proof.
  unfold strptime.
  destruct (format_regex data_string) as [|found others] eqn:Hre; [done|].
  assert (Hin : found ∈ format_regex data_string) by (rewrite Hre; by left).
  destruct (rest found) as [|c r] eqn:Hrest; [|done].
  change (negb (Py.is_empty "")) with false. cbv iota.
  destruct (Py.int (g_Y found)) as [y|] eqn:HY; simpl; [|done].
  destruct (Py.int (g_m found)) as [m|] eqn:Hm; simpl; [|done].
  destruct (Py.int (g_d found)) as [dd|] eqn:Hdd; simpl; [|done].
  destruct (Py.int (g_I found)) as [h|] eqn:Hh; simpl; [|done].
  destruct (Py.int (g_M found)) as [mi|] eqn:Hmi; simpl; [|done].
  destruct (_ && _) eqn:Hvalid; [|done]. intros [= <-]. exists found, h. simpl.
  apply andb_true_iff in Hvalid as [_ Hday%Z.leb_le].
  split; [by left|]. done.
Qed.

(** The first two characters of what stands after the month, when the
    first is not a space. *)
Lemma day_digits : ∀ n, 1 ≤ n ≤ 31 →
  Py.isdecimal_char (digit_char (n `div` 10)) = true ∧
  Py.isdecimal_char (digit_char (n `mod` 10)) = true ∧
  (digit_char (n `div` 10) = "0"%char → digit_char (n `mod` 10) ≠ "0"%char).
Proof.
  intros n Hn. assert (Hcases : n ∈ seqZ 1 31) by (apply elem_of_seqZ; lia).
  revert Hcases. clear Hn. vm_compute seqZ. rewrite !elem_of_cons, elem_of_nil.
  intros H. repeat (destruct H as [->|H]; [vm_compute; repeat split; congruence|]).
  done.
Qed.

(** A number padded by [zfill], without the padding. *)
Lemma number_unpadded : ∀ n (text : string), 1 ≤ n ≤ 31 →
  Py.zfill 2 text = two_digits n → number text n.
Proof.
  intros n text Hn Hz.
  destruct (zfill_two_digits text _ _ Hz) as [->|[Ha Htext]].
  - by destruct (day_digits n Hn) as (? & _).
  - by right.
  - assert (Hcases : n ∈ seqZ 1 31) by (apply elem_of_seqZ; lia).
    revert Hcases Ha Htext. clear. vm_compute seqZ. rewrite !elem_of_cons, elem_of_nil.
    intros H. repeat (destruct H as [->|H];
      [vm_compute; intros Ha [->|[_ Hb]]; first [by left | discriminate]|]).
    done.
Qed.

(** A number of the match that is as long as a padded text is in two
    digits. *)
Lemma number_two_digits (g : string) n (text : string) :
  0 ≤ n → number g n → Py.zfill 2 text = g → g = two_digits n.
Proof.
  intros Hn [Hg|Hg] Hz; [|done]. rewrite Hg. unfold decimal.
  destruct (Z.ltb_spec n 10); [|done].
  destruct (zfill_two text) as (a & b & r & Hab).
  rewrite Hab, Hg, decimal_of in Hz by lia. discriminate.
Qed.

Lemma digit_value_char k : 0 ≤ k ≤ 9 → Py.digit_value (digit_char k) = k.
Proof.
  intros Hk. unfold Py.digit_value, digit_char.
  rewrite N_ascii_embedding by lia. lia.
Qed.

Lemma number_digits (g : string) n :
  0 ≤ n ≤ 99 → number g n →
  Py.all_chars Py.isdecimal_char g = true ∧ Py.is_empty g = false.
Proof.
  intros Hn [-> | ->].
  - by destruct (decimal_digits n Hn) as (? & ? & _).
  - split; [by apply two_digits_digits|done].
Qed.

Lemma day_unpadded (day time' gd after : string) nd :
  free " " day →
  ((1 ≤ nd ≤ 31 ∧ number gd nd) ∨ (1 ≤ nd ≤ 9 ∧ gd = String " " (decimal nd))) →
  Py.zfill 2 day +:+ String " " time' = gd +:+ after →
  ∃ c rest, day = String c rest ∧ Py.isdecimal_char c = true.
Proof.
  intros Hday Hgd Heq.
  assert (Hz : free " " (Py.zfill 2 day)) by (by apply zfill_free).
  destruct (zfill_two day) as (a & b & r & Hzfill). rewrite Hzfill in Heq, Hz.
  apply free_cons in Hz as [Ha _].
  assert (Hab : Py.isdecimal_char a = true ∧
                (a = "0"%char → Py.isdecimal_char b = true ∧ b ≠ "0"%char)).
  { destruct Hgd as [(Hn & Hgd)|(Hk & ->)]; [|by injection Heq as ->].
    assert (Hforms : (1 ≤ nd ≤ 9 ∧ gd = String (digit_char nd) "") ∨ gd = two_digits nd).
    { destruct Hgd as [-> | ->]; [|by right]. unfold decimal.
      destruct (Z.ltb_spec nd 10); [left|by right]. split; [lia|done]. }
    destruct Hforms as [[Hn9 ->] | ->].
    - injection Heq as -> _. split; [apply isdecimal_digit_char; lia|].
      intros H0. apply (f_equal Py.digit_value) in H0.
      rewrite digit_value_char in H0 by lia. change (Py.digit_value "0") with 0 in H0. lia.
    - injection Heq as -> -> _. destruct (day_digits nd Hn) as (? & ? & ?). auto. }
  destruct Hab as [Hdec Hzero].
  destruct (isdecimal_char_plain a Hdec) as (_ & _ & Hminus & Hplus & _).
  destruct day as [|x [|y rest]]; unfold Py.zfill in Hzfill; simpl in Hzfill.
  - injection Hzfill as <- <- _. by destruct (Hzero eq_refl) as [_ ?].
  - destruct (Ascii.eqb x "+" || Ascii.eqb x "-") eqn:Hsign.
    + injection Hzfill as -> _ _. by rewrite Hplus, Hminus in Hsign.
    + injection Hzfill as <- <- _. exists x, "". split; [done|].
      by destruct (Hzero eq_refl) as [? _].
  - exists x, (String y rest). split; [done|].
    destruct (Ascii.eqb x "+" || Ascii.eqb x "-"); by injection Hzfill as -> _.
Qed.

(** *** From a date to the text

    Where [parse_date] gives a date other than the sentinel, the text
    is cut as the fields were, and the text handed to [strptime] is
    the match, group by group. *)
Lemma parse_date_body_cut (date_str : string) d :
  parse_date_body date_str = Py.Ok d → d ≠ Datetime.min →
  ∃ (mo dy time_part w1 w2 : string) found y n nd h mi x x' hour,
    Py.strip (Py.replace " ET" "" date_str) =
      mo +:+ "/" +:+ dy +:+ "/" +:+ two_digits y +:+ " " +:+ time_part ∧
    free " " mo ∧ free " " dy ∧ free " " time_part ∧ free "/" dy ∧
    0 ≤ y ≤ 99 ∧ Datetime.year d = 2000 + y ∧
    1 ≤ n ≤ 12 ∧ Py.zfill 2 mo = two_digits n ∧ Datetime.month d = n ∧
    Py.zfill 2 dy +:+ String " " (Py.replace "p" " PM" (Py.replace "a" " AM" time_part)) =
      g_d found +:+ w1 +:+ g_I found +:+ String ":" (g_M found +:+ w2 +:+ g_p found) ∧
    ((1 ≤ nd ≤ 31 ∧ number (g_d found) nd) ∨
     (1 ≤ nd ≤ 9 ∧ g_d found = String " " (decimal nd))) ∧
    Py.all_chars Py.isspace_char w1 = true ∧ Py.is_empty w1 = false ∧
    1 ≤ h ≤ 12 ∧ number (g_I found) h ∧
    0 ≤ mi ≤ 59 ∧ number (g_M found) mi ∧
    Py.all_chars Py.isspace_char w2 = true ∧ Py.is_empty w2 = false ∧
    g_p found = String x (String x' "") ∧
    (Py.lower_char x = "a"%char ∨ Py.lower_char x = "p"%char) ∧
    Py.lower_char x' = "m"%char ∧
    Py.int (g_d found) = Py.Ok (Datetime.day d) ∧
    Py.int (g_I found) = Py.Ok hour ∧
    Py.int (g_M found) = Py.Ok (Datetime.minute d) ∧
    Datetime.hour d =
      (if String.eqb (Py.lower (g_p found)) "am"
       then (if hour =? 12 then 0 else hour)
       else (if hour =? 12 then hour else hour + 12)) ∧
    Datetime.day d ≤ days_in_month (Datetime.year d) (Datetime.month d).
Proof.
  unfold parse_date_body. destruct (_ || _); [by intros [= <-]|].
  set (text := Py.strip (Py.replace " ET" "" date_str)).
  destruct (Py.split " " text) as [|date_part [|time_part [|]]] eqn:Hparts; try done.
  destruct (Py.split "/" date_part) as [|mo [|dy [|yr [|]]]] eqn:Hfields; try done.
  intros Hd _.
  apply split_two in Hparts as (Htext & Hdate & Htime).
  apply split_three in Hfields as (-> & Hmo & Hdy & Hyr).
  apply free_app in Hdate as [Hmo_sp [_ [Hdy_sp [_ Hyr_sp]%free_cons]%free_app]%free_cons].
  apply strptime_Ok
    in Hd as (found & hour & Hin & Hrest & HintY & Hintm & Hintd & HintI & HintM
              & Hhour & Hvalid).
  apply format_regex_groups
    in Hin as (w1 & w2 & c1 & c2 & c3 & c4 & n & nd & h & mi & x & x' & Hfull & HgY
               & H1 & H2 & H3 & H4 & Hn & Hgm & Hgd & Hw1 & Hne1 & Hh & HgI & Hmi & HgM
               & Hw2 & Hne2 & Hgp & Hx & Hx').
  rewrite Hrest, append_empty_r in Hfull.
  set (time' := Py.replace "p" " PM" (Py.replace "a" " AM" time_part)) in *.
  set (tail := g_d found +:+ w1 +:+ g_I found +:+ String ":"
                 (g_M found +:+ w2 +:+ g_p found)) in *.
  assert (Heq : ("20" +:+ yr) +:+ String "-"
                  (Py.zfill 2 mo +:+ String "-" (Py.zfill 2 dy +:+ String " " time')) =
                g_Y found +:+ String "-" (g_m found +:+ String "-" tail))
    by exact Hfull.
  clear Hfull.
  assert (HfreeY : free "-" (g_Y found)).
  { rewrite HgY, !all_chars_cons, !decimal_no_dash by done. done. }
  assert (Hfreem : free "-" (g_m found)).
  { eapply all_chars_impl; [apply decimal_no_dash|].
    by apply (number_digits _ n); [lia|]. }
  assert (Hfreet : free "-" tail).
  { assert (Hdec : ∀ g k, 0 ≤ k ≤ 99 → number g k → free "-" g).
    { intros g k Hk Hg. eapply all_chars_impl; [apply decimal_no_dash|].
      by apply (number_digits _ k). }
    assert (Hsp : ∀ w : string, Py.all_chars Py.isspace_char w = true → free "-" w).
    { intros w. apply all_chars_impl. intros c Hc.
      apply alphabet_no_dash. unfold alphabet. by rewrite Hc, orb_true_r. }
    unfold tail. rewrite Hgp.
    rewrite !free_app, free_cons, !free_app, !free_cons.
    repeat split; try done; try (by apply Hsp);
      try (by eapply Hdec; [|done]; lia).
    - destruct Hgd as [[Hnd Hg]|[Hnd ->]].
      + eapply Hdec; [|done]. lia.
      + apply free_cons. split; [done|]. apply (Hdec _ nd); [lia|by left].
    - intros ->. by destruct Hx.
    - by intros ->. }
  assert (Hno : ∀ a b : string, tail = a +:+ String "-" b → False).
  { intros a b Htail. rewrite Htail in Hfreet.
    apply free_app in Hfreet as [_ [? _]%free_cons]. done. }
  assert (Hcut : "20" +:+ yr = g_Y found ∧ Py.zfill 2 mo = g_m found ∧
                 Py.zfill 2 dy +:+ String " " time' = tail).
  { destruct (split_first _ _ _ _ _ HfreeY Heq) as [[HYeq Heq']|(a2 & _ & Heq')].
    - destruct (split_first _ _ _ _ _ Hfreem Heq') as [[Hmeq Hteq]|(a3 & _ & Hteq)].
      + done.
      + by destruct (Hno _ _ Hteq).
    - symmetry in Heq'.
      destruct (split_first _ _ _ _ _ Hfreem Heq') as [[_ Hteq]|(a3 & _ & Hteq)].
      + by destruct (Hno _ _ (eq_sym Hteq)).
      + by destruct (Hno _ _ Hteq). }
  destruct Hcut as (HYeq & Hmeq & Hteq).
  rewrite HgY in HYeq.
  change ("20" +:+ yr) with (String "2" (String "0" yr)) in HYeq.
  injection HYeq as <- <- ->.
  set (y := 10 * Py.digit_value c3 + Py.digit_value c4).
  destruct (isdecimal_char_plain c3 H3) as (_ & _ & _ & _ & _ & _ & Hv3).
  destruct (isdecimal_char_plain c4 H4) as (_ & _ & _ & _ & _ & _ & Hv4).
  assert (Hyr2 : String c3 (String c4 "") = two_digits y).
  { unfold y. by rewrite two_digits_of, !digit_char_value by done. }
  assert (Hz2 : g_m found = two_digits n)
    by (apply (number_two_digits _ _ mo); [lia|done..]).
  exists mo, dy, time_part, w1, w2, found, y, n, nd, h, mi, x, x', hour.
  split.
  { rewrite <- Hyr2. fold text.
    rewrite Htext, append_assoc, append_cons, append_assoc. done. }
  split; [done|]. split; [done|]. split; [done|]. split; [done|].
  split; [unfold y; lia|]. split.
  { rewrite HgY in HintY.
    rewrite int_decimal in HintY
      by (try (simpl; by rewrite ?H3, ?H4); unfold Py.max_str_digits; simpl; lia).
    injection HintY as <-. simpl.
    change (Py.digit_value "2") with 2. change (Py.digit_value "0") with 0.
    unfold y. lia. }
  split; [done|]. split; [by rewrite Hmeq|]. split.
  { rewrite Hz2 in Hintm. destruct (int_two_digits n ltac:(lia)) as (Hint & _).
    rewrite Hint in Hintm. by injection Hintm. }
  repeat (split; [done|]). done.
Qed.

Lemma groups_alphabet (gd w1 gI gM w2 : string) nd h mi x x' :
  ((1 ≤ nd ≤ 31 ∧ number gd nd) ∨ (1 ≤ nd ≤ 9 ∧ gd = String " " (decimal nd))) →
  Py.all_chars Py.isspace_char w1 = true →
  1 ≤ h ≤ 12 → number gI h → 0 ≤ mi ≤ 59 → number gM mi →
  Py.all_chars Py.isspace_char w2 = true →
  (Py.lower_char x = "a"%char ∨ Py.lower_char x = "p"%char) →
  Py.lower_char x' = "m"%char →
  Py.all_chars alphabet
    (gd +:+ w1 +:+ gI +:+ String ":" (gM +:+ w2 +:+ String x (String x' ""))) = true.
Proof.
  intros Hgd Hw1 Hh HgI Hmi HgM Hw2 Hx Hx'.
  rewrite !all_chars_app, all_chars_cons, !all_chars_app, !all_chars_cons.
  rewrite (number_alphabet gI h), (number_alphabet gM mi) by (done || lia).
  rewrite (spaces_alphabet w1), (spaces_alphabet w2) by done.
  rewrite (lower_char_letter x), (lower_char_letter x') by tauto.
  assert (Py.all_chars alphabet gd = true) as ->; [|done].
  destruct Hgd as [[Hnd Hgd]|[Hnd ->]].
  - apply (number_alphabet gd nd); [lia|done].
  - rewrite all_chars_cons. rewrite (number_alphabet (decimal nd) nd) by (lia || tauto).
    done.
Qed.

(** The text [parse_date] has given a date other than the sentinel. *)
Lemma parse_date_body_shape (date_str : string) d :
  parse_date_body date_str = Py.Ok d → d ≠ Datetime.min →
  ∃ y n, reads_as (Py.strip (Py.replace " ET" "" date_str)) y n ∧
         Datetime.year d = 2000 + y ∧ Datetime.month d = n.
Proof.
  intros Hd Hne.
  destruct (parse_date_body_cut _ _ Hd Hne)
    as (mo & dy & time_part & w1 & w2 & found & y & n & nd & h & mi & x & x' & hour
        & Htext & Hmo_sp & Hdy_sp & Htime & Hdy & Hy & Hyear & Hn & Hzmo & Hmonth
        & Htail & Hgd & Hw1 & _ & Hh & HgI & Hmi & HgM & Hw2 & _ & Hgp & Hx & Hx' & _).
  exists y, n. split; [|done].
  split; [done|]. split; [done|].
  assert (Hmo : number mo n) by (apply number_unpadded; [lia|done]).
  exists mo, dy, time_part. split; [done|]. split; [done|].
  split; [by apply (day_unpadded dy _ (g_d found) _ nd Hdy_sp Hgd Htail)|].
  split; [by apply free_contains|]. split; [by apply free_contains|].
  split; [by apply free_contains|].
  pose proof (groups_alphabet _ _ _ _ _ _ _ _ _ _ Hgd Hw1 Hh HgI Hmi HgM Hw2 Hx Hx')
    as Halpha.
  rewrite <- Hgp, <- Htail in Halpha.
  rewrite all_chars_app, all_chars_cons, andb_true_iff in Halpha.
  destruct Halpha as [Hzd [_ Ht']%andb_true_iff].
  apply zfill_chars in Hzd.
  apply replace_char_chars in Ht'; [|done]. apply replace_char_chars in Ht'; [|done].
  rewrite Htext, !all_chars_app, !all_chars_cons, Hzd, Ht'.
  rewrite (number_alphabet mo n), (number_alphabet (two_digits y) y)
    by (lia || done || by right).
  done.
Qed.

(** *** Texts without whitespace but the one space *)

Local Abbreviation nonspace s := (Py.all_chars (λ c, negb (Py.isspace_char c)) s = true).
Local Abbreviation am_pm s := (Py.replace "p" " PM" (Py.replace "a" " AM" s)).

(** Two ways to cut a text before a character of a class, both at
    the first character of that class. *)
Lemma split_class (p : ascii → bool) (a : string) : ∀ (a' : string) c c' (b b' : string),
  Py.all_chars (λ x, negb (p x)) a = true → Py.all_chars (λ x, negb (p x)) a' = true →
  p c = true → p c' = true →
  a +:+ String c b = a' +:+ String c' b' → a = a' ∧ c = c' ∧ b = b'.
Proof.
  induction a as [|x a IH]; intros a' c c' b b' Ha Ha' Hc Hc' Heq.
  - destruct a' as [|x' a']; simpl in Heq; [by injection Heq as -> ->|].
    injection Heq as -> _. rewrite all_chars_cons, Hc in Ha'. done.
  - rewrite all_chars_cons in Ha. apply andb_true_iff in Ha as [Hx Ha].
    destruct a' as [|x' a']; simpl in Heq; injection Heq as -> Heq.
    + by rewrite Hc' in Hx.
    + rewrite all_chars_cons in Ha'. apply andb_true_iff in Ha' as [_ Ha'].
      destruct (IH _ _ _ _ _ Ha Ha' Hc Hc' Heq) as (-> & -> & ->). done.
Qed.

Lemma zfill_all q n (s : string) :
  q "0"%char = true → Py.all_chars q s = true → Py.all_chars q (Py.zfill n s) = true.
Proof.
  intros Hq Hs.
  assert (Hz : ∀ k, Py.all_chars q (Py.zeros k) = true).
  { induction k as [|k IH]; [done|]. simpl Py.zeros. by rewrite all_chars_cons, Hq, IH. }
  unfold Py.zfill. destruct s as [|x s]; [apply Hz|].
  rewrite all_chars_cons in Hs. apply andb_true_iff in Hs as [Hx Hs].
  destruct (Ascii.eqb x "+" || Ascii.eqb x "-").
  - by rewrite all_chars_cons, all_chars_app, Hx, Hz, Hs.
  - by rewrite all_chars_app, all_chars_cons, Hx, Hz, Hs.
Qed.

Lemma spaces_only_nonspace (s : string) :
  spaces_only s = true → free " " s → nonspace s.
Proof.
  unfold spaces_only. induction s as [|c s IH]; [done|].
  rewrite !all_chars_cons, !andb_true_iff. intros [Hc Hs] [Hfree Hs'].
  split; [|by apply IH]. apply negb_true_iff in Hfree. by rewrite Hfree, orb_false_r in Hc.
Qed.

Lemma am_pm_cons c (s : string) :
  am_pm (String c s) =
    (if Ascii.eqb c "a" then " AM" else if Ascii.eqb c "p" then " PM" else String c "")
      +:+ am_pm s.
Proof.
  unfold Py.replace.
  change (Py.replace_from "a" " AM" 0 (String c s))
    with (if String.prefix "a" (String c s)
          then " AM" +:+ Py.replace_from "a" " AM" 0 s
          else String c (Py.replace_from "a" " AM" 0 s)).
  rewrite string_prefix_cons, (Ascii.eqb_sym "a" c).
  replace (String.prefix "" s) with true by (by destruct s). rewrite andb_true_r.
  destruct (Ascii.eqb c "a"); [by rewrite replace_skip|].
  set (rest := Py.replace_from "a" " AM" 0 s).
  change (Py.replace_from "p" " PM" 0 (String c rest))
    with (if String.prefix "p" (String c rest)
          then " PM" +:+ Py.replace_from "p" " PM" 0 rest
          else String c (Py.replace_from "p" " PM" 0 rest)).
  rewrite string_prefix_cons, (Ascii.eqb_sym "p" c).
  replace (String.prefix "" rest) with true by (by destruct rest). rewrite andb_true_r.
  by destruct (Ascii.eqb c "p").
Qed.

Lemma am_pm_empty (s : string) : am_pm s = "" → s = "".
Proof.
  destruct s as [|c s]; [done|]. rewrite am_pm_cons.
  by destruct (Ascii.eqb c "a"), (Ascii.eqb c "p").
Qed.

(** Whitespace at the start of the replaced text comes from an [a] or
    a [p]. *)
Lemma am_pm_head (tp : string) c (r : string) :
  nonspace tp → am_pm tp = String c r → Py.isspace_char c = true →
  ∃ s : string, (tp = String "a" s ∧ r = "AM" +:+ am_pm s) ∨
                (tp = String "p" s ∧ r = "PM" +:+ am_pm s).
Proof.
  destruct tp as [|c0 s]; [done|]. rewrite all_chars_cons, am_pm_cons.
  intros [Hc0 _]%andb_true_iff.
  destruct (Ascii.eqb_spec c0 "a") as [->|_]; [|destruct (Ascii.eqb_spec c0 "p") as [->|_]].
  - intros [= <- <-] _. exists s. by left.
  - intros [= <- <-] _. exists s. by right.
  - intros [= <- <-] Hc. by rewrite Hc in Hc0.
Qed.

Lemma am_pm_walk (P : string) : ∀ (tp w : string) (x y : ascii),
  Py.all_chars (λ c, negb (Py.isspace_char c) && negb (Ascii.eqb c "a")
                     && negb (Ascii.eqb c "p")) P = true →
  nonspace tp →
  Py.all_chars Py.isspace_char w = true → Py.is_empty w = false →
  am_pm tp = P +:+ w +:+ String x (String y "") →
  (tp = P +:+ "a" ∧ x = "A"%char ∧ y = "M"%char) ∨
  (tp = P +:+ "p" ∧ x = "P"%char ∧ y = "M"%char).
Proof.
  induction P as [|c P IH]; intros tp w x y HP Htp Hw Hne Heq.
  - destruct w as [|c w]; [done|].
    rewrite all_chars_cons in Hw. apply andb_true_iff in Hw as [Hc Hw].
    change ("" +:+ String c w +:+ String x (String y ""))
      with (String c (w +:+ String x (String y ""))) in Heq.
    destruct (am_pm_head _ _ _ Htp Heq Hc) as (s & [[-> Hr]|[-> Hr]]);
      (destruct w as [|c' w];
       [ simpl in Hr; injection Hr as -> -> Hs; symmetry in Hs;
         apply am_pm_empty in Hs as ->; auto
       | rewrite all_chars_cons in Hw; apply andb_true_iff in Hw as [Hc' _];
         simpl in Hr; injection Hr as -> _; done ]).
  - rewrite all_chars_cons in HP. apply andb_true_iff in HP as [Hc HP].
    apply andb_true_iff in Hc as [Hc Hp]. apply andb_true_iff in Hc as [Hsp Ha].
    apply negb_true_iff in Hsp, Ha, Hp.
    destruct tp as [|c0 s]; [done|]. rewrite am_pm_cons, append_cons in Heq.
    rewrite all_chars_cons in Htp. apply andb_true_iff in Htp as [_ Hs].
    destruct (Ascii.eqb_spec c0 "a") as [->|_]; [|destruct (Ascii.eqb_spec c0 "p") as [->|_]].
    + injection Heq as <- _. done.
    + injection Heq as <- _. done.
    + injection Heq as -> Heq.
      destruct (IH _ _ _ _ HP Hs Hw Hne Heq) as [(-> & ? & ?)|(-> & ? & ?)]; auto.
Qed.

Lemma number_plain (g : string) n :
  0 ≤ n ≤ 99 → number g n →
  Py.all_chars (λ c, negb (Py.isspace_char c) && negb (Ascii.eqb c "a")
                     && negb (Ascii.eqb c "p")) g = true.
Proof.
  intros Hn Hg. destruct (number_digits g n Hn Hg) as [Hd _].
  eapply all_chars_impl; [|exact Hd]. intros c Hc.
  destruct (decimal_char_class c Hc) as (_ & _ & -> & -> & _ & ->). done.
Qed.

(** A text whose only whitespace is the space, and which is given a
    date other than the sentinel, names that date and time. *)
Lemma parse_date_body_plain (date_str : string) d :
  parse_date_body date_str = Py.Ok d → d ≠ Datetime.min →
  spaces_only (Py.strip (Py.replace " ET" "" date_str)) = true →
  ∃ ts, valid ts ∧ written_as (Py.strip (Py.replace " ET" "" date_str)) ts ∧
        d = instant ts.
Proof.
  intros Hd Hne Hplain.
  destruct (parse_date_body_cut _ _ Hd Hne)
    as (mo & dy & tp & w1 & w2 & found & y & n & nd & h & mi & x & x' & hour
        & Htext & Hmo_sp & Hdy_sp & Htp_sp & Hdy & Hy & Hyear & Hn & Hzmo & Hmonth
        & Htail & Hgd & Hw1 & Hne1 & Hh & HgI & Hmi & HgM & Hw2 & Hne2 & Hgp & Hx & Hx'
        & Hintd & HintI & HintM & Hhour & Hvalid).
  rewrite Htext in Hplain. unfold spaces_only in Hplain.
  rewrite !all_chars_app, !all_chars_cons, !andb_true_iff in Hplain.
  destruct Hplain as (_ & _ & Hdy_pl & _ & _ & _ & Htp_pl).
  assert (Hdy_ns : nonspace dy) by (by apply spaces_only_nonspace).
  assert (Htp_ns : nonspace tp) by (by apply spaces_only_nonspace).
  assert (Hz_ns : nonspace (Py.zfill 2 dy)) by (by apply zfill_all).
  (* the day *)
  destruct Hgd as [[Hnd Hgd]|[_ Hgd]]; cycle 1.
  { destruct (zfill_two dy) as (a & b & r & Hz). rewrite Hz, Hgd in Htail.
    injection Htail as -> _. by rewrite Hz in Hz_ns. }
  destruct w1 as [|c1 w1]; [done|].
  rewrite all_chars_cons in Hw1. apply andb_true_iff in Hw1 as [Hc1 Hw1].
  assert (Hgd_ns : nonspace (g_d found)).
  { destruct (number_digits _ nd ltac:(lia) Hgd) as [Hdig _].
    eapply all_chars_impl; [|exact Hdig]. apply nonspace_digit. }
  rewrite (append_cons c1 w1) in Htail.
  destruct (split_class Py.isspace_char _ _ " "%char c1 _ _ Hz_ns Hgd_ns eq_refl Hc1 Htail)
    as (Hzd & _ & Htime).
  assert (Hgd2 : g_d found = two_digits nd)
    by (apply (number_two_digits _ _ dy); [lia|done..]).
  (* the time *)
  destruct (number_digits _ h ltac:(lia) HgI) as [HdigI HneI].
  assert (Hw1_empty : w1 = "").
  { destruct w1 as [|c2 w1]; [done|]. exfalso.
    rewrite all_chars_cons in Hw1. apply andb_true_iff in Hw1 as [Hc2 Hw1].
    rewrite append_cons in Htime.
    destruct (am_pm_head _ _ _ Htp_ns Htime Hc2) as (s & [[_ Hr]|[_ Hr]]);
      (destruct w1 as [|c3 w1];
       [ destruct (g_I found) as [|g0 gI]; [done|];
         rewrite all_chars_cons in HdigI; apply andb_true_iff in HdigI as [Hg0 _];
         simpl in Hr; injection Hr as -> _; vm_compute in Hg0; done
       | rewrite all_chars_cons in Hw1; apply andb_true_iff in Hw1 as [Hc3 _];
         simpl in Hr; injection Hr as -> _; vm_compute in Hc3; done ]). }
  subst w1. change ("" +:+ ?s) with s in Htime.
  assert (Htime' : am_pm tp =
            (g_I found +:+ String ":" (g_M found)) +:+ w2 +:+ String x (String x' "")).
  { rewrite Htime, Hgp, append_assoc, append_cons. done. }
  assert (HP : Py.all_chars (λ c, negb (Py.isspace_char c) && negb (Ascii.eqb c "a")
                                  && negb (Ascii.eqb c "p"))
                 (g_I found +:+ String ":" (g_M found)) = true).
  { rewrite all_chars_app, all_chars_cons.
    by rewrite (number_plain _ h), (number_plain _ mi) by (done || lia). }
  assert (Hint_h : hour = h).
  { destruct (int_two_digits h ltac:(lia)) as (H2 & H1 & _).
    destruct HgI as [Hg|Hg]; rewrite Hg in HintI; congruence. }
  assert (Hint_mi : Datetime.minute d = mi).
  { destruct (int_two_digits mi ltac:(lia)) as (H2 & H1 & _).
    destruct HgM as [Hg|Hg]; rewrite Hg in HintM; congruence. }
  assert (Hint_d : Datetime.day d = nd).
  { destruct (int_two_digits nd ltac:(lia)) as (H2 & _).
    rewrite Hgd2 in Hintd. congruence. }
  assert (Hmo : number mo n) by (apply number_unpadded; [lia|done]).
  assert (Hdy_text : number dy nd) by (apply number_unpadded; [lia|congruence]).
  destruct (am_pm_walk _ _ _ _ _ HP Htp_ns Hw2 Hne2 Htime') as [(Htp & -> & ->)|(Htp & -> & ->)].
  - exists (Timestamp.mk n nd y h mi AM). split; [|split].
    + unfold valid. simpl. rewrite Hyear, Hmonth, Hint_d in Hvalid.
      repeat split; lia.
    + exists mo, dy, (g_I found), (g_M found). simpl.
      repeat (split; [done|]). rewrite Htext, Htp, append_assoc, append_cons. done.
    + rewrite Hgp in Hhour. change (Py.lower "AM" =? "am")%string with true in Hhour.
      destruct d as [dy' dm dd dh dmi]. simpl in *. unfold instant, hour24. simpl.
      by subst.
  - exists (Timestamp.mk n nd y h mi PM). split; [|split].
    + unfold valid. simpl. rewrite Hyear, Hmonth, Hint_d in Hvalid.
      repeat split; lia.
    + exists mo, dy, (g_I found), (g_M found). simpl.
      repeat (split; [done|]). rewrite Htext, Htp, append_assoc, append_cons. done.
    + rewrite Hgp in Hhour. change (Py.lower "PM" =? "am")%string with false in Hhour.
      destruct d as [dy' dm dd dh dmi]. simpl in *. unfold instant, hour24. simpl.
      subst. f_equal. by destruct (Z.eqb_spec h 12) as [->|].
Qed.

(** *** The format, and the texts of the pages *)

Lemma range_each (P : Z → Prop) lo hi :
  Forall P (seqZ lo (hi - lo + 1)) → ∀ x, lo ≤ x ≤ hi → P x.
Proof.
  intros HP x Hx. eapply Forall_forall; [done|]. apply elem_of_seqZ. lia.
Qed.

Local Ltac each_number tac :=
  match goal with
  | |- ∀ n, ?lo ≤ n ≤ ?hi → @?P n => apply (range_each P lo hi)
  end;
  match goal with
  | |- Forall ?P (seqZ ?lo ?n) =>
      let l := eval vm_compute in (seqZ lo n) in change (Forall P l)
  end;
  repeat first
    [ apply List.Forall_nil
    | apply List.Forall_cons; [cbv beta; intros; vm_compute; tac|] ].

Lemma after_decimal : ∀ n, 0 ≤ n ≤ 99 → ∀ r : string,
  r ∈ after_one_or_two (decimal n +:+ r).
Proof. each_number ltac:(first [by left | by right; left]). Qed.

Lemma after_two_digits : ∀ n, 0 ≤ n ≤ 99 → ∀ r : string,
  after_digits 2 (two_digits n +:+ r) = [r].
Proof. each_number ltac:(reflexivity). Qed.

Lemma bind_step {A B} (l : list A) (f : A → list B) y x :
  y ∈ l → x ∈ f y → x ∈ l ≫= f.
Proof. intros Hy Hx. apply list_elem_of_bind. by exists y. Qed.

(** The texts of the pages are texts of the format. *)
Lemma shown_in_format (ts : Timestamp.t) : valid ts → in_format (shown ts) = true.
Proof.
  intros (Hy & Hm & Hd & Hh & Hmi).
  assert (Hd99 : 0 ≤ day ts ≤ 99).
  { split; [lia|]. etrans; [apply Hd|]. unfold days_in_month.
    repeat (match goal with |- context [if ?b then _ else _] => destruct b end); lia. }
  unfold in_format. apply existsb_exists. exists "". split; [|done].
  apply list_elem_of_In.
  unfold shown, date_part, time_part, clock.
  rewrite !append_assoc.
  eapply bind_step; [apply after_decimal; lia|].
  eapply bind_step; [by left|].
  eapply bind_step; [apply after_decimal; lia|].
  eapply bind_step; [by left|].
  eapply bind_step; [rewrite after_two_digits by lia; by left|].
  eapply bind_step; [by left|].
  eapply bind_step; [apply after_decimal; lia|].
  eapply bind_step; [by left|].
  eapply bind_step; [rewrite after_two_digits by lia; by left|].
  destruct (half ts); vm_compute; by left.
Qed.
End TimestampShape.

(** ** The claim on the timestamp normaliser *)

Section TimestampClaim.

(** No timestamp of the pages starts with a month 13. *)
Lemma no_thirteenth_month (ts : Timestamp.t) (rest : string) :
  Timestamp.valid ts → ¬ Timestamp.written_as (String "1" (String "3" rest)) ts.
Proof.
  intros (_ & Hmonth & _) (month_text & day_text & hour_text & minute_text &
    Hmonth_text & _ & _ & _ & Htext).
  revert Htext. generalize (day_text +:+ "/" +:+
    Timestamp.two_digits (Timestamp.year ts) +:+ " " +:+ hour_text +:+ ":" +:+
    minute_text +:+ match Timestamp.half ts with
                    | Timestamp.AM => "a" | Timestamp.PM => "p" end).
  revert month_text Hmonth_text. generalize (Timestamp.month ts) Hmonth.
  clear. intros n Hn. revert n Hn rest.
  match goal with
  | |- ∀ n, ?lo ≤ n ≤ ?hi → @?P n => apply (range_each P lo hi)
  end.
  match goal with
  | |- Forall ?P (seqZ ?lo ?n) =>
      let l := eval vm_compute in (seqZ lo n) in change (Forall P l)
  end.
  repeat first
    [ apply List.Forall_nil
    | apply List.Forall_cons;
      [cbv beta; intros rest month_text [-> | ->] tail Htext;
       vm_compute in Htext; congruence|] ].
Qed.

(** C2, as amended.  The timestamp normaliser has a value on every
    text.  It does not hold a text to the format
    [<M>/<D>/<YY> <H>:<MM><a|p> ET]: every [" ET"] is taken out
    wherever it stands and the ends are stripped before anything is
    read.  The value is the sentinel [datetime.min]
    - on empty and blank text;
    - on every text that is then not a date part and a time part with
      their one space between them, the date part being
      [<M>/<D>/<YY>] with its two slashes, M the number of a month in
      one or two decimal digits, D starting with a decimal digit and
      YY two decimal digits, all of it written with decimal digits,
      whitespace, [/], [:] and the letters of [a], [p], [AM] and [PM];
    - where that space is the only whitespace, on every text that is
      not [<M>/<D>/<YY> <H>:<MM><a|p>] with a day of the month M of
      the year 2000 + YY, an hour from 1 to 12 and a minute from 0 to
      59, each number but YY in one digit or two.
    A value other than the sentinel has the year 2000 + YY and the
    month M, and in the last case it is the date and time the text
    names.  An exception of any step gives the sentinel, and no value
    is below the sentinel. *)
Theorem timestamp_totality (date_str : string) :
  let text := Py.strip (Py.replace " ET" "" date_str) in
  (Py.strip date_str = "" → competition_scraper.parse_date date_str = Datetime.min) ∧
  ((¬ ∃ y n, Timestamp.reads_as text y n) →
     competition_scraper.parse_date date_str = Datetime.min) ∧
  (Timestamp.spaces_only text = true →
   (¬ ∃ ts, Timestamp.valid ts ∧ Timestamp.written_as text ts) →
     competition_scraper.parse_date date_str = Datetime.min) ∧
  (competition_scraper.parse_date date_str ≠ Datetime.min →
     (∃ y n, Timestamp.reads_as text y n ∧
             Datetime.year (competition_scraper.parse_date date_str) = 2000 + y ∧
             Datetime.month (competition_scraper.parse_date date_str) = n) ∧
     (Timestamp.spaces_only text = true →
        ∃ ts, Timestamp.valid ts ∧ Timestamp.written_as text ts ∧
              competition_scraper.parse_date date_str = Timestamp.instant ts)) ∧
  (Py.raises (competition_scraper.parse_date_body date_str) →
     competition_scraper.parse_date date_str = Datetime.min) ∧
  Datetime.ltb (competition_scraper.parse_date date_str) Datetime.min = false.
Proof.
  intros text.
  assert (Hshape : competition_scraper.parse_date date_str ≠ Datetime.min →
    (∃ y n, Timestamp.reads_as text y n ∧
            Datetime.year (competition_scraper.parse_date date_str) = 2000 + y ∧
            Datetime.month (competition_scraper.parse_date date_str) = n) ∧
    (Timestamp.spaces_only text = true →
       ∃ ts, Timestamp.valid ts ∧ Timestamp.written_as text ts ∧
             competition_scraper.parse_date date_str = Timestamp.instant ts)).
  { unfold competition_scraper.parse_date.
    destruct (competition_scraper.parse_date_body date_str) as [d|] eqn:Hd; [|done].
    intros Hne. split; [by apply parse_date_body_shape|].
    intros Hplain. by apply parse_date_body_plain. }
  split; [|split; [|split; [|split; [|split]]]].
  - intros Hblank. unfold competition_scraper.parse_date,
      competition_scraper.parse_date_body.
    rewrite Hblank. simpl. by rewrite orb_true_r.
  - intros Hnot.
    destruct (decide (competition_scraper.parse_date date_str = Datetime.min))
      as [|Hne]; [done|].
    destruct (Hshape Hne) as [(y & n & Hreads & _) _]. destruct Hnot. by exists y, n.
  - intros Hplain Hnot.
    destruct (decide (competition_scraper.parse_date date_str = Datetime.min))
      as [|Hne]; [done|].
    destruct (Hshape Hne) as [_ Hts]. destruct (Hts Hplain) as (ts & Hvalid & Hwritten & _).
    destruct Hnot. by exists ts.
  - exact Hshape.
  - intros [e He]. unfold competition_scraper.parse_date. by rewrite He.
  - apply parse_date_min_least.
Qed.

Lemma timestamp_totality_witness :
  competition_scraper.parse_date "next Tuesday, around noon" = Datetime.min ∧
  competition_scraper.parse_date "13/9/25 10:45a ET" = Datetime.min ∧
  competition_scraper.parse_date "   " = Datetime.min.
Proof.
  split; [|split].
  - apply (proj1 (proj2 (timestamp_totality "next Tuesday, around noon"))).
    intros (y & n & _ & _ & month & day & time & _ & _ & _ & _ & _ & _ & Halphabet).
    vm_compute in Halphabet. discriminate.
  - apply (proj1 (proj2 (proj2 (timestamp_totality "13/9/25 10:45a ET")))).
    + vm_compute. reflexivity.
    + intros (ts & Hvalid & Hwritten).
      exact (no_thirteenth_month ts "/9/25 10:45a" Hvalid Hwritten).
  - apply (proj1 (timestamp_totality "   ")). vm_compute. reflexivity.
Defined.

(** C2 as the specification words it does not hold: a timestamp
    without the zone mark is no text of the format, and yet its value
    is the date and time it names, not the sentinel. *)
Lemma timestamp_without_zone_parsed :
  Timestamp.in_format "7/9/25 10:45a" = false ∧
  competition_scraper.parse_date "7/9/25 10:45a" = Datetime.mkDatetime 2025 7 9 10 45 ∧
  competition_scraper.parse_date "7/9/25 10:45a" ≠ Datetime.min.
Proof. repeat split; vm_compute; congruence. Qed.

Example in_format_examples :
  Timestamp.in_format "7/9/25 10:45a ET" = true ∧
  Timestamp.in_format "12/31/99 12:05p ET" = true ∧
  Timestamp.in_format "07/09/25 01:45a ET" = true ∧
  Timestamp.in_format "7/9/25 1:5a ET" = false ∧
  Timestamp.in_format "7/9/2025 10:45a ET" = false ∧
  Timestamp.in_format " ET7/9/25 1:5a" = false ∧
  Timestamp.in_format "7/9/25 10:45a ET " = false ∧
  Timestamp.in_format "" = false.
Proof. repeat split; vm_compute; reflexivity. Qed.

Example parse_date_examples :
  competition_scraper.parse_date "7/9/25 10:45a ET" = Datetime.mkDatetime 2025 7 9 10 45 ∧
  competition_scraper.parse_date "12/31/99 12:00p ET" = Datetime.mkDatetime 2099 12 31 12 0 ∧
  competition_scraper.parse_date "1/1/00 12:05a ET" = Datetime.mkDatetime 2000 1 1 0 5 ∧
  competition_scraper.parse_date "" = Datetime.min ∧
  competition_scraper.parse_date "N/A" = Datetime.min ∧
  competition_scraper.parse_date "2/30/25 10:45a ET" = Datetime.min ∧
  competition_scraper.parse_date "7/9/2025 10:45a ET" = Datetime.min ∧
  competition_scraper.parse_date "7/9/25 10:45 AM ET" = Datetime.min ∧
  competition_scraper.parse_date "7/9/25 13:45p ET" = Datetime.min.
Proof. repeat split; vm_compute; reflexivity. Qed.

(** What the normaliser lets pass beside the format: a text without
    the zone mark, or with the mark elsewhere; numbers padded to two
    digits; a minute in one digit. *)
Example parse_date_lenient :
  competition_scraper.parse_date "7/9/25 10:45a" = Datetime.mkDatetime 2025 7 9 10 45 ∧
  competition_scraper.parse_date "  07/09/25 10:45a ET " = Datetime.mkDatetime 2025 7 9 10 45 ∧
  competition_scraper.parse_date " ET7/9/25 1:5a" = Datetime.mkDatetime 2025 7 9 1 5 ∧
  competition_scraper.parse_date "7/9/25 ET 10:45a" = Datetime.mkDatetime 2025 7 9 10 45.
Proof. repeat split; vm_compute; reflexivity. Qed.

(** Whitespace other than the space is let pass in places: before the
    hour, before [a] or [p], before an [AM] in capitals, and even
    after a day that is followed by the time. *)
Example parse_date_whitespace :
  let tab := String (ascii_of_nat 9) "" in
  competition_scraper.parse_date ("7/9/25 " +:+ tab +:+ "10:45a")
    = Datetime.mkDatetime 2025 7 9 10 45 ∧
  competition_scraper.parse_date ("7/9/25 10:45" +:+ tab +:+ "a")
    = Datetime.mkDatetime 2025 7 9 10 45 ∧
  competition_scraper.parse_date ("7/9/25 10:45" +:+ tab +:+ "PM")
    = Datetime.mkDatetime 2025 7 9 22 45 ∧
  competition_scraper.parse_date ("7/9" +:+ tab +:+ "10:45" +:+ tab +:+ "/25 AM")
    = Datetime.mkDatetime 2025 7 9 10 45 ∧
  competition_scraper.parse_date ("7/9/25 10:45" +:+ tab +:+ "am") = Datetime.min.
Proof. repeat split; vm_compute; reflexivity. Qed.
End TimestampClaim.

(** * Properties beyond the specification *)

Section DedupProperties.
Import competition_scraper Samples.

(** X1.  The deduplicator leaves a list unchanged exactly when its
    keys are pairwise distinct. *)
Theorem dedup_unchanged_iff (T : list Transaction) :
  dedup T = T ↔ NoDup (key <$> T).
Proof.
  split.
  - intros <-. apply dedup_loop_NoDup.
  - intros Hnd. apply dedup_loop_NoDup_id; [done|].
    intros t _. apply not_elem_of_empty.
Qed.

(** X2.  Deduplicating two lists put end to end keeps the
    deduplicated first list and, of the deduplicated second, the
    records whose key the first list does not hold; so it is with the
    finds of the two strategies of [parse_transactions]. *)
Theorem dedup_app (T1 T2 : list Transaction) :
  dedup (T1 ++ T2) =
    dedup T1 ++ filter (λ t, key t ∉ key <$> T1) (dedup T2) ∧
  ∀ soup,
    parse_transactions soup =
      dedup (vse_module_loop soup []) ++
      filter (λ t, key t ∉ key <$> vse_module_loop soup [])
        (dedup (header_sniff_loop soup [])).
Proof.
  assert (Happ : ∀ T1 T2, dedup (T1 ++ T2) =
    dedup T1 ++ filter (λ t, key t ∉ key <$> T1) (dedup T2)).
  { clear. intros T1 T2. unfold dedup.
    rewrite dedup_loop_app, dedup_loop_filter. f_equal.
    apply list_filter_iff. intros t. by rewrite elem_of_list_to_set. }
  split; [apply Happ|].
  intros soup. unfold parse_transactions, candidates.
  by rewrite competition_header_sniff_loop, Happ.
Qed.

(** X3.  When the first record of a key is a canceled one, the feed of
    a competitor holding the deduplicated list shows no transaction of
    that key, completed ones included. *)
Theorem canceled_first_hides_key (T : list Transaction) (c : Competitor)
    (i : nat) (t u : Transaction) :
  transactions c = dedup T →
  first_with_key T i t →
  status t = "Canceled" →
  key u = key t →
  activity_of c u ∉ create_activity_feed [c].
Proof.
  intros Hc Hfirst Hst Hkey (c' & t' & Hc' & Ht' & Hst' & Heq)%create_activity_feed_elem.
  apply list_elem_of_singleton in Hc' as ->.
  apply activity_of_key in Heq. rewrite Hc in Ht'.
  assert (t' = t) as ->; [|done].
  apply (NoDup_fmap_elem key (dedup T)); [apply dedup_loop_NoDup|done| |congruence].
  by eapply first_with_key_dedup.
Qed.

Lemma canceled_first_hides_key_witness :
  let canceled := mkTransaction "AAPL" "7/9/25 10:45a ET" "N/A" "Buy" 100 "N/A" "Canceled" in
  let completed :=
    mkTransaction "AAPL" "7/9/25 10:45a ET" "7/9/25 10:46a ET" "Buy" 100 "$150.00"
      "Completed" in
  let c := mkCompetitor "id" "Ann" 1 0 0 0 [canceled] Datetime.min in
  dedup [canceled; completed] = [canceled] ∧
  activity_of c completed ∉ create_activity_feed [c].
Proof.
  intros canceled completed c. split; [vm_compute; reflexivity|].
  apply (canceled_first_hides_key [canceled; completed] c 0 canceled completed).
  - vm_compute. reflexivity.
  - split; [reflexivity|]. intros j u Hj. lia.
  - reflexivity.
  - reflexivity.
Defined.
End DedupProperties.

Section RowProperties.
Import Samples.

(** X4.  A table of [n] rows yields at most [n - 1] transactions:
    the first row is passed over whatever it holds, so a table of one
    row or none yields nothing, in either scraper. *)
Theorem table_first_row_skipped (table : Bs4.Node) :
  let rows := Bs4.find_all (Bs4.named "tr") table in
  (length (competition_scraper._parse_transaction_table table) ≤ length rows - 1)%nat ∧
  (length (marketwatch_scraper._parse_transaction_table table) ≤ length rows - 1)%nat ∧
  ((length rows ≤ 1)%nat →
     competition_scraper._parse_transaction_table table = [] ∧
     marketwatch_scraper._parse_transaction_table table = []).
Proof.
  intros rows.
  assert (H1 : (length (competition_scraper._parse_transaction_table table)
                ≤ length rows - 1)%nat).
  { rewrite competition_table_rows, <- length_tl. apply bind_length_le.
    intros row. unfold competition_scraper.row_transactions.
    destruct (Row.parse_row row); simpl; lia. }
  assert (H2 : (length (marketwatch_scraper._parse_transaction_table table)
                ≤ length rows - 1)%nat).
  { rewrite marketwatch_table_rows, <- length_tl. apply bind_length_le.
    intros row. unfold marketwatch_scraper.row_transactions.
    destruct (Row.parse_row row); simpl; lia. }
  split; [done|]. split; [done|]. intros Hlen.
  split; apply length_zero_iff_nil; lia.
Qed.

Lemma table_first_row_skipped_witness :
  competition_scraper._parse_transaction_table (table "ranking" [aapl_row]) = [] ∧
  marketwatch_scraper._parse_transaction_table (table "ranking" [aapl_row]) = [].
Proof.
  apply (proj2 (proj2 (table_first_row_skipped (table "ranking" [aapl_row])))).
  vm_compute. lia.
Defined.

(** X5.  No transaction has a negative amount: not one read from a
    table row, by either scraper, nor one of [parse_transactions], nor
    one read from CSV. *)
Theorem amounts_never_negative :
  (∀ row t, t ∈ competition_scraper.row_transactions row →
     0 ≤ competition_scraper.amount t) ∧
  (∀ row t, t ∈ marketwatch_scraper.row_transactions row →
     0 ≤ marketwatch_scraper.amount t) ∧
  (∀ soup t, t ∈ competition_scraper.parse_transactions soup →
     0 ≤ competition_scraper.amount t) ∧
  (∀ rows t, t ∈ marketwatch_scraper._parse_transactions_csv rows →
     0 ≤ marketwatch_scraper.amount t).
Proof.
  assert (Hf : ∀ row f, Row.parse_row row = Some f → 0 ≤ Row.f_amount f).
  { intros row f (c0 & c1 & c2 & c3 & c4 & c5 & _ & _ & _ & _ & _ & Ha & _)%parse_row_fields.
    by eapply amount_of_nonneg. }
  split; [|split; [|split]].
  - intros row t. unfold competition_scraper.row_transactions.
    destruct (Row.parse_row row) as [f|] eqn:Hrow; [|by intros ?%elem_of_nil].
    intros ->%list_elem_of_singleton. by apply (Hf row).
  - intros row t. unfold marketwatch_scraper.row_transactions.
    destruct (Row.parse_row row) as [f|] eqn:Hrow; [|by intros ?%elem_of_nil].
    intros ->%list_elem_of_singleton. by apply (Hf row).
  - intros soup t Ht.
    destruct (proj1 (Forall_forall _ _) (parse_transactions_from_row soup) t Ht)
      as (row & f & Hrow & ->).
    by apply (Hf row).
  - intros rows t Ht.
    assert (Hall : Forall (λ t, 0 ≤ marketwatch_scraper.amount t)
                     (marketwatch_scraper._parse_transactions_csv rows));
      [|by apply (proj1 (Forall_forall _ _) Hall)].
    clear t Ht. unfold marketwatch_scraper._parse_transactions_csv.
    destruct (marketwatch_scraper.csv_loop [] rows) as [ts|] eqn:Hloop; [|constructor].
    assert (Hgen : ∀ rows acc ts,
      marketwatch_scraper.csv_loop acc rows = Py.Ok ts →
      Forall (λ t, 0 ≤ marketwatch_scraper.amount t) acc →
      Forall (λ t, 0 ≤ marketwatch_scraper.amount t) ts).
    { clear. induction rows as [|row rows IH]; simpl; intros acc ts.
      - by intros [= <-].
      - destruct (marketwatch_scraper.csv_transaction row) as [t|] eqn:Ht; simpl; [|done].
        intros Hloop Hacc. apply (IH _ _ Hloop). apply Forall_app. split; [done|].
        constructor; [|constructor]. revert Ht.
        unfold marketwatch_scraper.csv_transaction.
        destruct (marketwatch_scraper.replace_commas _) as [amount_text|]; simpl; [|done].
        destruct (if Py.isdigit amount_text then _ else _) as [amount|] eqn:Ha;
          simpl; [|done].
        intros [= <-]. simpl. by apply (amount_of_nonneg amount_text). }
    by apply (Hgen rows [] ts).
Qed.

Lemma amounts_never_negative_witness :
  length (competition_scraper.row_transactions aapl_row) = 1%nat ∧
  Forall (λ t, 0 ≤ competition_scraper.amount t)
    (competition_scraper.row_transactions aapl_row).
Proof.
  split; [vm_compute; reflexivity|].
  apply Forall_forall, (proj1 amounts_never_negative aapl_row).
Defined.

(** X6.  The commas of an amount text are dropped wherever they
    stand: when what is left is a run of decimal digits (no more than
    [int] takes), the amount is the value of that run. *)
Theorem amount_ignores_commas (cell_text : string) :
  Py.replace "," "" cell_text = Py.without "," cell_text ∧
  (Py.is_empty (Py.without "," cell_text) = false →
   Py.all_chars Py.isdecimal_char (Py.without "," cell_text) = true →
   (String.length (Py.without "," cell_text) ≤ Py.max_str_digits)%nat →
   Row.amount_of (Py.replace "," "" cell_text)
     = Py.Ok (Py.digits_value 0 (Py.without "," cell_text))).
Proof.
  split; [apply replace_char_empty|].
  intros Hne Hdec Hlen. rewrite replace_char_empty. by apply amount_of_decimal.
Qed.

Lemma amount_ignores_commas_witness :
  Row.amount_of (Py.replace "," "" ",1,2,,50,") = Py.Ok 1250.
Proof.
  apply (proj2 (amount_ignores_commas ",1,2,,50,")); vm_compute; [reflexivity..|lia].
Defined.

(** X7.  The text fields of a transaction read from a row have no
    whitespace at either end. *)
Theorem row_fields_trimmed (row : Bs4.Node) (f : Row.Fields) :
  Row.parse_row row = Some f →
  Py.strip (Row.f_symbol f) = Row.f_symbol f ∧
  Py.strip (Row.f_order_date f) = Row.f_order_date f ∧
  Py.strip (Row.f_transaction_date f) = Row.f_transaction_date f ∧
  Py.strip (Row.f_action f) = Row.f_action f ∧
  Py.strip (Row.f_price f) = Row.f_price f.
Proof.
  intros (c0 & c1 & c2 & c3 & c4 & c5 & _ & -> & -> & -> & Hsa & _ & ->)%parse_row_fields.
  repeat split; try apply get_text_strip_trimmed.
  destruct (Py.contains "Canceled" (Bs4.get_text_strip c3)) eqn:Hin.
  - destruct (proj1 (action_text_cases (Bs4.get_text_strip c3)) Hin) as [Heq _].
    rewrite Heq in Hsa. injection Hsa as _ ->. apply first_token_trimmed.
  - rewrite (proj2 (action_text_cases (Bs4.get_text_strip c3)) Hin) in Hsa.
    injection Hsa as _ ->. apply get_text_strip_trimmed.
Qed.

Lemma row_fields_trimmed_witness :
  Row.parse_row padded_row
    = Some (Row.mkFields "AAPL" "7/9/25 10:45a ET" "7/9/25 10:46a ET" "BuyCanceled" 1250
              "N/A" "Canceled") ∧
  Py.strip "BuyCanceled" = "BuyCanceled".
Proof.
  split; [vm_compute; reflexivity|].
  apply (proj1 (proj2 (proj2 (proj2 (row_fields_trimmed padded_row
    (Row.mkFields "AAPL" "7/9/25 10:45a ET" "7/9/25 10:46a ET" "BuyCanceled" 1250
       "N/A" "Canceled") ltac:(vm_compute; reflexivity)))))).
Defined.
End RowProperties.

Section FeedProperties.
Import competition_scraper Samples.

(** X8.  When the competitors' transactions are those
    [parse_transactions] reads from their pages, no item of the feed
    has the text "Canceled" in its action. *)
Theorem feed_actions_never_canceled (competitors : list Competitor) :
  (∀ c, c ∈ competitors → ∃ soup, transactions c = parse_transactions soup) →
  ∀ item, item ∈ create_activity_feed competitors →
    Py.contains "Canceled" (Activity.action item) = false.
Proof.
  intros Hparsed item (c & t & Hc & Ht & Hst & ->)%create_activity_feed_elem.
  destruct (Hparsed c Hc) as [soup Hsoup]. rewrite Hsoup in Ht.
  destruct (proj1 (Forall_forall _ _) (parse_transactions_from_row soup) t Ht)
    as (row & f & Hrow & ->).
  apply parse_row_fields
    in Hrow as (c0 & c1 & c2 & c3 & c4 & c5 & _ & _ & _ & _ & Hsa & _).
  simpl in *.
  destruct (Py.contains "Canceled" (Bs4.get_text_strip c3)) eqn:Hin.
  - destruct (proj1 (action_text_cases _) Hin) as [Heq _].
    rewrite Heq in Hsa. by injection Hsa as Hs _.
  - rewrite (proj2 (action_text_cases _) Hin) in Hsa.
    injection Hsa as _ ->. done.
Qed.

Lemma feed_actions_never_canceled_witness :
  let soup := document [table "ranking" [header; aapl_row; canceled_row]] in
  let c := mkCompetitor "id" "Ann" 1 0 0 0 (parse_transactions soup) Datetime.min in
  length (parse_transactions soup) = 2%nat ∧
  ∀ item, item ∈ create_activity_feed [c] →
    Py.contains "Canceled" (Activity.action item) = false.
Proof.
  intros soup c. split; [vm_compute; reflexivity|].
  apply (feed_actions_never_canceled [c]).
  intros c' ->%list_elem_of_singleton. by exists soup.
Defined.

(** X9.  Items whose timestamp does not parse come last: behind an
    item with the sentinel key every item has the sentinel key. *)
Theorem unknown_timestamps_last (competitors : list Competitor) (i j : nat)
    (x y : Activity.t) :
  create_activity_feed competitors !! i = Some x →
  create_activity_feed competitors !! j = Some y →
  (i < j)%nat →
  parse_date (Activity.timestamp x) = Datetime.min →
  parse_date (Activity.timestamp y) = Datetime.min.
Proof.
  intros Hx Hy Hij Hmin.
  pose proof (StronglySorted_lookup_lt _ _ _ _ _ _
                (create_activity_feed_sorted competitors) Hx Hy Hij) as Hxy.
  unfold Py.not_below, sort_key in Hxy. rewrite Hmin in Hxy.
  destruct (parse_date_year (Activity.timestamp y)) as [Hy'|Hyear]; [done|].
  apply ltb_ge in Hxy. simpl in Hxy. exfalso. apply Hxy. lia.
Qed.

Lemma unknown_timestamps_last_witness :
  let t0 := mkTransaction "AAPL" "" "" "Buy" 1 "$1" "Completed" in
  let c := holding (mkCompetitor "id" "Ann" 1 0 0 0 [] Datetime.min)
             [placed t0 "soon"; placed t0 "7/9/25 10:45a ET"; placed t0 "N/A"] in
  (Activity.timestamp <$> create_activity_feed [c]) = ["7/9/25 10:45a ET"; "soon"; "N/A"] ∧
  parse_date "N/A" = Datetime.min.
Proof.
  intros t0 c. split; [vm_compute; reflexivity|].
  apply (unknown_timestamps_last [c] 1 2 (activity_of c (placed t0 "soon"))
           (activity_of c (placed t0 "N/A")));
    first [lia | vm_compute; reflexivity].
Defined.
End FeedProperties.

Section CsvProperties.
Import marketwatch_scraper Samples.

(** X10.  The CSV path is all or nothing: when every row converts,
    the result has one transaction for each row, in order; when the
    conversion of one row raises, no transaction is returned at all.
    A row raises when its [Amount] column is [None] (the row is
    shorter than the header). *)
Theorem csv_all_or_nothing (rows : list CsvRow) :
  (Forall (λ row, ∃ t, csv_transaction row = Py.Ok t) rows →
     Forall2 (λ row t, csv_transaction row = Py.Ok t) rows
       (_parse_transactions_csv rows)) ∧
  (Exists (λ row, Py.raises (csv_transaction row)) rows →
     _parse_transactions_csv rows = []) ∧
  (∀ row, row !! "Amount" = Some None → Py.raises (csv_transaction row)).
Proof.
  assert (Hok : ∀ rows acc,
    Forall (λ row, ∃ t, csv_transaction row = Py.Ok t) rows →
    ∃ ts, csv_loop acc rows = Py.Ok (acc ++ ts) ∧
          Forall2 (λ row t, csv_transaction row = Py.Ok t) rows ts).
  { clear. induction rows as [|row rows IH]; intros acc Hall.
    - exists []. split; [by rewrite app_nil_r|constructor].
    - apply Forall_cons in Hall as [[t Ht] Hall].
      destruct (IH (acc ++ [t]) Hall) as (ts & Hloop & Hts).
      exists (t :: ts). simpl. rewrite Ht. simpl. rewrite Hloop, <- app_assoc.
      split; [done|by constructor]. }
  assert (Hbad : ∀ rows acc,
    Exists (λ row, Py.raises (csv_transaction row)) rows →
    Py.raises (csv_loop acc rows)).
  { clear. induction rows as [|row rows IH]; intros acc Hex.
    - by apply Exists_nil in Hex.
    - simpl. destruct (csv_transaction row) as [t|e] eqn:Ht; simpl.
      + apply IH. apply Exists_cons in Hex as [[e He]|Hex]; [congruence|done].
      + by exists e. }
  split; [|split].
  - intros Hall. destruct (Hok rows [] Hall) as (ts & Hloop & Hts).
    unfold _parse_transactions_csv. by rewrite Hloop.
  - intros Hex. destruct (Hbad rows [] Hex) as [e He].
    unfold _parse_transactions_csv. by rewrite He.
  - intros row Hrow. exists Py.AttributeError.
    unfold csv_transaction, row_get. by rewrite Hrow.
Qed.

Lemma csv_all_or_nothing_witness :
  _parse_transactions_csv
    [csv_row "AAPL" "Buy" "100"; <["Amount" := None]> (csv_row "MSFT" "Sell" "5")] = [] ∧
  length (_parse_transactions_csv
            [csv_row "AAPL" "Buy" "100"; csv_row "MSFT" "Sell" "5"]) = 2%nat.
Proof.
  split.
  - apply (proj1 (proj2 (csv_all_or_nothing _))).
    apply Exists_cons_tl, Exists_cons_hd.
    apply (proj2 (proj2 (csv_all_or_nothing []))). vm_compute. reflexivity.
  - vm_compute. reflexivity.
Defined.
End CsvProperties.

Section LocatorProperties.
Import Samples.

(** X11.  The single-portfolio scraper does not deduplicate: when the
    table found by class also stands inside a transactions module,
    each of its transactions is returned at two places. *)
Theorem single_portfolio_keeps_duplicates {J : Type}
    (json_loads : string → Py.result J) (soup table module : Bs4.Node)
    (t : marketwatch_scraper.Transaction) :
  Bs4.find (Bs4.with_class "table" (String.eqb "table table--primary ranking")) soup
    = Some table →
  module ∈ Bs4.find_all (Bs4.attr_is "is" "vse-module") soup →
  Bs4.get "view" module = Some "transactions" →
  table ∈ Bs4.find_all (Bs4.named "table") module →
  t ∈ marketwatch_scraper._parse_transaction_table table →
  ∃ i j, (i < j)%nat ∧
    marketwatch_scraper._parse_transactions json_loads soup !! i = Some t ∧
    marketwatch_scraper._parse_transactions json_loads soup !! j = Some t.
Proof.
  intros Hfind Hmod Hview Htab Ht.
  unfold marketwatch_scraper._parse_transactions.
  rewrite marketwatch_vse_module_loop, !marketwatch_div_loop, marketwatch_script_loop.
  assert (Hstep : marketwatch_scraper.table_step soup []
                  = marketwatch_scraper._parse_transaction_table table).
  { unfold marketwatch_scraper.table_step. by rewrite Hfind. }
  rewrite Hstep.
  set (first := marketwatch_scraper._parse_transaction_table table).
  set (second := marketwatch_scraper.vse_module_loop soup []).
  assert (Hsecond : t ∈ second).
  { unfold second, marketwatch_scraper.vse_module_loop.
    rewrite (foldl_extend_ext _ (λ module : Bs4.Node,
      if bool_decide (Bs4.get "view" module = Some "transactions")
      then Bs4.find_all (Bs4.named "table") module
             ≫= marketwatch_scraper._parse_transaction_table
      else [])).
    - simpl. apply list_elem_of_bind. exists module. split; [|done].
      rewrite bool_decide_eq_true_2 by done.
      apply list_elem_of_bind. by exists table.
    - intros acc m. case_bool_decide; [by rewrite foldl_extend|by rewrite app_nil_r]. }
  apply list_elem_of_lookup_1 in Ht as [i Hi].
  apply list_elem_of_lookup_1 in Hsecond as [j Hj].
  pose proof (lookup_lt_Some _ _ _ Hi) as Hlt. fold first in Hi, Hlt.
  exists i, (length first + j)%nat. split; [lia|]. split.
  - by rewrite lookup_app_l.
  - rewrite lookup_app_r by lia. by replace (length first + j - length first)%nat with j by lia.
Qed.

Lemma single_portfolio_keeps_duplicates_witness :
  let tbl := table "table table--primary ranking" [header; aapl_row] in
  let soup := document [module [tbl]] in
  let t := marketwatch_scraper.mkTransaction (Some "AAPL") (Some "7/9/25 10:45a ET")
             (Some "7/9/25 10:46a ET") (Some "Buy") 100 (Some "$150.00") "Completed" in
  marketwatch_scraper._parse_transactions
    (λ _ : string, Py.Raise (A:=unit) Py.JSONDecodeError) soup = [t; t] ∧
  ∃ i j, (i < j)%nat ∧
    marketwatch_scraper._parse_transactions
      (λ _ : string, Py.Raise (A:=unit) Py.JSONDecodeError) soup !! i = Some t ∧
    marketwatch_scraper._parse_transactions
      (λ _ : string, Py.Raise (A:=unit) Py.JSONDecodeError) soup !! j = Some t.
Proof.
  intros tbl soup t. split; [vm_compute; reflexivity|].
  apply (single_portfolio_keeps_duplicates _ soup tbl (module [tbl]) t).
  - vm_compute. reflexivity.
  - vm_compute. by left.
  - vm_compute. reflexivity.
  - vm_compute. by left.
  - vm_compute. by left.
Defined.
End LocatorProperties.

Section TimestampProperties.
Import Datetime Timestamp competition_scraper Samples.

(** X12.  A timestamp in the format of the pages, [7/9/25 10:45a ET],
    with the fields of a calendar date of the years 2000 to 2099 and of
    a time on the 12-hour clock, is normalised to that date and time on
    the 24-hour clock: 12 AM is hour 0 and 12 PM is hour 12.  It is
    never given the key of the unknown timestamps. *)
Theorem shown_timestamp_parsed (ts : Timestamp.t) :
  valid ts →
  parse_date (shown ts) = instant ts ∧ parse_date (shown ts) ≠ Datetime.min.
Proof.
  intros Hts. rewrite parse_date_shown by done. split; [done|].
  destruct Hts as (Hy & _). unfold instant. intros [= Hmin _]. lia.
Qed.

Lemma shown_timestamp_parsed_witness :
  shown (Timestamp.mk 7 9 25 12 5 AM) = "7/9/25 12:05a ET" ∧
  parse_date (shown (Timestamp.mk 7 9 25 12 5 AM)) = mkDatetime 2025 7 9 0 5.
Proof.
  split; [reflexivity|].
  apply (shown_timestamp_parsed (Timestamp.mk 7 9 25 12 5 AM)).
  repeat split; by vm_compute.
Defined.

(** X13.  Where two items of the feed carry timestamps of that format,
    the later one in the feed is not the more recent one: the order of
    the feed is the order of the dates and times shown. *)
Theorem feed_chronological (competitors : list Competitor) (i j : nat)
    (a b : Activity.t) (ta tb : Timestamp.t) :
  create_activity_feed competitors !! i = Some a →
  create_activity_feed competitors !! j = Some b →
  (i < j)%nat →
  Activity.timestamp a = shown ta → valid ta →
  Activity.timestamp b = shown tb → valid tb →
  Datetime.ltb (instant ta) (instant tb) = false.
Proof.
  intros Ha Hb Hij Hsa Hva Hsb Hvb.
  pose proof (StronglySorted_lookup_lt _ _ _ _ _ _
                (create_activity_feed_sorted competitors) Ha Hb Hij) as Hab.
  unfold Py.not_below, sort_key in Hab.
  by rewrite Hsa, Hsb, !parse_date_shown in Hab.
Qed.

Lemma feed_chronological_witness :
  let t0 := mkTransaction "AAPL" "" "" "Buy" 1 "$1" "Completed" in
  let c := holding (mkCompetitor "id" "Ann" 1 0 0 0 [] Datetime.min)
             [placed t0 "7/9/25 12:05p ET"; placed t0 "7/9/25 10:45a ET";
              placed t0 "7/9/25 1:30p ET"] in
  (Activity.timestamp <$> create_activity_feed [c]) =
    ["7/9/25 1:30p ET"; "7/9/25 12:05p ET"; "7/9/25 10:45a ET"] ∧
  Datetime.ltb (mkDatetime 2025 7 9 13 30) (mkDatetime 2025 7 9 12 5) = false.
Proof.
  intros t0 c. split; [vm_compute; reflexivity|].
  apply (feed_chronological [c] 0 1 (activity_of c (placed t0 "7/9/25 1:30p ET"))
           (activity_of c (placed t0 "7/9/25 12:05p ET"))
           (Timestamp.mk 7 9 25 1 30 PM) (Timestamp.mk 7 9 25 12 5 PM));
    first [lia | vm_compute; reflexivity | repeat split; by vm_compute].
Defined.
End TimestampProperties.

Section LeaderboardProperties.
Import leaderboard_scraper Samples.

(** X14.  Every entry of the leaderboard has a non-empty id without
    [&], and a name without blanks at its ends, whatever the page; a
    failed request gives no entry. *)
Theorem leaderboard_entries_well_formed (page : option Bs4.Node) :
  Forall well_formed (scrape_leaderboard page) ∧
  scrape_leaderboard None = [].
Proof.
  split; [|reflexivity].
  destruct page as [soup|]; [|constructor]. simpl. unfold competitors_of.
  case_bool_decide as Hempty; [|apply table_pass_well_formed].
  rewrite Hempty.
  destruct (link_pass_spec (Bs4.find_all portfolio_link soup) 1 [])
    as (added & -> & _ & Hall).
  eapply Forall_impl; [exact Hall|].
  intros [[public_id name] rank] (n & link & _ & _ & Hid & Hname). simpl in *.
  apply pub_search_sound in Hid as (Hne & Hamp & _).
  split; [done|]. split; [done|]. simpl. rewrite Hname.
  apply get_text_strip_trimmed.
Qed.

(** X15.  When no row of a leaderboard table gives an entry, the
    entries come from the portfolio links of the page: the rank of an
    entry is the place of its link among those links, counted from 1
    and counting the links without an id, the id and the name are
    those of that link, and the ranks go up strictly. *)
Theorem leaderboard_fallback_ranks (soup : Bs4.Node) :
  table_pass soup = [] →
  let links := Bs4.find_all portfolio_link soup in
  let found := scrape_leaderboard (Some soup) in
  StronglySorted Z.lt (snd <$> found) ∧
  Forall (λ e, ∃ n link,
            links !! n = Some link ∧ e.2 = Z.of_nat n + 1 ∧
            pub_search (href_of link) = Some e.1.1 ∧
            e.1.2 = Bs4.get_text_strip link) found.
Proof.
  intros Hempty links found. subst found links. simpl. unfold competitors_of.
  rewrite Hempty, bool_decide_eq_true_2 by done.
  destruct (link_pass_spec (Bs4.find_all portfolio_link soup) 1 [])
    as (added & -> & Hsorted & Hall).
  split; [done|]. eapply Forall_impl; [exact Hall|].
  intros e (n & link & Hn & Hrank & He). exists n, link.
  split; [done|]. split; [lia|done].
Qed.

Lemma leaderboard_fallback_ranks_witness :
  let soup := document [player_link "/games/g/portfolio?pub=abc" "Ann";
                        player_link "/portfolio?pub=" "Nobody";
                        player_link "/games/g/portfolio?pub=d&x=1" " Bob "] in
  scrape_leaderboard (Some soup) = [("abc", "Ann", 1); ("d", "Bob", 3)] ∧
  StronglySorted Z.lt (snd <$> scrape_leaderboard (Some soup)).
Proof.
  intros soup. split; [vm_compute; reflexivity|].
  apply (leaderboard_fallback_ranks soup). vm_compute. reflexivity.
Defined.

(** X16.  Reading the id back from the address [scrape_competitor]
    builds gives the id it was built from, when the id is not empty and
    has no [&] and the game's name does not contain [pub=]. *)
Theorem portfolio_url_round_trip (game_uri public_id : string) :
  Py.contains "pub=" game_uri = false →
  Py.is_empty public_id = false →
  Py.contains "&" public_id = false →
  pub_search (competition_scraper.portfolio_url game_uri public_id) = Some public_id.
Proof.
  intros Hgame Hne Hamp. unfold competition_scraper.portfolio_url.
  rewrite !append_cons.
  change ("" +:+ game_uri +:+ ?s) with (game_uri +:+ s).
  change ("" +:+ public_id) with public_id.
  do 34 (rewrite pub_search_miss by reflexivity).
  rewrite pub_search_skip by done.
  do 11 (rewrite pub_search_miss by reflexivity).
  change (pub_search (String "p" (String "u" (String "b" (String "=" public_id)))))
    with (if Py.is_empty (upto_amp public_id)
          then pub_search (String "u" (String "b" (String "=" public_id)))
          else Some (upto_amp public_id)).
  by rewrite upto_amp_id, Hne.
Qed.

Lemma portfolio_url_round_trip_witness :
  let game_uri := "baird-pwm-intern-stock-market-competition" in
  competition_scraper.portfolio_url game_uri "-Ct8JFv9TYip" =
    "https://www.marketwatch.com/games/baird-pwm-intern-stock-market-competition/portfolio?pub=-Ct8JFv9TYip" ∧
  pub_search (competition_scraper.portfolio_url game_uri "-Ct8JFv9TYip") =
    Some "-Ct8JFv9TYip".
Proof.
  intros game_uri. split; [reflexivity|].
  apply (portfolio_url_round_trip game_uri "-Ct8JFv9TYip"); reflexivity.
Defined.
End LeaderboardProperties.

Section PortfolioProperties.
Import marketwatch_scraper.

(** X17.  The transactions stored with the portfolio are those of the
    page when the page gives any; otherwise they are those of the CSV
    download, all with status [Completed].  The two sources are never
    mixed. *)
Theorem html_transactions_first {J : Type} (json_loads : string → Py.result J)
    (page : option Bs4.Node) (download : option (list CsvRow)) :
  match get_transactions json_loads page with
  | Some (t :: l) => performance_transactions json_loads page download = t :: l
  | _ =>
      performance_transactions json_loads page download =
        default [] (get_transactions_csv download) ∧
      Forall (λ t, status t = "Completed")
        (performance_transactions json_loads page download)
  end.
Proof.
  unfold performance_transactions.
  assert (Hcsv : Forall (λ t, status t = "Completed")
                   (default [] (get_transactions_csv download))).
  { destruct download as [rows|]; [|constructor].
    apply _parse_transactions_csv_status. }
  destruct (get_transactions json_loads page) as [[|t l]|]; simpl; [| done |].
  - destruct (get_transactions_csv download) as [[|t l]|]; simpl; by split.
  - destruct (get_transactions_csv download) as [[|t l]|]; simpl; by split.
Qed.
End PortfolioProperties.

Section NameProperties.
Import competition_scraper.

(** X18.  The name read from a portfolio page never has blanks at its
    ends, from whichever of the three places it comes. *)
Theorem competitor_name_trimmed (soup : Bs4.Node) :
  Py.strip (get_competitor_name soup) = get_competitor_name soup.
Proof.
  unfold get_competitor_name.
  destruct (Bs4.find _ soup) as [name_elem|]; [apply get_text_strip_trimmed|].
  destruct (Bs4.find _ soup) as [profile_elem|]; [apply get_text_strip_trimmed|].
  reflexivity.
Qed.
End NameProperties.

Section RunProperties.
Import auto_scraper.

Local Ltac settle world :=
  repeat split; intros;
  repeat match goal with
    | H : ∀ cmd, world cmd = _ |- _ =>
        pose proof (H leaderboard_scraper); pose proof (H competition_scraper);
        pose proof (H copy_data); clear H
    | H : _ ∧ _ |- _ => destruct H
    | H : _ ∈ _ |- _ => apply list_elem_of_In in H; simpl in H
    end;
  try congruence; try tauto; try (intuition congruence);
  try (apply list_elem_of_In; simpl; tauto);
  try match goal with |- world ?cmd = _ => destruct cmd; congruence end;
  try (by eexists [_; _]); try (by eexists [_]); try (by eexists []).

(** X19.  A run reports success exactly when the two scrapers and the
    copy all return code 0.  The copy to the frontend is started only
    after both scrapers have returned 0, the competition scraper only
    after the leaderboard scraper has, and nothing is started twice or
    out of order. *)
Theorem run_scrapers_sequence (world : Command → Outcome) :
  ((run_scrapers world).1 = true ↔ ∀ cmd, world cmd = Returned 0) ∧
  (copy_data ∈ (run_scrapers world).2 ↔
     world leaderboard_scraper = Returned 0 ∧ world competition_scraper = Returned 0) ∧
  (competition_scraper ∈ (run_scrapers world).2 ↔
     world leaderboard_scraper = Returned 0) ∧
  (run_scrapers world).2 `prefix_of` [leaderboard_scraper; competition_scraper; copy_data].
Proof.
  unfold run_scrapers, subprocess_run.
  destruct (world leaderboard_scraper) as [rc1| |] eqn:H1;
    [destruct (Z.eqb_spec rc1 0) as [->|]|..]; simpl; [|settle world..].
  destruct (world competition_scraper) as [rc2| |] eqn:H2;
    [destruct (Z.eqb_spec rc2 0) as [->|]|..]; simpl; [|settle world..].
  destruct (world copy_data) as [rc3| |] eqn:H3;
    [destruct (Z.eqb_spec rc3 0) as [->|]|..]; simpl; settle world.
Qed.
End RunProperties.
